(** * klr.core45: locating CoreCLR and driving its host interface

    A shallow embedding of [src/klr.core45/klr.core45.cpp]: the directory
    scan that builds the trusted platform assembly list ([ScanDirectory]),
    the search for [coreclr.dll] ([LoadCoreClr]) and the host life cycle
    ([CallApplicationMain]).

    The program is a sequence of calls into the operating system, the C
    runtime and the CLR host.  Each call is recorded in a log; what a call
    answers is given by a [World], which may look at the whole log so far,
    so that two calls with the same arguments need not answer alike. *)

From Stdlib Require Import ZArith List String Ascii Bool Lia.
Import ListNotations.

Open Scope string_scope.
Open Scope Z_scope.

(** ** Wide strings and the bounds-checked C runtime functions

    A [WCHAR] string is modelled by its characters up to the terminating
    null.  Sizes are counted in characters, as the [_s] functions do. *)

Definition wcslen (s : string) : Z := Z.of_nat (String.length s).

(** [windef.h] *)
Definition MAX_PATH : Z := 260.

(** [errno.h] *)
Definition ERANGE : Z := 34.

(** Line 9. *)
Definition TRUSTED_PLATFORM_ASSEMBLIES_STRING_BUFFER_SIZE_CCH : Z := 63 * 1024.

(** [wcscpy_s(dest, size, src)] of the C runtime: the copy and [0] when
    [src] and its terminator fit in [size] characters; otherwise [ERANGE],
    and [dest[0]] is set to the null character.  The result is the error
    code and the string then held by [dest]. *)
Definition wcscpy_s (numberOfElements : Z) (src : string) : Z * string :=
  if wcslen src <? numberOfElements then (0, src) else (ERANGE, "").

(** [wcscat_s(dest, size, src)] of the C runtime: appends when the
    concatenation and its terminator fit in [size] characters; otherwise
    [ERANGE], and [dest[0]] is set to the null character. *)
Definition wcscat_s (dest : string) (numberOfElements : Z) (src : string)
  : Z * string :=
  if wcslen dest + wcslen src <? numberOfElements
  then (0, dest ++ src)
  else (ERANGE, "").

(** [wcscmp(a, b) == 0] *)
Definition wcscmp_eq (a b : string) : bool := String.eqb a b.

(** The last character of a string, [s[wcslen(s) - 1]]; there is none in
    the empty string, where the index is out of bounds. *)
Fixpoint last_wchar (s : string) : option ascii :=
  match s with
  | EmptyString => None
  | String c EmptyString => Some c
  | String _ r => last_wchar r
  end.

Definition backslash : ascii := "\"%char.

(** ** Handles, results and directory entries *)

Definition HMODULE := Z.
Definition FARPROC := Z.
Definition HRESULT := Z.

Definition nullptr : Z := 0.
Definition is_null (p : Z) : bool := p =? 0.

Definition S_OK : HRESULT := 0.
Definition FAILED (hr : HRESULT) : bool := hr <? 0.

(** The two fields of [WIN32_FIND_DATA] that the scan reads. *)
Record WIN32_FIND_DATA := mkFindData {
  dwFileAttributes : Z;
  cFileName : string
}.

(** [winnt.h], [libloaderapi.h] *)
Definition FILE_ATTRIBUTE_DIRECTORY : Z := 16.
Definition LOAD_LIBRARY_SEARCH_USER_DIRS : Z := 1024.
Definition LOAD_LIBRARY_SEARCH_DEFAULT_DIRS : Z := 4096.

(** Modelled from the spec: [CALL_APPLICATION_MAIN_DATA] is declared in
    [klr.h], which is not among the sources; these are the fields that
    [CallApplicationMain] reads and writes.  A null string pointer is
    [None]. *)
Record CALL_APPLICATION_MAIN_DATA := mkData {
  klrDirectory : option string;
  applicationBase : option string;
  argc : Z;
  argv : list string;
  exitcode : Z
}.

(** The two conditional-compilation switches of the file. *)
Record build := mkBuild {
  AMD64 : bool;
  (** [KRE_TARGET_OS == Win7PlusCoreSystem] *)
  Win7PlusCoreSystem : bool
}.

(** ** The log of calls *)

(** An argument of a formatted print. *)
Inductive printf_arg :=
| arg_s (s : string)
| arg_d (n : Z).

(** One call leaving the program, with what it answered; and, for
    [ScanDirectory], the note of its return: the pattern, [ret] and the
    string left in the buffer.  Format strings are kept as they are
    spelled in the source, escape sequences unexpanded. *)
Inductive event :=
| Ev_GetEnvironmentVariableW (lpName : string) (value : option string)
| Ev_LoadLibraryExW (lpLibFileName : string) (dwFlags : Z) (h : HMODULE)
| Ev_FreeLibrary (h : HMODULE)
| Ev_GetProcAddress (hModule : HMODULE) (lpProcName : string) (p : FARPROC)
| Ev_AddDllDirectory (dir : string)
| Ev_SetDefaultDllDirectories (flags : Z)
| Ev_GetModuleFileName (hModule : HMODULE) (path : string)
| Ev_GetModuleHandleExW (path : string) (ok : bool)
| Ev_SetEnvironmentVariable (name value : string)
| Ev_FindFirstFile (lpFileName : string) (found : list WIN32_FIND_DATA)
| Ev_ScanDirectory_returns (szPattern : string) (ret : bool) (buf : string)
| Ev_calloc (nonnull : bool)
| Ev_free
| Ev_printf (format : string) (args : list printf_arg)
| Ev_GetCLRRuntimeHost (hr : HRESULT)
| Ev_SetStartupFlags
| Ev_Authenticate (hr : HRESULT)
| Ev_Start (hr : HRESULT)
| Ev_CreateAppDomainWithManager
    (appbase : option string) (tpa apppaths : string)
    (hr : HRESULT) (domainId : Z)
| Ev_CreateDelegate (domainId : Z) (hr : HRESULT)
| Ev_HostMain (argc : Z) (argv : list string) (ret : Z)
| Ev_UnloadAppDomain (domainId : Z)
| Ev_Stop.

(** Oldest call first. *)
Definition history := list event.

Bind Scope list_scope with history.

(** What the surroundings answer, given all calls made so far.

    [os_FindFiles] is the sequence of records that [FindFirstFile] and the
    following [FindNextFile] calls hand out for a search string; it is
    empty when [FindFirstFile] returns [INVALID_HANDLE_VALUE]. *)
Record World := mkWorld {
  os_GetEnvironmentVariableW : history -> string -> option string;
  os_LoadLibraryExW : history -> string -> Z -> HMODULE;
  os_GetProcAddress : history -> HMODULE -> string -> FARPROC;
  os_GetModuleFileName : history -> HMODULE -> string;
  os_GetModuleHandleExW : history -> string -> bool;
  os_FindFiles : history -> string -> list WIN32_FIND_DATA;
  os_calloc : history -> bool;
  clr_GetCLRRuntimeHost : history -> HRESULT;
  clr_Authenticate : history -> HRESULT;
  clr_Start : history -> HRESULT;
  clr_CreateAppDomainWithManager :
    history -> option string -> string -> string -> HRESULT * Z;
  clr_CreateDelegate : history -> Z -> HRESULT;
  clr_HostMain : history -> Z -> list string -> Z
}.

(** ** A monad for the control flow of the file

    The state holds the log and the variables of [CallApplicationMain]
    that are read at its [Finished] label or live in the caller. *)
Record state := mkState {
  log : history;
  hr : HRESULT;
  (** [None] is the null pointer; otherwise the string in the buffer *)
  pwszTrustedPlatformAssemblies : option string;
  data_exitcode : Z
}.

Inductive outcome (A : Type) :=
| Next (a : A)        (** control reaches the next statement *)
| Goto_Finished       (** [goto Finished] *)
| Return (b : bool)   (** [return b] *)
| Undefined           (** an access outside an array, or a read of an
                          array that was never written *)
| Out_of_fuel.        (** the loop bound of the model was used up *)

Arguments Next {A} a.
Arguments Goto_Finished {A}.
Arguments Return {A} b.
Arguments Undefined {A}.
Arguments Out_of_fuel {A}.

Definition M (A : Type) := state -> state * outcome A.

Definition ret {A} (a : A) : M A := fun s => (s, Next a).

Definition bind {A B} (m : M A) (k : A -> M B) : M B :=
  fun s =>
    match m s with
    | (s', Next a) => k a s'
    | (s', Goto_Finished) => (s', Goto_Finished)
    | (s', Return b) => (s', Return b)
    | (s', Undefined) => (s', Undefined)
    | (s', Out_of_fuel) => (s', Out_of_fuel)
    end.

Notation "x <- c1 ;; c2" := (bind c1 (fun x => c2))
  (at level 61, c1 at next level, right associativity).
Notation "' pat <- c1 ;; c2" :=
  (bind c1 (fun x => match x with pat => c2 end))
  (at level 61, pat pattern, c1 at next level, right associativity).
Notation "c1 ;; c2" := (bind c1 (fun _ => c2))
  (at level 61, right associativity).

Definition goto_Finished {A} : M A := fun s => (s, Goto_Finished).
Definition return_ {A} (b : bool) : M A := fun s => (s, Return b).
Definition undefined {A} : M A := fun s => (s, Undefined).
Definition out_of_fuel {A} : M A := fun s => (s, Out_of_fuel).

Definition record (e : event) (s : state) : state :=
  mkState (log s ++ [e])%list (hr s) (pwszTrustedPlatformAssemblies s)
          (data_exitcode s).

Definition emit (e : event) : M unit := fun s => (record e s, Next tt).

Definition set_hr (v : HRESULT) : M unit :=
  fun s => (mkState (log s) v (pwszTrustedPlatformAssemblies s)
                    (data_exitcode s), Next tt).

Definition set_pwszTrustedPlatformAssemblies (p : option string) : M unit :=
  fun s => (mkState (log s) (hr s) p (data_exitcode s), Next tt).

Definition set_exitcode (v : Z) : M unit :=
  fun s => (mkState (log s) (hr s) (pwszTrustedPlatformAssemblies s) v,
            Next tt).

(** Line 10. *)
Definition CHECK_RETURN_VALUE_FAIL_EXIT_VIA_FINISHED (errno : Z) : M unit :=
  if negb (errno =? 0) then goto_Finished else ret tt.

(** [errno = f(buffer, ...); CHECK_RETURN_VALUE_FAIL_EXIT_VIA_FINISHED(errno);]
    for a string function [f] writing to a local array: the string the
    array then holds. *)
Definition checked (r : Z * string) : M string :=
  CHECK_RETURN_VALUE_FAIL_EXIT_VIA_FINISHED (fst r) ;; ret (snd r).

(** A block that ends at a [Finished] label returning the value [v] that
    the result variable holds at every [goto]. *)
Definition Finished_returning {A} (v : A) (m : M A) : M A :=
  fun s =>
    match m s with
    | (s', Goto_Finished) => (s', Next v)
    | r => r
    end.

Definition when (c : bool) (m : M unit) : M unit := if c then m else ret tt.

(** ** Calls into the operating system and the host *)

Section Program.

Variable w : World.
Variable cfg : build.

Definition printf_s (format : string) (args : list printf_arg) : M unit :=
  emit (Ev_printf format args).

(** [GetEnvironmentVariableW(lpName, buffer, nSize)]: the count returned
    and the string written to the buffer.  An absent variable gives [0]; a
    value that does not fit with its terminator gives the size needed and
    leaves the buffer as it was ([None]). *)
Definition GetEnvironmentVariableW (lpName : string) (nSize : Z)
  : M (Z * option string) :=
  fun s =>
    let v := os_GetEnvironmentVariableW w (log s) lpName in
    let s' := record (Ev_GetEnvironmentVariableW lpName v) s in
    match v with
    | None => (s', Next (0, None))
    | Some val =>
        if wcslen val <? nSize
        then (s', Next (wcslen val, Some val))
        else (s', Next (wcslen val + 1, None))
    end.

Definition LoadLibraryExW (lpLibFileName : string) (dwFlags : Z)
  : M HMODULE :=
  fun s =>
    let h := os_LoadLibraryExW w (log s) lpLibFileName dwFlags in
    (record (Ev_LoadLibraryExW lpLibFileName dwFlags h) s, Next h).

Definition GetProcAddress (hModule : HMODULE) (lpProcName : string)
  : M FARPROC :=
  fun s =>
    let p := os_GetProcAddress w (log s) hModule lpProcName in
    (record (Ev_GetProcAddress hModule lpProcName p) s, Next p).

(** [GetModuleFileName(module, buffer, MAX_PATH)]: the count returned and
    the string written.  A path that does not fit is cut to
    [MAX_PATH - 1] characters and the count is [MAX_PATH]. *)
Definition GetModuleFileName (hModule : HMODULE) : M (Z * string) :=
  fun s =>
    let p := os_GetModuleFileName w (log s) hModule in
    let s' := record (Ev_GetModuleFileName hModule p) s in
    if wcslen p <? MAX_PATH
    then (s', Next (wcslen p, p))
    else (s', Next (MAX_PATH, String.substring 0 259 p)).

Definition GetModuleHandleExW_pin (path : string) : M bool :=
  fun s =>
    let ok := os_GetModuleHandleExW w (log s) path in
    (record (Ev_GetModuleHandleExW path ok) s, Next ok).

Definition calloc : M bool :=
  fun s =>
    let ok := os_calloc w (log s) in
    (record (Ev_calloc ok) s, Next ok).

Definition FindFirstFile (lpFileName : string) : M (list WIN32_FIND_DATA) :=
  fun s =>
    let found := os_FindFiles w (log s) lpFileName in
    (record (Ev_FindFirstFile lpFileName found) s, Next found).

Definition GetCLRRuntimeHost : M HRESULT :=
  fun s =>
    let r := clr_GetCLRRuntimeHost w (log s) in
    (record (Ev_GetCLRRuntimeHost r) s, Next r).

Definition Authenticate : M HRESULT :=
  fun s =>
    let r := clr_Authenticate w (log s) in
    (record (Ev_Authenticate r) s, Next r).

Definition Start : M HRESULT :=
  fun s =>
    let r := clr_Start w (log s) in
    (record (Ev_Start r) s, Next r).

Definition CreateAppDomainWithManager
  (appbase : option string) (tpa apppaths : string) : M (HRESULT * Z) :=
  fun s =>
    let r := clr_CreateAppDomainWithManager w (log s) appbase tpa apppaths in
    (record (Ev_CreateAppDomainWithManager appbase tpa apppaths
               (fst r) (snd r)) s, Next r).

Definition CreateDelegate (domainId : Z) : M HRESULT :=
  fun s =>
    let r := clr_CreateDelegate w (log s) domainId in
    (record (Ev_CreateDelegate domainId r) s, Next r).

Definition pHostMain (n : Z) (args : list string) : M Z :=
  fun s =>
    let r := clr_HostMain w (log s) n args in
    (record (Ev_HostMain n args r) s, Next r).

(** ** [GetModuleDirectory], lines 18-23 *)

(** The characters of [s] up to and including its last backslash; [None]
    when there is no backslash, where the loop of line 21 walks below the
    start of the array ([dirLength] is unsigned, so [dirLength >= 0] never
    stops it). *)
Fixpoint through_last_backslash (s : string) : option string :=
  match s with
  | EmptyString => None
  | String c r =>
      match through_last_backslash r with
      | Some p => Some (String c p)
      | None => if Ascii.eqb c backslash
                then Some (String c EmptyString) else None
      end
  end.

Definition GetModuleDirectory (module : HMODULE) : M string :=
  '(_, szPath) <- GetModuleFileName module ;;
  match through_last_backslash szPath with
  | Some dir => ret dir
  | None => undefined
  end.

(** ** [ScanDirectory], lines 25-89 *)

(** The test of lines 56-67: the file name is one of the twelve names that
    are left to the loader. *)
Definition is_excluded (name : string) : bool :=
  wcscmp_eq name "klr.host.dll" ||
  wcscmp_eq name "klr.host.ni.dll" ||
  wcscmp_eq name "Microsoft.Framework.ApplicationHost.dll" ||
  wcscmp_eq name "Microsoft.Framework.ApplicationHost.ni.dll" ||
  wcscmp_eq name "Microsoft.Framework.Runtime.dll" ||
  wcscmp_eq name "Microsoft.Framework.Runtime.ni.dll" ||
  wcscmp_eq name "Microsoft.Framework.Runtime.Roslyn.dll" ||
  wcscmp_eq name "Microsoft.Framework.Runtime.Roslyn.ni.dll" ||
  wcscmp_eq name "Microsoft.Framework.Project.dll" ||
  wcscmp_eq name "Microsoft.Framework.Project.ni.dll" ||
  wcscmp_eq name "Microsoft.Framework.DesignTimeHost.dll" ||
  wcscmp_eq name "Microsoft.Framework.DesignTimeHost.ni.dll".

Definition is_directory (ffd : WIN32_FIND_DATA) : bool :=
  negb (Z.land (dwFileAttributes ffd) FILE_ATTRIBUTE_DIRECTORY =? 0).

(** The [do ... while (FindNextFile(...) != 0)] loop of lines 48-85 over
    the records the enumeration hands out, the current one first.  The
    result is [ret] and the string in the buffer when the loop is left,
    through its end or through a [goto Finished]. *)
Fixpoint ScanDirectory_loop (szDirectory : string)
  (found : list WIN32_FIND_DATA)
  (pszTrustedPlatformAssemblies : string)
  (cchTrustedPlatformAssemblies : Z) : bool * string :=
  match found with
  | [] => (true, pszTrustedPlatformAssemblies)
  | ffd :: rest =>
      if is_directory ffd then
        (* Skip directories *)
        ScanDirectory_loop szDirectory rest
          pszTrustedPlatformAssemblies cchTrustedPlatformAssemblies
      else if is_excluded (cFileName ffd) then
        (* continue *)
        ScanDirectory_loop szDirectory rest
          pszTrustedPlatformAssemblies cchTrustedPlatformAssemblies
      else
        let '(errno, buf1) :=
          wcscat_s pszTrustedPlatformAssemblies
                   cchTrustedPlatformAssemblies szDirectory in
        if negb (errno =? 0) then (false, buf1) else
        let '(errno, buf2) :=
          wcscat_s buf1 cchTrustedPlatformAssemblies (cFileName ffd) in
        if negb (errno =? 0) then (false, buf2) else
        let '(errno, buf3) :=
          wcscat_s buf2 cchTrustedPlatformAssemblies ";" in
        if negb (errno =? 0) then (false, buf3) else
        ScanDirectory_loop szDirectory rest buf3
          cchTrustedPlatformAssemblies
  end.

(** The body of [ScanDirectory]: [ret] and the string left in the buffer
    of the caller. *)
Definition ScanDirectory_body (szDirectory szPattern : string)
  (pszTrustedPlatformAssemblies : string)
  (cchTrustedPlatformAssemblies : Z) : M (bool * string) :=
  let '(errno, wszPattern) := wcscpy_s MAX_PATH szDirectory in
  if negb (errno =? 0) then ret (false, pszTrustedPlatformAssemblies) else
  let '(errno, wszPattern) := wcscat_s wszPattern MAX_PATH szPattern in
  if negb (errno =? 0) then ret (false, pszTrustedPlatformAssemblies) else
  found <- FindFirstFile wszPattern ;;
  match found with
  | [] => (* INVALID_HANDLE_VALUE == findHandle *)
      ret (false, pszTrustedPlatformAssemblies)
  | _ :: _ =>
      ret (ScanDirectory_loop szDirectory found
             pszTrustedPlatformAssemblies cchTrustedPlatformAssemblies)
  end.

(** [ScanDirectory], with its return noted in the log. *)
Definition ScanDirectory (szDirectory szPattern : string)
  (pszTrustedPlatformAssemblies : string)
  (cchTrustedPlatformAssemblies : Z) : M (bool * string) :=
  r <- ScanDirectory_body szDirectory szPattern
         pszTrustedPlatformAssemblies cchTrustedPlatformAssemblies ;;
  emit (Ev_ScanDirectory_returns szPattern (fst r) (snd r)) ;;
  ret r.

(** ** [LoadCoreClr], lines 91-240 *)

(** Lines 121-125; [None] is the closing [NULL]. *)
Definition rgwzOSLoaderModuleNames : list (option string) :=
  [ Some "api-ms-win-core-libraryloader-l1-1-1.dll";
    Some "kernel32.dll";
    None ].

(** The variables the loop of lines 140-197 reads and writes.
    ([fSuccess] is written but never read, and is left out.) *)
Record loader_vars := mkLoaderVars {
  dwModuleFileName : nat;
  hOSLoaderModule : HMODULE;
  pFnAddDllDirectory : FARPROC;
  pFnSetDefaultDllDirectories : FARPROC
}.

(** The [while (rgwszModuleFileName != NULL)] loop, lines 140-197; one
    unit of fuel per iteration.  Each [continue] goes back to the test
    with [dwModuleFileName] as it was. *)
Fixpoint scan_OSLoaderModules (fuel : nat) (m_fVerboseTrace : bool)
  (v : loader_vars) : M loader_vars :=
  match nth (dwModuleFileName v) rgwzOSLoaderModuleNames None with
  | None => ret v
  | Some rgwszModuleFileName =>
      match fuel with
      | O => out_of_fuel
      | S fuel' =>
          h <- LoadLibraryExW rgwszModuleFileName
                 LOAD_LIBRARY_SEARCH_DEFAULT_DIRS ;;
          if is_null h then
            when m_fVerboseTrace
              (printf_s "Failed to load: %s\r\n"
                        [arg_s rgwszModuleFileName]) ;;
            scan_OSLoaderModules fuel' m_fVerboseTrace
              (mkLoaderVars (dwModuleFileName v) nullptr
                 (pFnAddDllDirectory v) (pFnSetDefaultDllDirectories v))
          else
          when m_fVerboseTrace
            (printf_s "Loaded Module: %s\r\n"
                      [arg_s rgwszModuleFileName]) ;;
          pAdd <- GetProcAddress h "AddDllDirectory" ;;
          if is_null pAdd then
            when m_fVerboseTrace
              (printf_s "Failed to find function %S in %s\n"
                 [arg_s "AddDllDirectory"; arg_s rgwszModuleFileName]) ;;
            h' <- (if is_null h
                   then emit (Ev_FreeLibrary h) ;; ret nullptr
                   else ret h) ;;
            scan_OSLoaderModules fuel' m_fVerboseTrace
              (mkLoaderVars (dwModuleFileName v) h' pAdd
                 (pFnSetDefaultDllDirectories v))
          else
          pSet <- GetProcAddress h "SetDefaultDllDirectories" ;;
          if is_null pSet then
            when m_fVerboseTrace
              (printf_s "Failed to find function %S in %s\n"
                 [arg_s "SetDefaultDllDirectories";
                  arg_s rgwszModuleFileName]) ;;
            h' <- (if is_null h
                   then emit (Ev_FreeLibrary h) ;; ret nullptr
                   else ret h) ;;
            scan_OSLoaderModules fuel' m_fVerboseTrace
              (mkLoaderVars (dwModuleFileName v) h' pAdd pSet)
          else
          if negb (is_null h) && negb (is_null pAdd) && negb (is_null pSet)
          then (* break *)
            ret (mkLoaderVars (dwModuleFileName v) h pAdd pSet)
          else
            scan_OSLoaderModules fuel' m_fVerboseTrace
              (mkLoaderVars (S (dwModuleFileName v)) h pAdd pSet)
      end
  end.

(** Lines 225 and 227. *)
Definition development_path : string :=
  if AMD64 cfg
  then "..\..\..\artifacts\build\ProjectK\Runtime\amd64\coreclr.dll"
  else "..\..\..\artifacts\build\ProjectK\Runtime\x86\coreclr.dll".

(** Lines 104-114: the path of the library below [CORECLR_DIR]. *)
Definition build_wszClrPath (szCoreClrDirectory : string) : M string :=
  wszClrPath <- checked (wcscpy_s MAX_PATH szCoreClrDirectory) ;;
  wszClrPath <-
    match last_wchar wszClrPath with
    | None => undefined
    | Some c =>
        if negb (Ascii.eqb c backslash)
        then checked (wcscat_s wszClrPath MAX_PATH "\")
        else ret wszClrPath
    end ;;
  checked (wcscat_s wszClrPath MAX_PATH "coreclr.dll").

(** Lines 116-216: the directory is added to the search path of the
    loader, through the two functions looked up at run time in the first
    branch and called directly in the second. *)
Definition widen_dll_search_path (fuel : nat) (szCoreClrDirectory : string)
  : M unit :=
  if Win7PlusCoreSystem cfg then
    '(dwKreTrace, _) <- GetEnvironmentVariableW "KRE_TRACE" 1 ;;
    let m_fVerboseTrace := dwKreTrace >? 0 in
    v <- scan_OSLoaderModules fuel m_fVerboseTrace
           (mkLoaderVars 0 nullptr nullptr nullptr) ;;
    if is_null (hOSLoaderModule v) || is_null (pFnAddDllDirectory v)
       || is_null (pFnSetDefaultDllDirectories v)
    then goto_Finished
    else
      emit (Ev_AddDllDirectory szCoreClrDirectory) ;;
      emit (Ev_SetDefaultDllDirectories
              (Z.lor LOAD_LIBRARY_SEARCH_DEFAULT_DIRS
                     LOAD_LIBRARY_SEARCH_USER_DIRS))
  else
    emit (Ev_AddDllDirectory szCoreClrDirectory) ;;
    emit (Ev_SetDefaultDllDirectories
            (Z.lor LOAD_LIBRARY_SEARCH_DEFAULT_DIRS
                   LOAD_LIBRARY_SEARCH_USER_DIRS)).

(** Lines 221-236: the two fall-backs, each tried when no handle has been
    obtained so far. *)
Definition load_fallbacks (hCoreCLRModule : HMODULE) : M HMODULE :=
  hCoreCLRModule <-
    (if is_null hCoreCLRModule
     then (* This is used when developing *)
       LoadLibraryExW development_path 0
     else ret hCoreCLRModule) ;;
  hCoreCLRModule <-
    (if is_null hCoreCLRModule
     then (* Try the relative location based in install *)
       LoadLibraryExW "coreclr.dll" 0
     else ret hCoreCLRModule) ;;
  ret hCoreCLRModule.

(** Lines 93-236, up to the [Finished] label. *)
Definition LoadCoreClr_body (fuel : nat) : M HMODULE :=
  '(dwCoreClrDirectory, buffer) <-
     GetEnvironmentVariableW "CORECLR_DIR" MAX_PATH ;;
  hCoreCLRModule <-
    (if negb (dwCoreClrDirectory =? 0) then
       match buffer with
       | None => undefined
       | Some szCoreClrDirectory =>
           wszClrPath <- build_wszClrPath szCoreClrDirectory ;;
           widen_dll_search_path fuel szCoreClrDirectory ;;
           (* Continue loading as usual *)
           LoadLibraryExW wszClrPath 0
       end
     else ret nullptr) ;;
  load_fallbacks hCoreCLRModule.

(** [hCoreCLRModule] is still [nullptr] at each [goto Finished]. *)
Definition LoadCoreClr (fuel : nat) : M HMODULE :=
  Finished_returning nullptr (LoadCoreClr_body fuel).

(** ** [CallApplicationMain], lines 242-463 *)

(** The string in the buffer [pwszTrustedPlatformAssemblies] points to. *)
Definition TrustedPlatformAssemblies : M string :=
  fun s =>
    match pwszTrustedPlatformAssemblies s with
    | Some buf => (s, Next buf)
    | None => (s, Undefined)
    end.

(** [ScanDirectory(szCoreClrDirectory, pattern,
    pwszTrustedPlatformAssemblies, cchTrustedPlatformAssemblies)] *)
Definition ScanDirectory_into_buffer (szDirectory szPattern : string)
  (cchTrustedPlatformAssemblies : Z) : M bool :=
  buf <- TrustedPlatformAssemblies ;;
  '(r, buf') <- ScanDirectory szDirectory szPattern buf
                  cchTrustedPlatformAssemblies ;;
  set_pwszTrustedPlatformAssemblies (Some buf') ;;
  ret r.

(** [errno = wcscat_s(pwszTrustedPlatformAssemblies,
    cchTrustedPlatformAssemblies, src)] *)
Definition wcscat_s_into_buffer (cchTrustedPlatformAssemblies : Z)
  (src : string) : M Z :=
  buf <- TrustedPlatformAssemblies ;;
  let '(errno, buf') := wcscat_s buf cchTrustedPlatformAssemblies src in
  set_pwszTrustedPlatformAssemblies (Some buf') ;;
  ret errno.

(** Lines 254-260: [szCurrentDirectory]. *)
Definition current_directory (data : CALL_APPLICATION_MAIN_DATA) : M string :=
  match klrDirectory data with
  | Some dir => checked (wcscpy_s MAX_PATH dir)
  | None => GetModuleDirectory nullptr
  end.

(** Lines 254-288: the runtime library is located, pinned, and asked for
    its factory export.  The result is [szCurrentDirectory] and
    [szCoreClrDirectory]. *)
Definition acquire_runtime (fuel : nat) (data : CALL_APPLICATION_MAIN_DATA)
  : M (string * string) :=
  szCurrentDirectory <- current_directory data ;;
  hCoreCLRModule <- LoadCoreClr fuel ;;
  if is_null hCoreCLRModule then
    printf_s "Failed to locate coreclr.dll.\n" [] ;; return_ false
  else
  (* Get the path to the module *)
  '(dwCoreClrModulePathSize, lpCoreClrModulePath) <-
     GetModuleFileName hCoreCLRModule ;;
  (if MAX_PATH <=? dwCoreClrModulePathSize then undefined else ret tt) ;;
  szCoreClrDirectory <- GetModuleDirectory hCoreCLRModule ;;
  (* Pin the module *)
  pinned <- GetModuleHandleExW_pin lpCoreClrModulePath ;;
  if negb pinned then
    printf_s "Failed to pin coreclr.dll.\n" [] ;; return_ false
  else
  pfnGetCLRRuntimeHost <- GetProcAddress hCoreCLRModule "GetCLRRuntimeHost" ;;
  if is_null pfnGetCLRRuntimeHost then
    printf_s "Failed to find export GetCLRRuntimeHost.\n" [] ;; return_ false
  else
  ret (szCurrentDirectory, szCoreClrDirectory).

(** Lines 290-446: the host interface is obtained and driven. *)
Definition host_lifecycle (data : CALL_APPLICATION_MAIN_DATA)
  (szCurrentDirectory szCoreClrDirectory : string) : M unit :=
  r <- GetCLRRuntimeHost ;; set_hr r ;;
  if FAILED r then
    printf_s "Failed to get IID_ICLRRuntimeHost2.\n" [] ;; return_ false
  else
  emit Ev_SetStartupFlags ;;
  r <- Authenticate ;; set_hr r ;;
  if FAILED r then
    printf_s "Failed to Authenticate().\n" [] ;; return_ false
  else
  r <- Start ;; set_hr r ;;
  if FAILED r then
    printf_s "Failed to Start().\n" [] ;; return_ false
  else
  let cchTrustedPlatformAssemblies :=
    TRUSTED_PLATFORM_ASSEMBLIES_STRING_BUFFER_SIZE_CCH in
  nonnull <- calloc ;;
  if negb nonnull then goto_Finished else
  set_pwszTrustedPlatformAssemblies (Some "") ;;
  (* Try native images first *)
  found <- ScanDirectory_into_buffer szCoreClrDirectory "*.ni.dll"
             cchTrustedPlatformAssemblies ;;
  (if negb found then
     found <- ScanDirectory_into_buffer szCoreClrDirectory "*.dll"
                cchTrustedPlatformAssemblies ;;
     if negb found then
       printf_s "Failed to find files in the coreclr directory\n" [] ;;
       return_ false
     else ret tt
   else ret tt) ;;
  (* Add the assembly containing the app domain manager to the trusted list *)
  errno <- wcscat_s_into_buffer cchTrustedPlatformAssemblies
             szCurrentDirectory ;;
  CHECK_RETURN_VALUE_FAIL_EXIT_VIA_FINISHED errno ;;
  errno <- wcscat_s_into_buffer cchTrustedPlatformAssemblies
             "klr.core45.managed.dll" ;;
  CHECK_RETURN_VALUE_FAIL_EXIT_VIA_FINISHED errno ;;
  wszAppPaths <- checked (wcscat_s "" MAX_PATH szCurrentDirectory) ;;
  wszAppPaths <- checked (wcscat_s wszAppPaths MAX_PATH ";") ;;
  wszAppPaths <- checked (wcscat_s wszAppPaths MAX_PATH szCoreClrDirectory) ;;
  wszAppPaths <- checked (wcscat_s wszAppPaths MAX_PATH ";") ;;
  tpa <- TrustedPlatformAssemblies ;;
  '(r, domainId) <- CreateAppDomainWithManager
                      (applicationBase data) tpa wszAppPaths ;;
  set_hr r ;;
  if FAILED r then
    printf_s "TPA      %d %s\n" [arg_d (wcslen tpa); arg_s tpa] ;;
    printf_s "AppPaths %s\n" [arg_s wszAppPaths] ;;
    printf_s "Failed to create app domain (%d).\n" [arg_d r] ;;
    return_ false
  else
  r <- CreateDelegate domainId ;; set_hr r ;;
  if FAILED r then
    printf_s "Failed to create main delegate (%d).\n" [arg_d r] ;;
    return_ false
  else
  emit (Ev_SetEnvironmentVariable "KRE_FRAMEWORK" "aspnetcore50") ;;
  (* Call main *)
  code <- pHostMain (argc data) (argv data) ;;
  set_exitcode code ;;
  emit (Ev_UnloadAppDomain domainId) ;;
  emit Ev_Stop.

(** Lines 254-446, up to the [Finished] label. *)
Definition CallApplicationMain_body (fuel : nat)
  (data : CALL_APPLICATION_MAIN_DATA) : M unit :=
  '(szCurrentDirectory, szCoreClrDirectory) <- acquire_runtime fuel data ;;
  host_lifecycle data szCurrentDirectory szCoreClrDirectory.

(** Lines 448-462. *)
Definition Finished : M bool :=
  (fun s =>
     match pwszTrustedPlatformAssemblies s with
     | Some _ => (emit Ev_free ;; set_pwszTrustedPlatformAssemblies None) s
     | None => (s, Next tt)
     end) ;;
  fun s => if FAILED (hr s) then (s, Return false) else (s, Return true).

(** The state in which [CallApplicationMain] is entered: nothing logged,
    [hr = S_OK], [pwszTrustedPlatformAssemblies = nullptr]. *)
Definition entry (data : CALL_APPLICATION_MAIN_DATA) : state :=
  mkState [] S_OK None (exitcode data).

(** The state in which [CallApplicationMain] ends, and how: [Return b]
    when it returns [b]. *)
Definition CallApplicationMain (fuel : nat)
  (data : CALL_APPLICATION_MAIN_DATA) : state * outcome bool :=
  match CallApplicationMain_body fuel data (entry data) with
  | (s, Next _) => Finished s
  | (s, Goto_Finished) => Finished s
  | (s, Return b) => (s, Return b)
  | (s, Undefined) => (s, Undefined)
  | (s, Out_of_fuel) => (s, Out_of_fuel)
  end.

End Program.

(** ** Vocabulary of the specification *)

(** Modelled on the words of the specification: the fixed set of twelve
    file names that never enter the trusted list. *)
Definition ExclusionSet : list string :=
  [ "klr.host.dll"; "klr.host.ni.dll";
    "Microsoft.Framework.ApplicationHost.dll";
    "Microsoft.Framework.ApplicationHost.ni.dll";
    "Microsoft.Framework.Runtime.dll";
    "Microsoft.Framework.Runtime.ni.dll";
    "Microsoft.Framework.Runtime.Roslyn.dll";
    "Microsoft.Framework.Runtime.Roslyn.ni.dll";
    "Microsoft.Framework.Project.dll";
    "Microsoft.Framework.Project.ni.dll";
    "Microsoft.Framework.DesignTimeHost.dll";
    "Microsoft.Framework.DesignTimeHost.ni.dll" ].

(** One entry of the list: [directory + filename + ";"]. *)
Definition TPA_entry (directory filename : string) : string :=
  directory ++ filename ++ ";".

(** The entries for a sequence of file names, one after the other. *)
Fixpoint TPA_entries (directory : string) (filenames : list string) : string :=
  match filenames with
  | [] => ""
  | n :: rest => TPA_entry directory n ++ TPA_entries directory rest
  end.

(** The records of an enumeration that are not directories. *)
Definition plain_files (found : list WIN32_FIND_DATA)
  : list WIN32_FIND_DATA :=
  filter (fun ffd => negb (is_directory ffd)) found.

(** Those of them whose name is on the exclusion list. *)
Definition excluded_files (found : list WIN32_FIND_DATA)
  : list WIN32_FIND_DATA :=
  filter (fun ffd => is_excluded (cFileName ffd)) (plain_files found).

(** The names that are to be listed, in the order of the enumeration. *)
Definition usable_names (found : list WIN32_FIND_DATA) : list string :=
  map cFileName
    (filter (fun ffd => negb (is_excluded (cFileName ffd)))
            (plain_files found)).

(** The directory named by [CORECLR_DIR], made to end with a separator. *)
Definition normalized_directory (dir : string) : string :=
  match last_wchar dir with
  | Some c => if Ascii.eqb c backslash then dir else dir ++ "\"
  | None => dir ++ "\"
  end.

(** The first candidate: the library below the directory of the
    environment variable. *)
Definition environment_path (dir : string) : string :=
  normalized_directory dir ++ "coreclr.dll".

(** Candidates tried in order until one gives a handle: the attempts made,
    each with its answer, and the handle returned.  An attempt is made
    only after every earlier one answered null; the first handle that is
    not null ends the sequence and is returned; null is returned only
    when every candidate answered null. *)
Inductive tried : list string -> list (string * HMODULE) -> HMODULE -> Prop :=
| tried_all : tried [] [] nullptr
| tried_hit (f : string) (fs : list string) (h : HMODULE) :
    h <> 0 -> tried (f :: fs) [(f, h)] h
| tried_miss (f : string) (fs : list string)
    (l : list (string * HMODULE)) (h : HMODULE) :
    tried fs l h -> tried (f :: fs) ((f, 0) :: l) h.

(** The log entries of a sequence of attempts. *)
Definition load_events (l : list (string * HMODULE)) : history :=
  map (fun p => Ev_LoadLibraryExW (fst p) 0 (snd p)) l.

(** [LoadCoreClr] ends with handle [h] after the calls [es], which are
    the attempts on the candidates [cands] and nothing else. *)
Definition located (cands : list string) (o : outcome HMODULE)
  (es : history) : Prop :=
  exists l h, es = load_events l /\ o = Next h /\ tried cands l h.

(** The first loader module can be loaded, whatever went before, and the
    module that is then obtained has both functions.  Nothing is asked
    of any other module. *)
Definition loader_ready (w : World) : Prop :=
  forall hist,
    let m := os_LoadLibraryExW w hist
               "api-ms-win-core-libraryloader-l1-1-1.dll"
               LOAD_LIBRARY_SEARCH_DEFAULT_DIRS in
    m <> 0 /\
    (forall hist', os_GetProcAddress w hist' m "AddDllDirectory" <> 0) /\
    (forall hist',
       os_GetProcAddress w hist' m "SetDefaultDllDirectories" <> 0).

(** The search string [szDirectory + szPattern] fits in [wszPattern]. *)
Definition pattern_fits (szDirectory szPattern : string) : Prop :=
  wcslen szDirectory + wcslen szPattern < MAX_PATH.

(** The flags handed to [SetDefaultDllDirectories], lines 207 and 214. *)
Definition widening_flags : Z :=
  Z.lor LOAD_LIBRARY_SEARCH_DEFAULT_DIRS LOAD_LIBRARY_SEARCH_USER_DIRS.

(** ** Vocabulary for logs *)

(** [s'] is [s] with the calls [es] added to the log and the variables of
    [CallApplicationMain] untouched. *)
Definition extends (s s' : state) (es : history) : Prop :=
  log s' = (log s ++ es)%list /\ hr s' = hr s /\
  pwszTrustedPlatformAssemblies s' = pwszTrustedPlatformAssemblies s /\
  data_exitcode s' = data_exitcode s.

(** The calls [LoadCoreClr] makes. *)
Definition is_loader_event (e : event) : bool :=
  match e with
  | Ev_GetEnvironmentVariableW _ _ | Ev_LoadLibraryExW _ _ _
  | Ev_FreeLibrary _ | Ev_GetProcAddress _ _ _ | Ev_AddDllDirectory _
  | Ev_SetDefaultDllDirectories _ | Ev_printf _ _ => true
  | _ => false
  end.

(** The calls made before the host interface is asked for. *)
Definition is_setup_event (e : event) : bool :=
  match e with
  | Ev_GetModuleFileName _ _ | Ev_GetModuleHandleExW _ _ => true
  | _ => is_loader_event e
  end.

(** The attempts to load the runtime library among the calls [es]: the
    file asked for and the handle obtained.  They are the calls of
    [LoadLibraryExW] with no flag; the loader modules are asked for with
    [LOAD_LIBRARY_SEARCH_DEFAULT_DIRS]. *)
Fixpoint runtime_loads (es : history) : list (string * HMODULE) :=
  match es with
  | [] => []
  | Ev_LoadLibraryExW f flags h :: rest =>
      if flags =? 0 then (f, h) :: runtime_loads rest else runtime_loads rest
  | _ :: rest => runtime_loads rest
  end.

(** The calls that widen the search path for the directory [dir]: on
    [Win7PlusCoreSystem] they come right after the two functions have
    been found in one loader module. *)
Definition widened (cfg : build) (dir : string) (wes : history) : Prop :=
  if Win7PlusCoreSystem cfg then
    exists pre m pA pS, m <> 0 /\ pA <> 0 /\ pS <> 0 /\
      wes = (pre ++ [Ev_GetProcAddress m "AddDllDirectory" pA;
                     Ev_GetProcAddress m "SetDefaultDllDirectories" pS;
                     Ev_AddDllDirectory dir;
                     Ev_SetDefaultDllDirectories widening_flags])%list
  else wes = [Ev_AddDllDirectory dir;
              Ev_SetDefaultDllDirectories widening_flags].

(** What the body of [LoadCoreClr] does after reading [CORECLR_DIR], by
    the value [env] read: the way [o] it ends and the calls [es] it makes.
    [nofit] is how it ends when the path of the library does not fit. *)
Definition LoadCoreClr_cases_with (nofit : outcome HMODULE)
  (w : World) (cfg : build) (fuel : nat)
  (env : option string) (o : outcome HMODULE) (es : history) : Prop :=
  let fallbacks := [development_path cfg; "coreclr.dll"] in
  match env with
  | None => located fallbacks o es
  | Some v =>
      if wcslen v =? 0 then located fallbacks o es
      else if MAX_PATH <=? wcslen v then o = Undefined /\ es = []
      else if MAX_PATH <=? wcslen (environment_path v)
      then o = nofit /\ es = []
      else
        exists wes, runtime_loads wes = [] /\
          (o = Out_of_fuel /\ Win7PlusCoreSystem cfg = true /\ es = wes /\
             (loader_ready w -> fuel = 0%nat) \/
           widened cfg v wes /\
           exists loads, es = (wes ++ loads)%list /\
             located (environment_path v :: fallbacks) o loads)
  end.

(** What [LoadCoreClr] does: it returns no handle in that case. *)
Definition LoadCoreClr_cases := LoadCoreClr_cases_with (Next nullptr).

(** ** Vocabulary for the life cycle *)

(** The calls on the host interface [ICLRRuntimeHost2]. *)
Definition is_host_call (e : event) : bool :=
  match e with
  | Ev_SetStartupFlags | Ev_Authenticate _ | Ev_Start _
  | Ev_CreateAppDomainWithManager _ _ _ _ _ | Ev_CreateDelegate _ _
  | Ev_UnloadAppDomain _ | Ev_Stop => true
  | _ => false
  end.

(** The calls by which the properties are built, the execution context is
    created and the entry point is run. *)
Definition builds_or_runs (e : event) : bool :=
  match e with
  | Ev_FindFirstFile _ _ | Ev_ScanDirectory_returns _ _ _
  | Ev_CreateAppDomainWithManager _ _ _ _ _ | Ev_CreateDelegate _ _
  | Ev_SetEnvironmentVariable _ _ | Ev_HostMain _ _ _
  | Ev_UnloadAppDomain _ | Ev_Stop => true
  | _ => false
  end.

(** The calls of the steps that follow authentication. *)
Definition follows_authentication (e : event) : bool :=
  match e with
  | Ev_Start _ | Ev_calloc _ | Ev_free => true
  | _ => builds_or_runs e
  end.

Definition is_CreateAppDomainWithManager (e : event) : bool :=
  match e with
  | Ev_CreateAppDomainWithManager _ _ _ _ _ => true
  | _ => false
  end.

Definition is_CreateDelegate (e : event) : bool :=
  match e with Ev_CreateDelegate _ _ => true | _ => false end.

Definition is_free (e : event) : bool :=
  match e with Ev_free => true | _ => false end.

(** A scan with the generic pattern has returned. *)
Definition is_generic_scan (e : event) : bool :=
  match e with
  | Ev_ScanDirectory_returns pat _ _ => String.eqb pat "*.dll"
  | _ => false
  end.

(** [Start] has succeeded. *)
Definition started (e : event) : bool :=
  match e with Ev_Start h => negb (FAILED h) | _ => false end.

(** The execution context has been created. *)
Definition context_created (e : event) : bool :=
  match e with
  | Ev_CreateAppDomainWithManager _ _ _ h _ => negb (FAILED h)
  | _ => false
  end.

(** In the log [l], every call of the kind [target] comes after a call of
    the kind [good]. *)
Definition every_preceded (target good : event -> bool) (l : history) : Prop :=
  forall pre e post, l = (pre ++ e :: post)%list -> target e = true ->
    exists g, In g pre /\ good g = true.

(** The same, decided along the log; [seen] tells whether a call of the
    kind [good] has been met. *)
Fixpoint guarded (target good : event -> bool) (seen : bool) (l : history)
  : bool :=
  match l with
  | [] => true
  | e :: rest =>
      (negb (target e) || seen) && guarded target good (seen || good e) rest
  end.

(** ** Vocabulary for the further properties *)

(** No character of the string is a path separator. *)
Fixpoint no_backslash (s : string) : bool :=
  match s with
  | EmptyString => true
  | String c r => negb (Ascii.eqb c backslash) && no_backslash r
  end.

(** The string [GetModuleFileName] leaves in an array of [MAX_PATH]
    characters for a module of path [path]. *)
Definition module_path_read (path : string) : string :=
  if wcslen path <? MAX_PATH then path else String.substring 0 259 path.

(** The calls of the loop over the loader modules, lines 140-197: a load
    of the first module name, a look-up of one of the two functions, and,
    when tracing is on, a line of trace. *)
Definition is_loader_loop_call (verbose : bool) (e : event) : bool :=
  match e with
  | Ev_LoadLibraryExW f flags _ =>
      String.eqb f "api-ms-win-core-libraryloader-l1-1-1.dll" &&
      (flags =? LOAD_LIBRARY_SEARCH_DEFAULT_DIRS)
  | Ev_GetProcAddress _ name _ =>
      String.eqb name "AddDllDirectory" ||
      String.eqb name "SetDefaultDllDirectories"
  | Ev_printf _ _ => verbose
  | _ => false
  end.

(** The calls of [LoadCoreClr]: besides those of the loop, the reading of
    an environment variable, the widening of the search path and an
    attempt to load the runtime library. *)
Definition is_LoadCoreClr_call (verbose : bool) (e : event) : bool :=
  match e with
  | Ev_GetEnvironmentVariableW name _ =>
      String.eqb name "CORECLR_DIR" || String.eqb name "KRE_TRACE"
  | Ev_AddDllDirectory _ | Ev_SetDefaultDllDirectories _ => true
  | Ev_LoadLibraryExW _ flags _ =>
      (flags =? 0) || is_loader_loop_call verbose e
  | _ => is_loader_loop_call verbose e
  end.

(** Tracing is on only when [KRE_TRACE] has been read with a value that
    is not empty. *)
Definition traced (verbose : bool) (es : history) : Prop :=
  verbose = true ->
  exists v, v <> "" /\ In (Ev_GetEnvironmentVariableW "KRE_TRACE" (Some v)) es.

(** At every attempt the first loader module cannot be loaded, or the
    module that is obtained lacks [AddDllDirectory], or it lacks
    [SetDefaultDllDirectories].  Nothing is asked of any other module. *)
Definition loader_never_ready (w : World) : Prop :=
  forall hist,
    let m := os_LoadLibraryExW w hist
               "api-ms-win-core-libraryloader-l1-1-1.dll"
               LOAD_LIBRARY_SEARCH_DEFAULT_DIRS in
    m = 0 \/
    (forall hist', os_GetProcAddress w hist' m "AddDllDirectory" = 0) \/
    (forall hist',
       os_GetProcAddress w hist' m "SetDefaultDllDirectories" = 0).

(** The messages that go before a [return false], lines 265-435. *)
Definition failure_reports : list string :=
  [ "Failed to locate coreclr.dll.\n";
    "Failed to pin coreclr.dll.\n";
    "Failed to find export GetCLRRuntimeHost.\n";
    "Failed to get IID_ICLRRuntimeHost2.\n";
    "Failed to Authenticate().\n";
    "Failed to Start().\n";
    "Failed to find files in the coreclr directory\n";
    "Failed to create app domain (%d).\n";
    "Failed to create main delegate (%d).\n" ].

(** [szCurrentDirectory] is [cur] after the calls [es]: the directory
    handed in by the caller, or else that of the module of the process. *)
Definition current (data : CALL_APPLICATION_MAIN_DATA) (cur : string)
  (es : history) : Prop :=
  match klrDirectory data with
  | Some d => cur = d /\ wcslen d < MAX_PATH /\ es = []
  | None =>
      exists path, es = [Ev_GetModuleFileName nullptr path] /\
        through_last_backslash (module_path_read path) = Some cur
  end.

(** The calls [es] have located the runtime: the last library asked for
    gave the handle [h]; its path was read twice, for the pin and for the
    directory [dir]; the module was pinned and has the export
    [GetCLRRuntimeHost]. *)
Definition acquired (data : CALL_APPLICATION_MAIN_DATA) (cur dir : string)
  (es : history) : Prop :=
  exists es1 pre f h path path' p,
    current data cur es1 /\
    es = (es1 ++ pre ++
          [ Ev_LoadLibraryExW f 0 h;
            Ev_GetModuleFileName h path;
            Ev_GetModuleFileName h path';
            Ev_GetModuleHandleExW path true;
            Ev_GetProcAddress h "GetCLRRuntimeHost" p ])%list /\
    h <> 0 /\ p <> 0 /\ wcslen path < MAX_PATH /\
    through_last_backslash (module_path_read path') = Some dir.

(** The place of a call in the life cycle of the host interface. *)
Definition host_step (e : event) : nat :=
  match e with
  | Ev_SetStartupFlags => 1
  | Ev_Authenticate _ => 2
  | Ev_Start _ => 3
  | Ev_CreateAppDomainWithManager _ _ _ _ _ => 4
  | Ev_CreateDelegate _ _ => 5
  | Ev_UnloadAppDomain _ => 6
  | Ev_Stop => 7
  | _ => 0
  end.

(** The host interface has been obtained. *)
Definition interface_obtained (e : event) : bool :=
  match e with Ev_GetCLRRuntimeHost h => negb (FAILED h) | _ => false end.

(** The message that reports the failure of a call by which the host
    interface is obtained or driven, lines 291-295, 307-319, 416-422 and
    433-437; [None] for a call that succeeded and for every other
    call. *)
Definition report_of_failure (e : event) : option event :=
  match e with
  | Ev_GetCLRRuntimeHost h =>
      if FAILED h
      then Some (Ev_printf "Failed to get IID_ICLRRuntimeHost2.\n" [])
      else None
  | Ev_Authenticate h =>
      if FAILED h then Some (Ev_printf "Failed to Authenticate().\n" [])
      else None
  | Ev_Start h =>
      if FAILED h then Some (Ev_printf "Failed to Start().\n" []) else None
  | Ev_CreateAppDomainWithManager _ _ _ h _ =>
      if FAILED h
      then Some (Ev_printf "Failed to create app domain (%d).\n" [arg_d h])
      else None
  | Ev_CreateDelegate _ h =>
      if FAILED h
      then Some (Ev_printf "Failed to create main delegate (%d).\n" [arg_d h])
      else None
  | _ => None
  end.

Definition is_printf (e : event) : bool :=
  match e with Ev_printf _ _ => true | _ => false end.

(** The calls after which the run leaves the bounds of an array or reads
    an array that was not written: the path of a module that fills the
    array or holds no separator, and a value of [CORECLR_DIR] that does
    not fit in the array. *)
Definition undefined_after (e : event) : Prop :=
  match e with
  | Ev_GetModuleFileName _ path =>
      MAX_PATH <= wcslen path \/ no_backslash (module_path_read path) = true
  | Ev_GetEnvironmentVariableW name (Some v) =>
      name = "CORECLR_DIR" /\ MAX_PATH <= wcslen v
  | _ => False
  end.

(** An attempt on the first loader module: the call that asks for it. *)
Definition is_attempt (e : event) : bool :=
  match e with
  | Ev_LoadLibraryExW f flags _ =>
      String.eqb f "api-ms-win-core-libraryloader-l1-1-1.dll" &&
      (flags =? LOAD_LIBRARY_SEARCH_DEFAULT_DIRS)
  | _ => false
  end.

(** A call that widens the search path. *)
Definition is_widening (e : event) : bool :=
  match e with
  | Ev_AddDllDirectory _ | Ev_SetDefaultDllDirectories _ => true
  | _ => false
  end.

(** After the calls [es] the loop over the loader modules is still going
    on, [n] iterations having been made: the first loader module has been
    asked for [n] times, [SetDefaultDllDirectories] has not been
    obtained, the search path has not been widened and the runtime
    library has not been asked for. *)
Definition still_in_the_loop (n : nat) (es : history) : Prop :=
  List.length (filter is_attempt es) = n /\
  (forall m p,
     In (Ev_GetProcAddress m "SetDefaultDllDirectories" p) es -> p = 0) /\
  (forall e, In e es -> is_widening e = false) /\
  runtime_loads es = [].

(** What one call of [ScanDirectory] does, by cases.  [buf] is the string
    in the buffer at the call, [found] the enumeration for the search
    string, [fes] the calls made, [r] the value returned and [buf'] the
    string left in the buffer. *)
Definition scan_outcome (dir pat buf : string) (cch : Z)
  (found : list WIN32_FIND_DATA) (fes : history) (r : bool) (buf' : string)
  : Prop :=
  (* the enumeration has started and ended *)
  (r = true /\ fes = [Ev_FindFirstFile (dir ++ pat) found] /\
     pattern_fits dir pat /\ found <> [] /\
     buf' = buf ++ TPA_entries dir (usable_names found) /\
     (usable_names found = [] \/ wcslen buf' < cch)) \/
  (* the search string does not fit *)
  (r = false /\ fes = [] /\ ~ pattern_fits dir pat /\ buf' = buf) \/
  (* nothing matches the search string *)
  (r = false /\ fes = [Ev_FindFirstFile (dir ++ pat) found] /\
     pattern_fits dir pat /\ found = [] /\ buf' = buf) \/
  (* the entries do not fit in the buffer *)
  (r = false /\ fes = [Ev_FindFirstFile (dir ++ pat) found] /\
     pattern_fits dir pat /\ usable_names found <> [] /\
     cch <= wcslen (buf ++ TPA_entries dir (usable_names found)) /\
     buf' = "").

(** [dir] is the directory of the runtime in the log [l]: the path of a
    library that was loaded, cut after its last separator. *)
Definition directory_of_the_runtime (l : history) (dir : string) : Prop :=
  exists f h path,
    In (Ev_LoadLibraryExW f 0 h) l /\ h <> 0 /\
    In (Ev_GetModuleFileName h path) l /\
    through_last_backslash (module_path_read path) = Some dir.

(** ** Worlds for the examples *)

(** [winnt.h], [winerror.h] *)
Definition FILE_ATTRIBUTE_ARCHIVE : Z := 32.
Definition E_FAIL : HRESULT := -2147467259.

Definition a_file (name : string) : WIN32_FIND_DATA :=
  mkFindData FILE_ATTRIBUTE_ARCHIVE name.

Definition a_directory (name : string) : WIN32_FIND_DATA :=
  mkFindData FILE_ATTRIBUTE_DIRECTORY name.

(** A world whose answers do not depend on what was called before: the
    value of [CORECLR_DIR], the handle of each library, the address of
    each export, the files matching each search string, whether memory is
    to be had, and the result of creating the execution context.  The
    process is [C:\app\klr.exe]; the module with handle [7] is
    [C:\klr\coreclr.dll]; the entry point returns [42]. *)
Definition steady_world (CORECLR_DIR : option string)
  (load : string -> HMODULE) (export : HMODULE -> string -> FARPROC)
  (files : string -> list WIN32_FIND_DATA) (memory : bool)
  (created : HRESULT) : World :=
  mkWorld
    (fun _ name => if String.eqb name "CORECLR_DIR" then CORECLR_DIR else None)
    (fun _ file _ => load file)
    (fun _ => export)
    (fun _ h => if h =? 7 then "C:\klr\coreclr.dll" else "C:\app\klr.exe")
    (fun _ _ => true)
    (fun _ => files)
    (fun _ => memory)
    (fun _ => S_OK) (fun _ => S_OK) (fun _ => S_OK)
    (fun _ _ _ _ => (created, 1))
    (fun _ _ => S_OK)
    (fun _ _ _ => 42).

(** Only the bare file name can be loaded. *)
Definition installed_only (file : string) : HMODULE :=
  if String.eqb file "coreclr.dll" then 7 else nullptr.

Definition every_export (h : HMODULE) (name : string) : FARPROC := 5.

(** The directory of the runtime: three native images, one of them on the
    exclusion list, and a directory with a matching name. *)
Definition runtime_directory (search : string) : list WIN32_FIND_DATA :=
  if String.eqb search "C:\klr\*.ni.dll" then
    [ a_file "klr.host.ni.dll"; a_file "mscorlib.ni.dll";
      a_directory "backup.ni.dll"; a_file "System.ni.dll" ]
  else if String.eqb search "C:\klr\*.dll" then
    [ a_file "coreclr.dll"; a_file "klr.host.ni.dll";
      a_file "mscorlib.ni.dll"; a_directory "backup.ni.dll";
      a_file "System.ni.dll" ]
  else [].

(** A directory whose only native image is on the exclusion list. *)
Definition shim_only_directory (search : string) : list WIN32_FIND_DATA :=
  if String.eqb search "C:\klr\*.ni.dll" then [ a_file "klr.host.ni.dll" ]
  else if String.eqb search "C:\klr\*.dll" then
    [ a_file "coreclr.dll"; a_file "klr.host.ni.dll"; a_file "mscorlib.dll" ]
  else [].

Fixpoint repeated (c : ascii) (n : nat) : string :=
  match n with
  | O => ""
  | S n' => String c (repeated c n')
  end.

(** Five hundred files with names of 5 to 254 characters, all different. *)
Definition many_files : list WIN32_FIND_DATA :=
  (map (fun n => a_file (repeated "a" n ++ ".dll")) (seq 1 250) ++
   map (fun n => a_file (repeated "b" n ++ ".dll")) (seq 1 250))%list.

(** Two directories: a crowded one and an empty one. *)
Definition crowded_and_empty (search : string) : list WIN32_FIND_DATA :=
  if String.eqb search "C:\big\*.dll" then many_files else [].

Definition world_installed : World :=
  steady_world None installed_only every_export runtime_directory true S_OK.

Definition world_shim_only : World :=
  steady_world None installed_only every_export shim_only_directory true S_OK.

Definition world_no_memory : World :=
  steady_world None installed_only every_export runtime_directory false S_OK.

Definition world_context_refused : World :=
  steady_world None installed_only every_export runtime_directory true E_FAIL.

Definition world_crowded : World :=
  steady_world None installed_only every_export crowded_and_empty true S_OK.

(** [CORECLR_DIR] names a directory that holds no runtime; every loader
    module has both functions. *)
Definition world_wrong_directory : World :=
  steady_world (Some "C:\rt")
    (fun file =>
       if String.eqb file "api-ms-win-core-libraryloader-l1-1-1.dll"
       then 3 else installed_only file)
    every_export runtime_directory true S_OK.

(** [CORECLR_DIR] names a directory 250 characters long, so that the path
    of the library below it has more than [MAX_PATH] characters; the bare
    file name can be loaded. *)
Definition long_directory : string := "C:\" ++ repeated "d" 247.

Definition world_long_directory : World :=
  steady_world (Some long_directory) installed_only every_export
    runtime_directory true S_OK.

(** [CORECLR_DIR] is set, every library can be loaded, and no module has
    [AddDllDirectory] or [SetDefaultDllDirectories]. *)
Definition world_without_widening : World :=
  steady_world (Some "C:\klr")
    (fun file =>
       if String.eqb file "api-ms-win-core-libraryloader-l1-1-1.dll" then 3
       else if String.eqb file "kernel32.dll" then 4
       else 7)
    (fun _ name =>
       if String.eqb name "AddDllDirectory" then nullptr
       else if String.eqb name "SetDefaultDllDirectories" then nullptr
       else 5)
    runtime_directory true S_OK.

Definition x86_Win7Plus : build := mkBuild false true.
Definition x86_desktop : build := mkBuild false false.

(** The caller leaves [klrDirectory] null. *)
Definition launch : CALL_APPLICATION_MAIN_DATA :=
  mkData None (Some "C:\app\") 2 ["klr.exe"; "run"] 0.

(** The state in which the examples call [ScanDirectory] and
    [LoadCoreClr] by themselves. *)
Definition nothing_called : state := entry launch.

(** The world [w] with other answers to [GetModuleFileName]. *)
Definition with_module_names (w : World) (names : HMODULE -> string) : World :=
  mkWorld (os_GetEnvironmentVariableW w) (os_LoadLibraryExW w)
    (os_GetProcAddress w) (fun _ => names) (os_GetModuleHandleExW w)
    (os_FindFiles w) (os_calloc w) (clr_GetCLRRuntimeHost w)
    (clr_Authenticate w) (clr_Start w) (clr_CreateAppDomainWithManager w)
    (clr_CreateDelegate w) (clr_HostMain w).

(** The world [w] with other values of the environment variables. *)
Definition with_environment (w : World) (env : string -> option string)
  : World :=
  mkWorld (fun _ => env) (os_LoadLibraryExW w)
    (os_GetProcAddress w) (os_GetModuleFileName w) (os_GetModuleHandleExW w)
    (os_FindFiles w) (os_calloc w) (clr_GetCLRRuntimeHost w)
    (clr_Authenticate w) (clr_Start w) (clr_CreateAppDomainWithManager w)
    (clr_CreateDelegate w) (clr_HostMain w).

(** [GetModuleFileName] fails for every module: it returns [0] and
    writes the empty string. *)
Definition world_unnamed_modules : World :=
  with_module_names world_installed (fun _ => "").

(** A directory of 254 characters. *)
Definition deep_directory : string := "C:\" ++ repeated "d" 250 ++ "\".

(** [CORECLR_DIR] names the directory of the runtime; the first loader
    module is missing and [kernel32.dll] has both functions. *)
Definition world_older_system : World :=
  steady_world (Some "C:\klr")
    (fun file =>
       if String.eqb file "kernel32.dll" then 4
       else if String.eqb file "C:\klr\coreclr.dll" then 7
       else nullptr)
    every_export runtime_directory true S_OK.

(** [CORECLR_DIR] holds 300 characters. *)
Definition world_overlong_variable : World :=
  steady_world (Some (repeated "d" 300)) installed_only every_export
    runtime_directory true S_OK.

(** [KRE_TRACE] is set to [1] and [CORECLR_DIR] to [C:\rt], a directory
    that holds no runtime. *)
Definition world_traced : World :=
  with_environment world_wrong_directory
    (fun name =>
       if String.eqb name "CORECLR_DIR" then Some "C:\rt"
       else if String.eqb name "KRE_TRACE" then Some "1" else None).

(** The caller names a directory of 300 characters. *)
Definition launch_from_afar : CALL_APPLICATION_MAIN_DATA :=
  mkData (Some (repeated "d" 300)) (Some "C:\app\") 2 ["klr.exe"; "run"] 0.

(** The caller names the directory [C:\host\]. *)
Definition launch_from_host : CALL_APPLICATION_MAIN_DATA :=
  mkData (Some "C:\host\") (Some "C:\app\") 2 ["klr.exe"; "run"] 9.

(** The directory of the runtime holds no native image. *)
Definition plain_directory (search : string) : list WIN32_FIND_DATA :=
  if String.eqb search "C:\klr\*.dll" then
    [ a_file "coreclr.dll"; a_file "klr.host.dll"; a_file "mscorlib.dll" ]
  else [].

Definition world_no_native_images : World :=
  steady_world None installed_only every_export plain_directory true S_OK.

(** The directory of the runtime holds nothing that matches. *)
Definition world_empty_directory : World :=
  steady_world None installed_only every_export (fun _ => []) true S_OK.

(** Only the first loader module, of handle [3], has the two functions
    that widen the search path; the runtime library, of handle [7], has
    [GetCLRRuntimeHost] alone. *)
Definition exports_by_module (h : HMODULE) (name : string) : FARPROC :=
  if h =? 3 then
    if String.eqb name "AddDllDirectory" then 5
    else if String.eqb name "SetDefaultDllDirectories" then 6
    else nullptr
  else if String.eqb name "GetCLRRuntimeHost" then 5 else nullptr.

(** [CORECLR_DIR] names the directory of the runtime. *)
Definition world_by_module : World :=
  steady_world (Some "C:\klr")
    (fun file =>
       if String.eqb file "api-ms-win-core-libraryloader-l1-1-1.dll" then 3
       else if String.eqb file "C:\klr\coreclr.dll" then 7
       else nullptr)
    exports_by_module runtime_directory true S_OK.

(** The first loader module, of handle [3], can be loaded but lacks
    [AddDllDirectory]; [kernel32.dll], of handle [4], has both
    functions. *)
Definition world_first_module_lacking : World :=
  steady_world (Some "C:\klr")
    (fun file =>
       if String.eqb file "api-ms-win-core-libraryloader-l1-1-1.dll" then 3
       else if String.eqb file "kernel32.dll" then 4
       else if String.eqb file "C:\klr\coreclr.dll" then 7
       else nullptr)
    (fun h name =>
       if (h =? 3) && String.eqb name "AddDllDirectory" then nullptr else 5)
    runtime_directory true S_OK.

(** ** Strings *)

Lemma wcslen_append (a b : string) : wcslen (a ++ b) = wcslen a + wcslen b.
Proof.
  unfold wcslen. induction a as [|c a IH]; simpl String.length.
  - simpl. lia.
  - rewrite !Nat2Z.inj_succ. simpl append in IH. lia.
Qed.

Lemma wcslen_nonneg (a : string) : 0 <= wcslen a.
Proof. unfold wcslen. lia. Qed.

Lemma append_assoc (a b c : string) : (a ++ b) ++ c = a ++ (b ++ c).
Proof. induction a as [|x a IH]; simpl; [reflexivity | now rewrite IH]. Qed.

Lemma append_empty_r (a : string) : a ++ "" = a.
Proof. induction a as [|x a IH]; simpl; [reflexivity | now rewrite IH]. Qed.

(** ** The exclusion test *)

Lemma is_excluded_iff (name : string) :
  is_excluded name = true <-> In name ExclusionSet.
Proof.
  unfold is_excluded, wcscmp_eq, ExclusionSet.
  rewrite !orb_true_iff, !String.eqb_eq. simpl. intuition congruence.
Qed.

Lemma usable_names_not_excluded (found : list WIN32_FIND_DATA) :
  Forall (fun n => ~ In n ExclusionSet) (usable_names found).
Proof.
  unfold usable_names. apply Forall_forall. intros n Hn.
  apply in_map_iff in Hn. destruct Hn as (ffd & <- & Hf).
  apply filter_In in Hf. destruct Hf as [_ Hf].
  rewrite <- is_excluded_iff. now destruct (is_excluded (cFileName ffd)).
Qed.

Lemma usable_names_found (found : list WIN32_FIND_DATA) (n : string) :
  In n (usable_names found) -> In n (map cFileName found).
Proof.
  unfold usable_names, plain_files. intros Hn.
  apply in_map_iff in Hn. destruct Hn as (ffd & <- & Hf).
  apply filter_In in Hf. destruct Hf as [Hf _].
  apply filter_In in Hf. destruct Hf as [Hf _].
  now apply in_map.
Qed.

Lemma usable_names_count (found : list WIN32_FIND_DATA) :
  (List.length (usable_names found) + List.length (excluded_files found)
   = List.length (plain_files found))%nat.
Proof.
  unfold usable_names, excluded_files. rewrite length_map.
  induction (plain_files found) as [|ffd l IH]; simpl; [reflexivity|].
  destruct (is_excluded (cFileName ffd)); simpl; lia.
Qed.

(** ** The scan loop *)

Lemma usable_names_cons (ffd : WIN32_FIND_DATA) (rest : list WIN32_FIND_DATA) :
  usable_names (ffd :: rest) =
  if is_directory ffd then usable_names rest
  else if is_excluded (cFileName ffd) then usable_names rest
  else cFileName ffd :: usable_names rest.
Proof.
  unfold usable_names, plain_files. simpl.
  destruct (is_directory ffd); simpl; [reflexivity|].
  now destruct (is_excluded (cFileName ffd)).
Qed.

Lemma wcscat_s_fits (dest src : string) (cch : Z) :
  wcslen dest + wcslen src < cch ->
  wcscat_s dest cch src = (0, dest ++ src).
Proof.
  intros H. unfold wcscat_s.
  destruct (Z.ltb_spec (wcslen dest + wcslen src) cch); [reflexivity | lia].
Qed.

Lemma wcscat_s_overflow (dest src : string) (cch : Z) :
  cch <= wcslen dest + wcslen src ->
  wcscat_s dest cch src = (ERANGE, "").
Proof.
  intros H. unfold wcscat_s.
  destruct (Z.ltb_spec (wcslen dest + wcslen src) cch); [lia | reflexivity].
Qed.

(** The loop either lists every usable name after what the buffer held,
    or, when that does not fit, leaves the empty string. *)
Lemma ScanDirectory_loop_spec (szDirectory : string)
  (found : list WIN32_FIND_DATA) (buf : string) (cch : Z) :
  ScanDirectory_loop szDirectory found buf cch =
  match usable_names found with
  | [] => (true, buf)
  | n :: names =>
      if wcslen (buf ++ TPA_entries szDirectory (n :: names)) <? cch
      then (true, buf ++ TPA_entries szDirectory (n :: names))
      else (false, "")
  end.
Proof.
  revert buf. induction found as [|ffd rest IH]; intros buf.
  - reflexivity.
  - rewrite usable_names_cons. cbn [ScanDirectory_loop].
    destruct (is_directory ffd); [apply IH|].
    destruct (is_excluded (cFileName ffd)); [apply IH|].
    set (name := cFileName ffd).
    set (tail := TPA_entries szDirectory (usable_names rest)).
    assert (Hall : buf ++ TPA_entries szDirectory (name :: usable_names rest)
                   = ((buf ++ szDirectory) ++ name) ++ ";" ++ tail).
    { cbn [TPA_entries]. unfold TPA_entry. fold tail.
      now rewrite !append_assoc. }
    rewrite Hall.
    pose proof (wcslen_nonneg tail) as Ht.
    pose proof (wcslen_nonneg name) as Hn.
    assert (Hsemi : wcslen ";" = 1) by reflexivity.
    assert (Hlen : wcslen (((buf ++ szDirectory) ++ name) ++ ";" ++ tail)
                   = wcslen buf + wcslen szDirectory + wcslen name + 1
                     + wcslen tail).
    { rewrite !wcslen_append, Hsemi. lia. }
    assert (Hover : cch <= wcslen (((buf ++ szDirectory) ++ name) ++ ";" ++ tail)
                    -> (wcslen (((buf ++ szDirectory) ++ name) ++ ";" ++ tail)
                        <? cch) = false)
      by (intros; now apply Z.ltb_ge).
    destruct (Z.lt_ge_cases (wcslen buf + wcslen szDirectory) cch) as [L1|L1];
      [rewrite (wcscat_s_fits _ _ _ L1)
      |rewrite Hover by lia; now rewrite (wcscat_s_overflow _ _ _ L1)].
    cbn [negb Z.eqb].
    destruct (Z.lt_ge_cases (wcslen (buf ++ szDirectory) + wcslen name) cch)
      as [L2|L2];
      [rewrite (wcscat_s_fits _ _ _ L2)
      |rewrite wcslen_append in L2; rewrite Hover by lia;
       now rewrite wcscat_s_overflow by (rewrite wcslen_append; lia)].
    cbn [negb Z.eqb].
    destruct (Z.lt_ge_cases
                (wcslen ((buf ++ szDirectory) ++ name) + wcslen ";") cch)
      as [L3|L3];
      [rewrite (wcscat_s_fits _ _ _ L3)
      |rewrite !wcslen_append, Hsemi in L3; rewrite Hover by lia;
       now rewrite wcscat_s_overflow by (rewrite !wcslen_append, Hsemi; lia)].
    cbn [negb Z.eqb]. rewrite IH. subst tail.
    destruct (usable_names rest) as [|n names].
    + cbn [TPA_entries]. rewrite !wcslen_append, Hsemi in L3.
      rewrite !wcslen_append in Hlen. cbn [TPA_entries] in Hlen.
      destruct (Z.ltb_spec
                  (wcslen (((buf ++ szDirectory) ++ name) ++ ";" ++ "")) cch)
        as [_|L4].
      * now rewrite append_empty_r.
      * rewrite !wcslen_append, Hsemi in L4.
        change (wcslen "") with 0 in L4. lia.
    + rewrite <- !append_assoc. reflexivity.
Qed.

(** ** [ScanDirectory] *)

Section ScanDirectory_facts.

Variable w : World.

Lemma ScanDirectory_body_fits (szDirectory szPattern buf : string) (cch : Z)
  (s : state) :
  pattern_fits szDirectory szPattern ->
  ScanDirectory_body w szDirectory szPattern buf cch s =
  let found := os_FindFiles w (log s) (szDirectory ++ szPattern) in
  (record (Ev_FindFirstFile (szDirectory ++ szPattern) found) s,
   Next match found with
        | [] => (false, buf)
        | _ :: _ => ScanDirectory_loop szDirectory found buf cch
        end).
Proof.
  unfold pattern_fits. intros Hfit. unfold ScanDirectory_body, wcscpy_s.
  pose proof (wcslen_nonneg szPattern).
  destruct (Z.ltb_spec (wcslen szDirectory) MAX_PATH); [|lia].
  cbn [negb Z.eqb]. rewrite (wcscat_s_fits _ _ _ Hfit). cbn [negb Z.eqb].
  unfold bind, FindFirstFile, ret. cbv zeta.
  now destruct (os_FindFiles w (log s) (szDirectory ++ szPattern)).
Qed.

Lemma ScanDirectory_body_too_long (szDirectory szPattern buf : string)
  (cch : Z) (s : state) :
  ~ pattern_fits szDirectory szPattern ->
  ScanDirectory_body w szDirectory szPattern buf cch s = (s, Next (false, buf)).
Proof.
  unfold pattern_fits. intros Hfit. unfold ScanDirectory_body, wcscpy_s.
  destruct (Z.ltb_spec (wcslen szDirectory) MAX_PATH); [|reflexivity].
  cbn [negb Z.eqb]. rewrite wcscat_s_overflow by lia. reflexivity.
Qed.

Lemma pattern_fits_dec (szDirectory szPattern : string) :
  pattern_fits szDirectory szPattern \/ ~ pattern_fits szDirectory szPattern.
Proof. unfold pattern_fits. lia. Qed.

(** What a scan answers and leaves in the buffer, in all cases: [true]
    with every usable name listed; [false] with the buffer untouched (the
    search string is too long, or nothing matches); [false] with the
    buffer emptied (the names do not fit). *)
Lemma ScanDirectory_body_cases (szDirectory szPattern buf : string) (cch : Z)
  (s : state) :
  let found := os_FindFiles w (log s) (szDirectory ++ szPattern) in
  let enumerated :=
    record (Ev_FindFirstFile (szDirectory ++ szPattern) found) s in
  exists s' r buf',
    ScanDirectory_body w szDirectory szPattern buf cch s
    = (s', Next (r, buf')) /\
    (r = true /\ s' = enumerated /\ found <> [] /\
       pattern_fits szDirectory szPattern /\
       buf' = buf ++ TPA_entries szDirectory (usable_names found)
     \/ r = false /\ s' = s /\ buf' = buf /\
          ~ pattern_fits szDirectory szPattern
     \/ r = false /\ s' = enumerated /\ buf' = buf /\ found = []
     \/ r = false /\ s' = enumerated /\ buf' = "" /\
          usable_names found <> [] /\
          cch <= wcslen (buf ++ TPA_entries szDirectory (usable_names found))).
Proof.
  intros found enumerated.
  destruct (pattern_fits_dec szDirectory szPattern) as [Hfit|Hfit].
  - rewrite (ScanDirectory_body_fits _ _ _ _ _ Hfit). cbv zeta.
    fold found. fold enumerated.
    destruct found as [|ffd rest] eqn:Ef.
    + do 3 eexists. split; [reflexivity|]. right. right. left. now repeat split.
    + rewrite ScanDirectory_loop_spec.
      destruct (usable_names (ffd :: rest)) as [|n names] eqn:En.
      * do 3 eexists. split; [reflexivity|]. left.
        cbn [TPA_entries]. rewrite append_empty_r. repeat split; congruence.
      * destruct (Z.ltb_spec
                    (wcslen (buf ++ TPA_entries szDirectory (n :: names))) cch).
        -- do 3 eexists. split; [reflexivity|]. left.
           repeat split; congruence.
        -- do 3 eexists. split; [reflexivity|].
           right. right. right. repeat split; congruence.
  - rewrite (ScanDirectory_body_too_long _ _ _ _ _ Hfit).
    do 3 eexists. split; [reflexivity|]. right. left. now repeat split.
Qed.

(** [ScanDirectory] is its body followed by the note of its return. *)
Lemma ScanDirectory_unfold (szDirectory szPattern buf : string) (cch : Z)
  (s s1 : state) (r : bool * string) :
  ScanDirectory_body w szDirectory szPattern buf cch s = (s1, Next r) ->
  ScanDirectory w szDirectory szPattern buf cch s =
  (record (Ev_ScanDirectory_returns szPattern (fst r) (snd r)) s1, Next r).
Proof. intros H. unfold ScanDirectory, bind. now rewrite H. Qed.

End ScanDirectory_facts.

(** ** How a run extends the log *)

Lemma extends_refl (s : state) : extends s s [].
Proof. unfold extends. now rewrite app_nil_r. Qed.

Lemma extends_record (s : state) (e : event) : extends s (record e s) [e].
Proof. now unfold extends. Qed.

Lemma extends_trans (s s1 s2 : state) (a b : history) :
  extends s s1 a -> extends s1 s2 b -> extends s s2 (a ++ b)%list.
Proof.
  unfold extends. intros (L1 & H1 & P1 & X1) (L2 & H2 & P2 & X2).
  rewrite L2, L1, app_assoc. repeat split; congruence.
Qed.

Lemma extends_cons (s s2 : state) (e : event) (b : history) :
  extends (record e s) s2 b -> extends s s2 (e :: b).
Proof. intros H. exact (extends_trans _ _ _ _ _ (extends_record s e) H). Qed.

Lemma runtime_loads_app (a b : history) :
  runtime_loads (a ++ b) = (runtime_loads a ++ runtime_loads b)%list.
Proof.
  induction a as [|e a IH]; [reflexivity|].
  destruct e; cbn [runtime_loads app]; try exact IH.
  destruct (dwFlags =? 0); cbn [app]; now rewrite IH.
Qed.

Lemma extends_snoc (s s1 : state) (a : history) (e : event) :
  extends s s1 a -> extends s (record e s1) (a ++ [e])%list.
Proof. intros H. exact (extends_trans _ _ _ _ _ H (extends_record s1 e)). Qed.

Lemma is_null_false (p : Z) : is_null p = false -> p <> 0.
Proof. unfold is_null. intros H. now apply Z.eqb_neq. Qed.

Lemma is_null_true (p : Z) : is_null p = true -> p = 0.
Proof. unfold is_null. intros H. now apply Z.eqb_eq. Qed.

(** Solves [extends s (record e_n (... (record e_1 s))) ?es]. *)
Ltac extends_by_records :=
  repeat (apply extends_snoc); apply extends_refl.

(** Solves [extends s (record e_n (... (record e_1 s))) [e_1; ...; e_n]]. *)
Ltac extends_by_computation :=
  unfold extends, record;
  cbn [log hr pwszTrustedPlatformAssemblies data_exitcode load_events map
       fst snd];
  rewrite <- ?app_assoc; cbn [app]; repeat split; reflexivity.

(** ** The scan of the loader modules *)

Section LoadCoreClr_facts.

Variable w : World.
Variable cfg : build.

(** Started at the first name, the loop is left only through its [break],
    with a module and both functions in hand, the two look-ups being its
    last calls; and it loads no runtime library. *)
Lemma scan_OSLoaderModules_spec (fuel : nat) (verbose : bool) :
  forall (v : loader_vars) (s s' : state) (o : outcome loader_vars),
    dwModuleFileName v = 0%nat ->
    scan_OSLoaderModules w fuel verbose v s = (s', o) ->
    exists es, extends s s' es /\
      Forall (fun e => is_loader_event e = true) es /\
      runtime_loads es = [] /\
      (o = Out_of_fuel \/
       exists v' pre, o = Next v' /\
         hOSLoaderModule v' <> 0 /\ pFnAddDllDirectory v' <> 0 /\
         pFnSetDefaultDllDirectories v' <> 0 /\
         es = (pre ++
               [Ev_GetProcAddress (hOSLoaderModule v') "AddDllDirectory"
                  (pFnAddDllDirectory v');
                Ev_GetProcAddress (hOSLoaderModule v')
                  "SetDefaultDllDirectories"
                  (pFnSetDefaultDllDirectories v')])%list).
Proof.
  induction fuel as [|fuel IH]; intros v s s' o Hv H;
    cbn [scan_OSLoaderModules] in H; rewrite Hv in H;
    cbn [nth rgwzOSLoaderModuleNames] in H.
  - injection H as <- <-. exists []. split; [apply extends_refl|].
    split; [constructor|]. split; [reflexivity|]. now left.
  - unfold bind, LoadLibraryExW, GetProcAddress, when, printf_s, emit, ret in H.
    set (name := "api-ms-win-core-libraryloader-l1-1-1.dll") in *.
    destruct verbose;
    repeat match type of H with
    | context [is_null ?x] =>
        let E := fresh "E" in
        destruct (is_null x) eqn:E; cbn [negb andb] in H
    end;
    try (apply IH in H; [|reflexivity];
         destruct H as (es & Hx & Hl & Hr & Ho);
         assert (Hx' := Hx); repeat apply extends_cons in Hx';
         eexists; split; [exact Hx'|];
         split; [repeat constructor; assumption|];
         split; [exact Hr|];
         destruct Ho as [->|(v' & pre & -> & ? & ? & ? & ->)]; [now left|right];
         exists v'; eexists; repeat split; try assumption;
         rewrite !app_comm_cons; reflexivity).
    all: injection H as <- <-.
    all: eexists; split; [extends_by_records|].
    all: split; [repeat constructor|].
    all: split; [reflexivity|].
    all: right; eexists; eexists; split; [reflexivity|]; cbn.
    all: repeat split; try (now apply is_null_false).
    all: first [ exact (eq_refl ([_] ++ [_; _])%list)
               | exact (eq_refl ([_; _] ++ [_; _])%list) ].
Qed.

Lemma is_null_neq (p : Z) : p <> 0 -> is_null p = false.
Proof. unfold is_null. intros H. now apply Z.eqb_neq. Qed.

(** With a ready loader one iteration is enough. *)
Lemma scan_OSLoaderModules_ready (fuel : nat) (verbose : bool)
  (v : loader_vars) (s : state) :
  loader_ready w -> dwModuleFileName v = 0%nat ->
  exists s' v', scan_OSLoaderModules w (S fuel) verbose v s = (s', Next v').
Proof.
  intros Hready Hv. destruct (Hready (log s)) as (Hl & Ha & Hs).
  cbn [scan_OSLoaderModules]. rewrite Hv. cbn [nth rgwzOSLoaderModuleNames].
  unfold bind, LoadLibraryExW, GetProcAddress, when, printf_s, emit, ret.
  destruct verbose;
    rewrite !(is_null_neq _ Hl), !(is_null_neq _ (Ha _)),
            !(is_null_neq _ (Hs _));
    cbn [negb andb]; eauto.
Qed.

(** With a ready loader the loop does not run out of fuel, unless it was
    given none. *)
Lemma scan_OSLoaderModules_out_of_fuel (fuel : nat) (verbose : bool)
  (v : loader_vars) (s s' : state) :
  loader_ready w -> dwModuleFileName v = 0%nat ->
  scan_OSLoaderModules w fuel verbose v s = (s', Out_of_fuel) ->
  fuel = 0%nat.
Proof.
  intros Hready Hv H. destruct fuel as [|fuel]; [reflexivity|].
  destruct (scan_OSLoaderModules_ready fuel verbose v s Hready Hv)
    as (s2 & v2 & E).
  rewrite E in H. discriminate H.
Qed.

(** The search path is widened only with both functions in hand; the
    [goto Finished] after the loop is never taken. *)
Lemma widen_dll_search_path_spec (fuel : nat) (dir : string)
  (s s' : state) (o : outcome unit) :
  widen_dll_search_path w cfg fuel dir s = (s', o) ->
  exists es, extends s s' es /\
    Forall (fun e => is_loader_event e = true) es /\
    runtime_loads es = [] /\
    (o = Out_of_fuel /\ Win7PlusCoreSystem cfg = true /\
       (loader_ready w -> fuel = 0%nat) \/
     o = Next tt /\
     if Win7PlusCoreSystem cfg then
       exists pre m pA pS, m <> 0 /\ pA <> 0 /\ pS <> 0 /\
         es = (pre ++ [Ev_GetProcAddress m "AddDllDirectory" pA;
                       Ev_GetProcAddress m "SetDefaultDllDirectories" pS;
                       Ev_AddDllDirectory dir;
                       Ev_SetDefaultDllDirectories widening_flags])%list
     else es = [Ev_AddDllDirectory dir;
                Ev_SetDefaultDllDirectories widening_flags]).
Proof.
  unfold widen_dll_search_path. intros H.
  destruct (Win7PlusCoreSystem cfg).
  - unfold bind at 1 in H. unfold GetEnvironmentVariableW in H.
    set (kre := os_GetEnvironmentVariableW w (log s) "KRE_TRACE") in *.
    set (s1 := record (Ev_GetEnvironmentVariableW "KRE_TRACE" kre) s) in *.
    assert (Hs1 : extends s s1 [Ev_GetEnvironmentVariableW "KRE_TRACE" kre])
      by apply extends_record.
    assert (Hk : exists verbose,
               bind (scan_OSLoaderModules w fuel verbose
                       (mkLoaderVars 0 nullptr nullptr nullptr))
                 (fun v =>
                    if is_null (hOSLoaderModule v)
                       || is_null (pFnAddDllDirectory v)
                       || is_null (pFnSetDefaultDllDirectories v)
                    then goto_Finished
                    else emit (Ev_AddDllDirectory dir) ;;
                         emit (Ev_SetDefaultDllDirectories widening_flags))
                 s1 = (s', o)).
    { destruct kre as [val|]; [destruct (wcslen val <? 1)|]; eauto. }
    clear H. destruct Hk as (verbose & H). unfold bind at 1 in H.
    destruct (scan_OSLoaderModules w fuel verbose
                (mkLoaderVars 0 nullptr nullptr nullptr) s1)
      as [s2 o2] eqn:Escan.
    pose proof Escan as Escan0.
    apply scan_OSLoaderModules_spec in Escan; [|reflexivity].
    destruct Escan as (es & Hx & Hl & Hr & Ho).
    destruct Ho as [->|(v' & pre & -> & Hh & Ha & Hp & ->)].
    + injection H as <- <-.
      exists (Ev_GetEnvironmentVariableW "KRE_TRACE" kre :: es).
      split; [exact (extends_trans _ _ _ _ _ Hs1 Hx)|].
      split; [now constructor|]. split; [exact Hr|]. left.
      split; [reflexivity|]. split; [reflexivity|]. intros Hready.
      now apply (scan_OSLoaderModules_out_of_fuel _ _ _ _ _ Hready) in Escan0.
    + rewrite (is_null_neq _ Hh), (is_null_neq _ Ha), (is_null_neq _ Hp) in H.
      cbn [orb] in H. unfold bind, emit in H. injection H as <- <-.
      eexists. split.
      { eapply extends_trans; [exact Hs1|].
        apply extends_snoc, extends_snoc. exact Hx. }
      split.
      { repeat first [assumption | apply Forall_app; split | constructor]. }
      split.
      { rewrite !runtime_loads_app in *. now rewrite Hr. }
      right. split; [reflexivity|].
      exists (Ev_GetEnvironmentVariableW "KRE_TRACE" kre :: pre),
        (hOSLoaderModule v'), (pFnAddDllDirectory v'),
        (pFnSetDefaultDllDirectories v').
      repeat split; try assumption.
      cbn [app]. now rewrite <- !app_assoc.
  - unfold bind, emit in H. injection H as <- <-.
    eexists. split; [extends_by_records|].
    split; [now repeat constructor|]. split; [reflexivity|].
    right. now split.
Qed.

Lemma runtime_loads_load_events (l : list (string * HMODULE)) :
  runtime_loads (load_events l) = l.
Proof.
  induction l as [|[f h] l IH]; [reflexivity|].
  cbn [load_events map runtime_loads fst snd Z.eqb]. fold (load_events l).
  now rewrite IH.
Qed.

Lemma last_wchar_none (v : string) : last_wchar v = None -> v = "".
Proof.
  induction v as [|c v IH]; [reflexivity|].
  cbn [last_wchar]. destruct v; [discriminate|]. intros H.
  now apply IH in H.
Qed.

Lemma bind_next {A B} (m : M A) (k : A -> M B) (s s1 : state) (a : A) :
  m s = (s1, Next a) -> bind m k s = k a s1.
Proof. intros H. unfold bind. now rewrite H. Qed.

Lemma bind_goto {A B} (m : M A) (k : A -> M B) (s s1 : state) :
  m s = (s1, Goto_Finished) -> bind m k s = (s1, Goto_Finished).
Proof. intros H. unfold bind. now rewrite H. Qed.

Lemma checked_wcscpy_s_fits (n : Z) (src : string) (s : state) :
  wcslen src < n -> checked (wcscpy_s n src) s = (s, Next src).
Proof.
  intros H. unfold wcscpy_s.
  destruct (Z.ltb_spec (wcslen src) n); [reflexivity | lia].
Qed.

Lemma checked_wcscpy_s_overflow (n : Z) (src : string) (s : state) :
  n <= wcslen src -> checked (wcscpy_s n src) s = (s, Goto_Finished).
Proof.
  intros H. unfold wcscpy_s.
  destruct (Z.ltb_spec (wcslen src) n); [lia | reflexivity].
Qed.

Lemma checked_wcscat_s_fits (dest src : string) (n : Z) (s : state) :
  wcslen dest + wcslen src < n ->
  checked (wcscat_s dest n src) s = (s, Next (dest ++ src)).
Proof. intros H. now rewrite wcscat_s_fits. Qed.

Lemma checked_wcscat_s_overflow (dest src : string) (n : Z) (s : state) :
  n <= wcslen dest + wcslen src ->
  checked (wcscat_s dest n src) s = (s, Goto_Finished).
Proof. intros H. now rewrite wcscat_s_overflow. Qed.

(** Lines 104-114 give the candidate of the specification, or leave
    through [Finished] when it does not fit. *)
Lemma build_wszClrPath_spec (v : string) (s : state) :
  0 < wcslen v < MAX_PATH ->
  build_wszClrPath v s =
  if wcslen (environment_path v) <? MAX_PATH
  then (s, Next (environment_path v))
  else (s, Goto_Finished).
Proof.
  intros [Hpos Hlt].
  unfold build_wszClrPath, environment_path, normalized_directory.
  rewrite (bind_next _ _ _ _ _ (checked_wcscpy_s_fits _ _ s Hlt)).
  assert (Hc : wcslen "coreclr.dll" = 11) by reflexivity.
  assert (Hb : wcslen "\" = 1) by reflexivity.
  destruct (last_wchar v) as [c|] eqn:El.
  - destruct (Ascii.eqb c backslash); cbn [negb].
    + rewrite (bind_next _ _ s s v eq_refl).
      destruct (Z.ltb_spec (wcslen (v ++ "coreclr.dll")) MAX_PATH) as [L|L];
        rewrite wcslen_append in L.
      * now apply checked_wcscat_s_fits.
      * now apply checked_wcscat_s_overflow.
    + destruct (Z.ltb_spec (wcslen ((v ++ "\") ++ "coreclr.dll")) MAX_PATH)
        as [L|L]; rewrite !wcslen_append, Hb, Hc in L.
      * erewrite bind_next by (apply checked_wcscat_s_fits; lia).
        apply checked_wcscat_s_fits. rewrite wcslen_append. lia.
      * destruct (Z.lt_ge_cases (wcslen v + wcslen "\") MAX_PATH) as [L1|L1].
        -- erewrite bind_next by (now apply checked_wcscat_s_fits).
           apply checked_wcscat_s_overflow. rewrite wcslen_append. lia.
        -- erewrite bind_goto by (now apply checked_wcscat_s_overflow).
           reflexivity.
  - apply last_wchar_none in El. subst v. change (wcslen "") with 0 in Hpos. lia.
Qed.

(** Lines 221-236 continue the sequence of attempts. *)
Lemma load_fallbacks_spec (h0 : HMODULE) (s : state) :
  exists s' h l,
    load_fallbacks w cfg h0 s = (s', Next h) /\
    extends s s' (load_events l) /\
    (h0 <> 0 /\ l = [] /\ h = h0 \/
     h0 = 0 /\ tried [development_path cfg; "coreclr.dll"] l h).
Proof.
  unfold load_fallbacks, bind, LoadLibraryExW, ret.
  destruct (is_null h0) eqn:E0.
  - apply is_null_true in E0.
    set (h1 := os_LoadLibraryExW w (log s) (development_path cfg) 0).
    destruct (is_null h1) eqn:E1.
    + apply is_null_true in E1.
      set (s1 := record (Ev_LoadLibraryExW (development_path cfg) 0 h1) s).
      set (h2 := os_LoadLibraryExW w (log s1) "coreclr.dll" 0).
      exists (record (Ev_LoadLibraryExW "coreclr.dll" 0 h2) s1), h2,
        [(development_path cfg, h1); ("coreclr.dll", h2)].
      split; [reflexivity|]. split; [subst s1; extends_by_computation|].
      right. split; [assumption|]. rewrite E1. apply tried_miss.
      destruct (Z.eq_dec h2 0) as [->|Hn].
      * apply tried_miss, tried_all.
      * now apply tried_hit.
    + apply is_null_false in E1.
      exists (record (Ev_LoadLibraryExW (development_path cfg) 0 h1) s), h1,
        [(development_path cfg, h1)].
      split; [reflexivity|]. split; [extends_by_computation|].
      right. split; [assumption|]. now apply tried_hit.
  - apply is_null_false in E0. exists s, h0, [].
    split; [cbv beta iota; now rewrite (is_null_neq _ E0)|].
    split; [apply extends_refl|]. now left.
Qed.

Lemma load_events_loader (l : list (string * HMODULE)) :
  Forall (fun e => is_loader_event e = true) (load_events l).
Proof. induction l; constructor; [reflexivity | assumption]. Qed.

Lemma located_fallbacks (s s' : state) (o : outcome HMODULE) :
  load_fallbacks w cfg nullptr s = (s', o) ->
  exists es, extends s s' es /\
    Forall (fun e => is_loader_event e = true) es /\
    located [development_path cfg; "coreclr.dll"] o es.
Proof.
  intros H. destruct (load_fallbacks_spec nullptr s) as (s2 & h & l & E & Hx & Hc).
  rewrite E in H. injection H as <- <-.
  exists (load_events l). split; [assumption|].
  split; [apply load_events_loader|].
  exists l, h. destruct Hc as [(Hn & _)|(_ & Ht)]; [now elim Hn|]. now repeat split.
Qed.

Lemma LoadCoreClr_body_spec (fuel : nat) (s s' : state)
  (o : outcome HMODULE) :
  LoadCoreClr_body w cfg fuel s = (s', o) ->
  let env := os_GetEnvironmentVariableW w (log s) "CORECLR_DIR" in
  exists es,
    extends s s' (Ev_GetEnvironmentVariableW "CORECLR_DIR" env :: es) /\
    Forall (fun e => is_loader_event e = true) es /\
    LoadCoreClr_cases_with Goto_Finished w cfg fuel env o es.
Proof.
  intros H env. unfold LoadCoreClr_body in H.
  unfold bind at 1 in H. unfold GetEnvironmentVariableW in H. fold env in H.
  set (e0 := Ev_GetEnvironmentVariableW "CORECLR_DIR" env) in *.
  set (s0 := record e0 s) in *.
  assert (Hcons : forall es, extends s0 s' es -> extends s s' (e0 :: es))
    by (intros es; apply extends_cons).
  assert (Hunset :
    bind (ret nullptr) (load_fallbacks w cfg) s0 = (s', o) ->
    exists es, extends s s' (e0 :: es) /\
      Forall (fun e => is_loader_event e = true) es /\
      located [development_path cfg; "coreclr.dll"] o es).
  { rewrite (bind_next _ _ s0 s0 nullptr eq_refl). intros E.
    apply located_fallbacks in E. destruct E as (es & Hx & Hl & Hloc).
    exists es. split; [now apply Hcons|]. now split. }
  unfold LoadCoreClr_cases_with.
  destruct env as [v|]; [|exact (Hunset H)].
  pose proof (wcslen_nonneg v) as Hv.
  destruct (Z.ltb_spec (wcslen v) MAX_PATH) as [Lv|Lv]; cbv iota beta in H.
  - destruct (Z.eqb_spec (wcslen v) 0) as [Ez|Ez]; cbn [negb] in H;
      [exact (Hunset H)|].
    destruct (Z.leb_spec MAX_PATH (wcslen v)); [lia|].
    unfold bind at 1 in H. unfold bind at 1 in H.
    rewrite (build_wszClrPath_spec v s0) in H by lia.
    destruct (Z.ltb_spec (wcslen (environment_path v)) MAX_PATH) as [Lp|Lp];
      (destruct (Z.leb_spec MAX_PATH (wcslen (environment_path v))); [|]);
      try lia.
    + unfold bind at 1 in H.
      destruct (widen_dll_search_path w cfg fuel v s0) as [s1 o1] eqn:Ew.
      apply widen_dll_search_path_spec in Ew.
      destruct Ew as (wes & Hx & Hl & Hr & [(-> & Hw & Hfuel)|(-> & Hw)]).
      * injection H as <- <-. exists wes. split; [now apply Hcons|].
        split; [assumption|]. exists wes. split; [assumption|]. left.
        now repeat split.
      * unfold LoadLibraryExW at 1 in H.
        set (h0 := os_LoadLibraryExW w (log s1) (environment_path v) 0) in *.
        set (e1 := Ev_LoadLibraryExW (environment_path v) 0 h0) in *.
        destruct (load_fallbacks_spec h0 (record e1 s1))
          as (s2 & h & l & E & Hx2 & Hc).
        rewrite E in H. injection H as <- <-.
        exists (wes ++ e1 :: load_events l)%list. split.
        { apply Hcons. eapply extends_trans; [exact Hx|].
          now apply extends_cons. }
        split.
        { apply Forall_app. split; [assumption|].
          constructor; [reflexivity | apply load_events_loader]. }
        exists wes. split; [assumption|]. right. split; [exact Hw|].
        exists (e1 :: load_events l). split; [reflexivity|].
        exists ((environment_path v, h0) :: l), h.
        split; [reflexivity|]. split; [reflexivity|].
        destruct Hc as [(Hn & -> & ->)|(-> & Ht)].
        -- now apply tried_hit.
        -- now apply tried_miss.
    + injection H as <- <-. exists []. split; [apply Hcons, extends_refl|].
      split; [constructor|]. now split.
  - assert (Ez : (wcslen v + 1 =? 0) = false) by (apply Z.eqb_neq; lia).
    rewrite Ez in H. cbn [negb] in H.
    destruct (Z.eqb_spec (wcslen v) 0) as [E0|E0]; [unfold MAX_PATH in Lv; lia|].
    destruct (Z.leb_spec MAX_PATH (wcslen v)); [|lia].
    unfold bind, undefined in H. injection H as <- <-.
    exists []. split; [apply Hcons, extends_refl|].
    split; [constructor|]. now split.
Qed.

Lemma located_Next (cands : list string) (o : outcome HMODULE) (es : history) :
  located cands o es -> exists h, o = Next h.
Proof. intros (l & h & _ & -> & _). now exists h. Qed.

Lemma LoadCoreClr_spec (fuel : nat) (s s' : state) (o : outcome HMODULE) :
  LoadCoreClr w cfg fuel s = (s', o) ->
  let env := os_GetEnvironmentVariableW w (log s) "CORECLR_DIR" in
  exists es,
    extends s s' (Ev_GetEnvironmentVariableW "CORECLR_DIR" env :: es) /\
    Forall (fun e => is_loader_event e = true) es /\
    LoadCoreClr_cases w cfg fuel env o es.
Proof.
  intros H env. unfold LoadCoreClr, Finished_returning in H.
  destruct (LoadCoreClr_body w cfg fuel s) as [s1 o1] eqn:Hb.
  apply LoadCoreClr_body_spec in Hb. fold env in Hb.
  destruct Hb as (es & Hx & Hl & Hc). exists es.
  assert (Hs : s1 = s') by (destruct o1; congruence). subst s1.
  split; [assumption|]. split; [assumption|].
  unfold LoadCoreClr_cases, LoadCoreClr_cases_with in *.
  assert (Hloc : forall cands es', located cands o1 es' -> located cands o es').
  { intros cands es' Hloc. destruct (located_Next _ _ _ Hloc) as (h & ->).
    injection H as <-. assumption. }
  destruct env as [v|]; [|now apply Hloc].
  destruct (wcslen v =? 0); [now apply Hloc|].
  destruct (MAX_PATH <=? wcslen v).
  { destruct Hc as [-> ->]. injection H as <-. now split. }
  destruct (MAX_PATH <=? wcslen (environment_path v)).
  { destruct Hc as [-> ->]. injection H as <-. now split. }
  destruct Hc as (wes & Hr & [(-> & Hw & -> & Hfuel)|(Hw & loads & -> & Hlo)]);
    exists wes; (split; [assumption|]).
  - injection H as <-. left. now repeat split.
  - right. split; [assumption|]. exists loads. split; [reflexivity|].
    now apply Hloc.
Qed.

End LoadCoreClr_facts.

(** ** The run of [CallApplicationMain] up to the host interface *)

Lemma loader_events_setup (es : history) :
  Forall (fun e => is_loader_event e = true) es ->
  Forall (fun e => is_setup_event e = true) es.
Proof.
  apply Forall_impl. intros e H. now destruct e.
Qed.

(** Solves [Forall P (known ++ [e_1] ++ ...)] from the hypotheses. *)
Ltac solve_Forall :=
  repeat first [assumption | apply Forall_app; split | constructor].

(** Splits a run on the next test it depends on. *)
Ltac break_run H :=
  repeat first
    [ progress cbv beta iota zeta in H
    | match type of H with
      | context [match ?x with _ => _ end] =>
          let E := fresh "E" in destruct x eqn:E
      end ].

Section Setup_facts.

Variable w : World.
Variable cfg : build.

Lemma GetModuleFileName_extends (h : HMODULE) (s : state) :
  exists n p, GetModuleFileName w h s = (record (Ev_GetModuleFileName h
                (os_GetModuleFileName w (log s) h)) s, Next (n, p)).
Proof.
  unfold GetModuleFileName.
  destruct (wcslen (os_GetModuleFileName w (log s) h) <? MAX_PATH); eauto.
Qed.

Lemma GetModuleDirectory_spec (h : HMODULE) (s s' : state)
  (o : outcome string) :
  GetModuleDirectory w h s = (s', o) ->
  s' = record (Ev_GetModuleFileName h (os_GetModuleFileName w (log s) h)) s /\
  (o = Undefined \/ exists dir, o = Next dir).
Proof.
  unfold GetModuleDirectory. intros H.
  destruct (GetModuleFileName_extends h s) as (n & p & E).
  rewrite (bind_next _ _ _ _ _ E) in H.
  destruct (through_last_backslash p); injection H as <- <-; eauto.
Qed.

Lemma current_directory_spec (data : CALL_APPLICATION_MAIN_DATA)
  (s s' : state) (o : outcome string) :
  current_directory w data s = (s', o) ->
  exists es, extends s s' es /\
    Forall (fun e => is_setup_event e = true) es /\
    (o = Goto_Finished /\ es = [] \/ o = Undefined \/ exists cur, o = Next cur).
Proof.
  unfold current_directory. intros H.
  destruct (klrDirectory data) as [dir|].
  - exists []. unfold wcscpy_s in H.
    destruct (wcslen dir <? MAX_PATH); injection H as <- <-;
      (split; [apply extends_refl|]); (split; [constructor|]); eauto.
  - apply GetModuleDirectory_spec in H. destruct H as (-> & Ho).
    eexists. split; [apply extends_record|].
    split; [now repeat constructor|]. intuition.
Qed.

Lemma LoadCoreClr_outcome (fuel : nat) (env : option string)
  (o : outcome HMODULE) (es : history) :
  LoadCoreClr_cases w cfg fuel env o es ->
  o = Undefined \/ o = Out_of_fuel \/ exists h, o = Next h.
Proof.
  unfold LoadCoreClr_cases, LoadCoreClr_cases_with.
  assert (Hloc : forall cands es', located cands o es' ->
                 o = Undefined \/ o = Out_of_fuel \/ exists h, o = Next h).
  { intros cands es' Hl. apply located_Next in Hl. auto. }
  destruct env as [v|]; [|apply Hloc].
  destruct (wcslen v =? 0); [apply Hloc|].
  destruct (MAX_PATH <=? wcslen v); [intuition|].
  destruct (MAX_PATH <=? wcslen (environment_path v)); [intros [-> _]; eauto|].
  intros (wes & _ & [(-> & _)|(_ & loads & _ & Hl)]); eauto.
Qed.

(** The first part of the run makes setup calls only, and it is left with
    the two directories, or with [false], or (the directory of the caller
    being too long) through [Finished] having called nothing. *)
Lemma acquire_runtime_spec (fuel : nat) (data : CALL_APPLICATION_MAIN_DATA)
  (s s' : state) (o : outcome (string * string)) :
  acquire_runtime w cfg fuel data s = (s', o) ->
  exists es, extends s s' es /\
    Forall (fun e => is_setup_event e = true) es /\
    (o = Return false \/ o = Goto_Finished /\ es = [] \/ o = Undefined \/
     o = Out_of_fuel \/ exists cur dir, o = Next (cur, dir)).
Proof.
  unfold acquire_runtime. intros H. unfold bind at 1 in H.
  destruct (current_directory w data s) as [s1 o1] eqn:E1.
  apply current_directory_spec in E1.
  destruct E1 as (es1 & X1 & F1 & [(-> & ->)|[->|(cur & ->)]]).
  1,2: injection H as <- <-; eexists; split; [eassumption|]; split; auto.
  unfold bind at 1 in H.
  destruct (LoadCoreClr w cfg fuel s1) as [s2 o2] eqn:E2.
  apply LoadCoreClr_spec in E2. destruct E2 as (es2 & X2 & F2 & C2).
  apply loader_events_setup in F2.
  pose proof (extends_trans _ _ _ _ _ X1 X2) as X12.
  assert (F12 : Forall (fun e => is_setup_event e = true)
                  (es1 ++ Ev_GetEnvironmentVariableW "CORECLR_DIR"
                     (os_GetEnvironmentVariableW w (log s1) "CORECLR_DIR")
                     :: es2)).
  { apply Forall_app. split; [assumption|]. now constructor. }
  clear X1 X2 F1 F2.
  apply LoadCoreClr_outcome in C2. destruct C2 as [->|[->|(h & ->)]].
  1,2: injection H as <- <-; eexists; split; [eassumption|]; split; auto.
  destruct (is_null h).
  { unfold bind, printf_s, emit, return_ in H. injection H as <- <-.
    eexists. split; [apply extends_snoc; eassumption|].
    split; [solve_Forall|auto]. }
  unfold bind at 1 in H.
  destruct (GetModuleFileName_extends h s2) as (n & p & E3). rewrite E3 in H.
  unfold bind at 1 in H.
  destruct (MAX_PATH <=? n).
  { unfold undefined in H. injection H as <- <-.
    eexists. split; [apply extends_snoc; eassumption|].
    split; [solve_Forall|auto]. }
  unfold ret at 1 in H. unfold bind at 1 in H.
  match type of H with
  | context [GetModuleDirectory w h ?st] =>
      destruct (GetModuleDirectory w h st) as [s4 o4] eqn:E4
  end.
  apply GetModuleDirectory_spec in E4. destruct E4 as (-> & [->|(dir & ->)]).
  { injection H as <- <-.
    eexists. split; [do 2 apply extends_snoc; eassumption|].
    split; [solve_Forall|auto]. }
  unfold bind, GetModuleHandleExW_pin, GetProcAddress, printf_s, emit,
    return_, ret in H.
  break_run H; injection H as <- <-;
    (eexists; split; [repeat apply extends_snoc; eassumption|]);
    (split; [solve_Forall|]); eauto 8.
Qed.

End Setup_facts.

(** ** Running the host life cycle step by step *)

Lemma bind_assoc {A B C} (m : M A) (k1 : A -> M B) (k2 : B -> M C)
  (s : state) :
  bind (bind m k1) k2 s = bind m (fun x => bind (k1 x) k2) s.
Proof. unfold bind. destruct (m s) as [s1 [a| | | |]]; reflexivity. Qed.

Lemma checked_cases (r : Z * string) (s : state) :
  checked r s = if fst r =? 0 then (s, Next (snd r)) else (s, Goto_Finished).
Proof.
  unfold checked, CHECK_RETURN_VALUE_FAIL_EXIT_VIA_FINISHED, bind.
  now destruct (fst r =? 0).
Qed.

Lemma CHECK_cases (errno : Z) (s : state) :
  CHECK_RETURN_VALUE_FAIL_EXIT_VIA_FINISHED errno s =
  if errno =? 0 then (s, Next tt) else (s, Goto_Finished).
Proof.
  unfold CHECK_RETURN_VALUE_FAIL_EXIT_VIA_FINISHED. now destruct (errno =? 0).
Qed.

Lemma wcscat_s_into_buffer_spec (cch : Z) (src buf : string) (s : state) :
  pwszTrustedPlatformAssemblies s = Some buf ->
  wcscat_s_into_buffer cch src s =
  (mkState (log s) (hr s) (Some (snd (wcscat_s buf cch src)))
           (data_exitcode s),
   Next (fst (wcscat_s buf cch src))).
Proof.
  intros Hb. unfold wcscat_s_into_buffer, TrustedPlatformAssemblies.
  unfold bind at 1. rewrite Hb. now destruct (wcscat_s buf cch src).
Qed.

(** A scan of the caller adds to the log the enumeration, when the search
    string fits, and the return; it answers [true] with every usable name
    of the enumeration appended, or [false] with the buffer as it was or
    emptied. *)
Lemma ScanDirectory_into_buffer_spec (w : World) (dir pat buf : string)
  (cch : Z) (s : state) :
  pwszTrustedPlatformAssemblies s = Some buf ->
  let found := os_FindFiles w (log s) (dir ++ pat) in
  exists fes r buf',
    ScanDirectory_into_buffer w dir pat cch s =
    (mkState (log s ++ fes ++ [Ev_ScanDirectory_returns pat r buf'])
             (hr s) (Some buf') (data_exitcode s), Next r) /\
    (r = true /\ fes = [Ev_FindFirstFile (dir ++ pat) found] /\
       buf' = buf ++ TPA_entries dir (usable_names found)
     \/ r = false /\ (buf' = buf \/ buf' = "") /\
        (fes = [] \/ fes = [Ev_FindFirstFile (dir ++ pat) found])).
Proof.
  intros Hb found. unfold ScanDirectory_into_buffer, TrustedPlatformAssemblies.
  unfold bind at 1. rewrite Hb. unfold bind at 1.
  destruct (ScanDirectory_body_cases w dir pat buf cch s)
    as (s1 & r & buf' & E & Hc).
  rewrite (ScanDirectory_unfold w _ _ _ _ _ _ _ E).
  cbn [fst snd]. unfold bind, set_pwszTrustedPlatformAssemblies, ret.
  fold found in Hc.
  destruct Hc as [(-> & -> & _ & _ & ->)
                 |[(-> & -> & -> & _)
                  |[(-> & -> & -> & _)|(-> & -> & -> & _)]]];
    cbn [log hr data_exitcode record].
  - eexists [_], true, _. rewrite <- app_assoc. split; [reflexivity|]. now left.
  - exists [], false, buf. split; [reflexivity|]. right. intuition.
  - eexists [_], false, buf. rewrite <- app_assoc. split; [reflexivity|].
    right. intuition.
  - eexists [_], false, "". rewrite <- app_assoc. split; [reflexivity|].
    right. intuition.
Qed.

Ltac simpl_state H :=
  cbn [record log hr pwszTrustedPlatformAssemblies data_exitcode] in H.

(** Gives the answer [a] of the surroundings a name of its own. *)
Ltac name_answer a :=
  lazymatch a with
  | clr_GetCLRRuntimeHost _ _ => (let x := fresh "answer" in set (x := a) in *; clearbody x)
  | clr_Authenticate _ _ => (let x := fresh "answer" in set (x := a) in *; clearbody x)
  | clr_Start _ _ => (let x := fresh "answer" in set (x := a) in *; clearbody x)
  | os_calloc _ _ => (let x := fresh "answer" in set (x := a) in *; clearbody x)
  | clr_CreateAppDomainWithManager _ _ _ _ _ =>
      (let x := fresh "answer" in set (x := a) in *; clearbody x)
  | clr_CreateDelegate _ _ _ => (let x := fresh "answer" in set (x := a) in *; clearbody x)
  | clr_HostMain _ _ _ _ => (let x := fresh "answer" in set (x := a) in *; clearbody x)
  | _ => idtac
  end.

(** One statement of a run [H : m s = (s', o)]: a call is made and its
    answer named, or a test is decided both ways. *)
Ltac step H :=
  lazymatch type of H with
  | bind (if ?c then _ else _) _ _ = _ =>
      let E := fresh "E" in destruct c eqn:E
  | (if ?c then _ else _) _ = _ => let E := fresh "E" in destruct c eqn:E
  | (if ?c then _ else _) = _ => let E := fresh "E" in destruct c eqn:E
  | (match ?x with _ => _ end) _ = _ =>
      let E := fresh "E" in destruct x eqn:E
  | bind (ScanDirectory_into_buffer ?w ?d ?p ?c) ?k ?s = _ =>
      let fes := fresh "fes" in let r := fresh "r" in let b := fresh "buf" in
      let E := fresh "E" in let Hc := fresh "Hscan" in
      destruct (ScanDirectory_into_buffer_spec w d p _ c s eq_refl)
        as (fes & r & b & E & Hc);
      rewrite (bind_next _ _ _ _ _ E) in H; clear E;
      simpl_state H; simpl_state Hc;
      lazymatch type of Hc with
      | context [os_FindFiles ?w ?h ?f] =>
          let found := fresh "found" in
          set (found := os_FindFiles w h f) in Hc; clearbody found
      end
  | bind (wcscat_s_into_buffer ?c ?src) ?k ?s = _ =>
      rewrite (bind_next _ _ _ _ _
                 (wcscat_s_into_buffer_spec c src _ s eq_refl)) in H;
      simpl_state H
  | bind (CHECK_RETURN_VALUE_FAIL_EXIT_VIA_FINISHED ?e) ?k ?s = _ =>
      unfold bind at 1 in H; rewrite CHECK_cases in H
  | bind (checked ?r) ?k ?s = _ =>
      unfold bind at 1 in H; rewrite checked_cases in H
  | bind (bind _ _) _ _ = _ => rewrite bind_assoc in H
  | bind ?m ?k ?s = _ =>
      let r := eval hnf in (m s) in
      lazymatch r with
      | (?s1, Next ?a) =>
          change (bind m k s) with (k a s1) in H; cbv beta in H;
          name_answer a; simpl_state H
      end
  | (let (_, _) := (if ?c then _ else _) in _) = _ =>
      let E := fresh "E" in destruct c eqn:E
  end.

(** ** Every run of [CallApplicationMain] *)

(** Makes the tests on truth values of a run concrete. *)
Ltac decide_tests :=
  repeat match goal with
  | E : negb ?x = _ |- _ =>
      destruct x; cbn [negb] in E; try discriminate E; clear E
  | E : ?b = ?b |- _ => clear E
  end.

(** Keeps the case of a scan that agrees with its answer, and learns
    what it left in the buffer. *)
Ltac decide_scans :=
  repeat match goal with
  | Hscan : _ /\ _ /\ _ \/ _ /\ _ /\ _ |- _ =>
      let Hr := fresh "Hr" in
      let Hf := fresh "Hfes" in
      destruct Hscan as [(Hr & -> & ->)|(Hr & [-> | ->] & Hf)];
      try discriminate Hr; clear Hr
  end;
  cbn [append] in *.

(** Every way [H : CallApplicationMain w cfg fuel data = (s, o)] can have
    come about, one goal each, with the final state spelled out. *)
Ltac run_CallApplicationMain H :=
  unfold CallApplicationMain, CallApplicationMain_body in H;
  unfold bind at 1 in H;
  lazymatch type of H with
  | context [acquire_runtime ?w ?cfg ?fuel ?data ?s0] =>
      let s1 := fresh "s1" in
      let o1 := fresh "o1" in
      let EA := fresh "EA" in
      let es := fresh "es" in
      let X := fresh "X" in
      let F := fresh "Hsetup" in
      let cur := fresh "cur" in
      let dir := fresh "dir" in
      destruct (acquire_runtime w cfg fuel data s0) as [s1 o1] eqn:EA;
      apply acquire_runtime_spec in EA;
      destruct EA as (es & X & F & [->|[(-> & ->)|[->|[->|(cur & dir & ->)]]]]);
      destruct s1;
      unfold extends, entry in X;
      cbn [log hr pwszTrustedPlatformAssemblies data_exitcode app] in X;
      destruct X as (-> & -> & -> & ->);
      [ | | | |
        let s2 := fresh "s2" in
        let o2 := fresh "o2" in
        let EH := fresh "EH" in
        destruct (host_lifecycle w data cur dir
                    (mkState es S_OK None (exitcode data)))
          as [s2 o2] eqn:EH;
        unfold host_lifecycle in EH;
        repeat step EH;
        first [ injection EH as <- <-
              | unfold return_, goto_Finished, ret in EH;
                injection EH as <- <- ] ];
      unfold Finished in H; repeat step H; try congruence;
      try (match goal with E : FAILED S_OK = true |- _ => discriminate E end);
      first [ injection H as <- <-
            | unfold return_, goto_Finished, ret in H; injection H as <- <- ];
      decide_tests; decide_scans;
      cbn [record log hr pwszTrustedPlatformAssemblies data_exitcode] in *
  end.

Lemma setup_event_of (es : history) (e : event) :
  Forall (fun e => is_setup_event e = true) es ->
  In e es -> is_setup_event e = true.
Proof. intros F Hin. rewrite Forall_forall in F. now apply F. Qed.

(** Splits [H : In e l], for a log [l] spelled out, into its cases: [e] is
    a setup call, or one of the calls listed. *)
Ltac in_cases H :=
  lazymatch type of H with
  | In _ (_ ++ _) =>
      apply in_app_or in H; destruct H as [H|H]; in_cases H
  | In _ (_ :: _) => destruct H as [H|H]; [ | in_cases H]
  | In _ [] => destruct H
  | In _ ?l =>
      first
        [ match goal with
          | F : Forall (fun e => is_setup_event e = true) l |- _ =>
              apply (setup_event_of _ _ F) in H
          end
        | match goal with
          | Hf : l = [] \/ l = [_] |- _ =>
              destruct Hf as [-> | ->]; in_cases H
          end
        | idtac ]
  | _ => idtac
  end.

(** After [in_cases]: drops the cases in which [e] is not the call it is
    said to be, and learns the arguments in the others. *)
Ltac settle_case H :=
  lazymatch type of H with
  | is_setup_event ?e = true =>
      tryif is_var e then idtac else (cbn in H; discriminate H)
  | _ = _ => first [ discriminate H | injection H; intros; subst | subst ]
  | _ => idtac
  end.

Lemma guarded_sound_from (target good : event -> bool) (l : history) :
  forall seen, guarded target good seen l = true ->
    forall pre e post, l = (pre ++ e :: post)%list -> target e = true ->
      seen = true \/ exists g, In g pre /\ good g = true.
Proof.
  induction l as [|x l IH]; intros seen Hg pre e post Hl He.
  - now destruct pre.
  - cbn [guarded] in Hg. apply andb_true_iff in Hg. destruct Hg as [Hx Hrest].
    destruct pre as [|p pre]; cbn [app] in Hl; injection Hl as -> ->.
    + rewrite He in Hx. cbn in Hx. now left.
    + destruct (IH _ Hrest pre e post eq_refl He) as [Hs|(g & Hin & Hgood)].
      * apply orb_true_iff in Hs. destruct Hs as [Hs|Hs]; [now left|].
        right. exists p. split; [now left | assumption].
      * right. exists g. split; [now right | assumption].
Qed.

Lemma guarded_sound (target good : event -> bool) (l : history) :
  guarded target good false l = true -> every_preceded target good l.
Proof.
  intros Hg pre e post Hl He.
  destruct (guarded_sound_from _ _ _ _ Hg pre e post Hl He); [discriminate|assumption].
Qed.

Lemma guarded_setup (target good : event -> bool) (es tail : history) :
  Forall (fun e => is_setup_event e = true) es ->
  (forall e, is_setup_event e = true -> target e = false) ->
  (forall e, is_setup_event e = true -> good e = false) ->
  forall seen,
  guarded target good seen (es ++ tail) = guarded target good seen tail.
Proof.
  intros F Ht Hgood. induction F as [|x es Hx F IH]; intros seen; [reflexivity|].
  cbn [app guarded]. rewrite (Ht _ Hx), (Hgood _ Hx), orb_false_r. cbn [negb orb andb].
  apply IH.
Qed.

Lemma filter_setup (p : event -> bool) (es tail : history) :
  Forall (fun e => is_setup_event e = true) es ->
  (forall e, is_setup_event e = true -> p e = false) ->
  filter p (es ++ tail) = filter p tail.
Proof.
  intros F Hp. induction F as [|x es Hx F IH]; [reflexivity|].
  cbn [app filter]. now rewrite (Hp _ Hx).
Qed.

Lemma setup_builds_nothing (e : event) :
  is_setup_event e = true -> builds_or_runs e = false.
Proof. now destruct e. Qed.

Lemma setup_before_authentication (e : event) :
  is_setup_event e = true -> follows_authentication e = false.
Proof. now destruct e. Qed.

Lemma setup_not_host_call (e : event) :
  is_setup_event e = true -> is_host_call e = false.
Proof. now destruct e. Qed.

(** Brings the log to the form [es ++ [e_1; ...; e_n]]. *)
Ltac spell_out_log :=
  repeat match goal with
  | Hf : ?l = [] \/ ?l = [_] |- _ => destruct Hf as [-> | ->]
  end;
  rewrite <- ?app_assoc; cbn [app].

(** Finds a call in a log spelled out. *)
Ltac solve_In :=
  lazymatch goal with
  | |- In _ (_ ++ _) =>
      apply in_or_app; first [ right; solve_In | left; solve_In ]
  | |- In _ (_ :: _) => first [ left; reflexivity | right; solve_In ]
  end.

Lemma setup_not_CreateAppDomainWithManager (e : event) :
  is_setup_event e = true -> is_CreateAppDomainWithManager e = false.
Proof. now destruct e. Qed.

Lemma setup_not_CreateDelegate (e : event) :
  is_setup_event e = true -> is_CreateDelegate e = false.
Proof. now destruct e. Qed.

Lemma setup_not_started (e : event) :
  is_setup_event e = true -> started e = false.
Proof. now destruct e. Qed.

Lemma setup_not_context_created (e : event) :
  is_setup_event e = true -> context_created e = false.
Proof. now destruct e. Qed.

Lemma guarded_setup_only (target good : event -> bool) (es : history) :
  Forall (fun e => is_setup_event e = true) es ->
  (forall e, is_setup_event e = true -> target e = false) ->
  (forall e, is_setup_event e = true -> good e = false) ->
  forall seen, guarded target good seen es = true.
Proof.
  intros F Ht Hg seen. rewrite <- (app_nil_r es).
  now rewrite (guarded_setup _ _ _ _ F Ht Hg).
Qed.

Lemma wcscat_s_succeeded (dest src : string) (n : Z) :
  (fst (wcscat_s dest n src) =? 0) = true ->
  snd (wcscat_s dest n src) = dest ++ src.
Proof.
  unfold wcscat_s. now destruct (wcslen dest + wcslen src <? n).
Qed.

(** ** The path of a module *)

Lemma through_last_backslash_none (s : string) :
  through_last_backslash s = None <-> no_backslash s = true.
Proof.
  induction s as [|c s IH]; cbn [through_last_backslash no_backslash].
  - now split.
  - destruct (through_last_backslash s) as [p|].
    + split; [discriminate|]. intros H. apply andb_true_iff in H.
      destruct H as [_ H]. apply IH in H. discriminate H.
    + destruct (Ascii.eqb c backslash); cbn [negb andb].
      * split; discriminate.
      * split; [intros _; now apply IH | reflexivity].
Qed.

Lemma through_last_backslash_split (dir name : string) :
  no_backslash name = true ->
  through_last_backslash (dir ++ "\" ++ name) = Some (dir ++ "\").
Proof.
  intros Hn. induction dir as [|c dir IH].
  - cbn [append through_last_backslash].
    apply through_last_backslash_none in Hn. now rewrite Hn.
  - cbn [append through_last_backslash]. cbn [append] in IH. now rewrite IH.
Qed.

Lemma through_last_backslash_some (p r : string) :
  through_last_backslash p = Some r ->
  exists d name,
    r = d ++ "\" /\ p = d ++ "\" ++ name /\ no_backslash name = true.
Proof.
  revert r. induction p as [|c p IH]; intros r H;
    cbn [through_last_backslash] in H; [discriminate H|].
  destruct (through_last_backslash p) as [q|] eqn:E.
  - injection H as <-.
    destruct (IH q eq_refl) as (d & name & -> & -> & Hn).
    exists (String c d), name. now repeat split.
  - destruct (Ascii.eqb c backslash) eqn:Ec; [|discriminate H].
    injection H as <-. apply Ascii.eqb_eq in Ec. subst c.
    exists "", p. split; [reflexivity|]. split; [reflexivity|].
    now apply through_last_backslash_none.
Qed.

Lemma GetModuleFileName_reads (w : World) (h : HMODULE) (s : state) :
  let path := os_GetModuleFileName w (log s) h in
  GetModuleFileName w h s
  = (record (Ev_GetModuleFileName h path) s,
     Next (if wcslen path <? MAX_PATH then wcslen path else MAX_PATH,
           module_path_read path)).
Proof.
  intros path. unfold GetModuleFileName, module_path_read. fold path.
  now destruct (wcslen path <? MAX_PATH).
Qed.

Lemma GetModuleDirectory_reads (w : World) (h : HMODULE) (s : state) :
  let path := os_GetModuleFileName w (log s) h in
  GetModuleDirectory w h s
  = (record (Ev_GetModuleFileName h path) s,
     match through_last_backslash (module_path_read path) with
     | Some dir => Next dir
     | None => Undefined
     end).
Proof.
  intros path. unfold GetModuleDirectory.
  rewrite (bind_next _ _ _ _ _ (GetModuleFileName_reads w h s)). fold path.
  now destruct (through_last_backslash (module_path_read path)).
Qed.

(** ** The calls of [LoadCoreClr] *)

Section LoadCoreClr_calls.

Variable w : World.
Variable cfg : build.

Lemma scan_OSLoaderModules_calls (fuel : nat) (verbose : bool) :
  forall (v : loader_vars) (s s' : state) (o : outcome loader_vars),
    dwModuleFileName v = 0%nat ->
    scan_OSLoaderModules w fuel verbose v s = (s', o) ->
    exists es, extends s s' es /\
      Forall (fun e => is_loader_loop_call verbose e = true) es.
Proof.
  induction fuel as [|fuel IH]; intros v s s' o Hv H;
    cbn [scan_OSLoaderModules] in H; rewrite Hv in H;
    cbn [nth rgwzOSLoaderModuleNames] in H.
  - injection H as <- <-. exists []. split; [apply extends_refl|constructor].
  - unfold bind, LoadLibraryExW, GetProcAddress, when, printf_s, emit, ret in H.
    destruct verbose;
    repeat match type of H with
    | context [is_null ?x] =>
        let E := fresh "E" in
        destruct (is_null x) eqn:E; cbn [negb andb] in H
    end;
    try (apply IH in H; [|reflexivity];
         destruct H as (es & Hx & Hl);
         repeat apply extends_cons in Hx;
         eexists; split; [exact Hx|];
         repeat constructor; assumption).
    all: injection H as <- <-.
    all: eexists; split; [extends_by_records|].
    all: repeat constructor.
Qed.

(** With a loader that is never ready the loop does not end. *)
Lemma scan_OSLoaderModules_never_ready (verbose : bool) :
  loader_never_ready w ->
  forall (fuel : nat) (v : loader_vars) (s : state),
    dwModuleFileName v = 0%nat ->
    exists s', scan_OSLoaderModules w fuel verbose v s = (s', Out_of_fuel).
Proof.
  intros Hnever. induction fuel as [|fuel IH]; intros v s Hv;
    cbn [scan_OSLoaderModules]; rewrite Hv;
    cbn [nth rgwzOSLoaderModuleNames].
  - now exists s.
  - pose proof (Hnever (log s)) as Hnow. cbv zeta in Hnow.
    unfold bind, LoadLibraryExW, GetProcAddress, when, printf_s, emit, ret.
    destruct verbose;
    repeat match goal with
    | |- context [is_null ?x] =>
        let E := fresh "E" in
        destruct (is_null x) eqn:E; cbn [negb andb]
    end;
    try (apply IH; reflexivity).
    all: exfalso; destruct Hnow as [Hl|[Ha|Hs]].
    all: repeat match goal with
         | E : is_null _ = false |- _ => apply is_null_false in E
         end.
    all: first [ now rewrite Hl in * | now rewrite Ha in *
               | now rewrite Hs in * ].
Qed.

Lemma build_wszClrPath_silent (v : string) (s s' : state)
  (o : outcome string) :
  build_wszClrPath v s = (s', o) -> s' = s.
Proof.
  unfold build_wszClrPath. intros H.
  unfold bind at 1 in H. rewrite checked_cases in H.
  destruct (fst (wcscpy_s MAX_PATH v) =? 0); [|now injection H].
  unfold bind at 1 in H.
  destruct (last_wchar (snd (wcscpy_s MAX_PATH v))) as [c|];
    [|now injection H].
  destruct (negb (Ascii.eqb c backslash)).
  - rewrite checked_cases in H.
    destruct (fst (wcscat_s (snd (wcscpy_s MAX_PATH v)) MAX_PATH "\") =? 0);
      [|now injection H].
    rewrite checked_cases in H.
    match type of H with
    | (if ?c then _ else _) = _ => destruct c; now injection H
    end.
  - unfold ret in H. rewrite checked_cases in H.
    match type of H with
    | (if ?c then _ else _) = _ => destruct c; now injection H
    end.
Qed.

Lemma loop_call_LoadCoreClr_call (verbose : bool) (es : history) :
  Forall (fun e => is_loader_loop_call verbose e = true) es ->
  Forall (fun e => is_LoadCoreClr_call verbose e = true) es.
Proof.
  apply Forall_impl. intros e H. destruct e; try exact H; try discriminate H.
  cbn [is_LoadCoreClr_call]. rewrite H. apply orb_true_r.
Qed.

Lemma load_events_LoadCoreClr_call (verbose : bool)
  (l : list (string * HMODULE)) :
  Forall (fun e => is_LoadCoreClr_call verbose e = true) (load_events l).
Proof. induction l; constructor; [reflexivity | assumption]. Qed.

Lemma traced_app_l (verbose : bool) (a b : history) :
  traced verbose a -> traced verbose (a ++ b).
Proof.
  intros H Hv. destruct (H Hv) as (v & Hne & Hin). exists v.
  split; [assumption|]. apply in_or_app. now left.
Qed.

Lemma traced_cons (verbose : bool) (e : event) (a : history) :
  traced verbose a -> traced verbose (e :: a).
Proof.
  intros H Hv. destruct (H Hv) as (v & Hne & Hin). exists v.
  split; [assumption|]. now right.
Qed.

Lemma widen_dll_search_path_calls (fuel : nat) (dir : string)
  (s s' : state) (o : outcome unit) :
  widen_dll_search_path w cfg fuel dir s = (s', o) ->
  exists es verbose, extends s s' es /\
    Forall (fun e => is_LoadCoreClr_call verbose e = true) es /\
    traced verbose es.
Proof.
  unfold widen_dll_search_path. intros H.
  destruct (Win7PlusCoreSystem cfg).
  - unfold bind at 1 in H. unfold GetEnvironmentVariableW in H.
    set (kre := os_GetEnvironmentVariableW w (log s) "KRE_TRACE") in *.
    set (e0 := Ev_GetEnvironmentVariableW "KRE_TRACE" kre) in *.
    set (s1 := record e0 s) in *.
    assert (Hk : exists verbose,
               traced verbose [e0] /\
               bind (scan_OSLoaderModules w fuel verbose
                       (mkLoaderVars 0 nullptr nullptr nullptr))
                 (fun v =>
                    if is_null (hOSLoaderModule v)
                       || is_null (pFnAddDllDirectory v)
                       || is_null (pFnSetDefaultDllDirectories v)
                    then goto_Finished
                    else emit (Ev_AddDllDirectory dir) ;;
                         emit (Ev_SetDefaultDllDirectories widening_flags))
                 s1 = (s', o)).
    { subst e0. destruct kre as [val|].
      - destruct (Z.ltb_spec (wcslen val) 1) as [L|L].
        + exists (wcslen val >? 0). split; [|exact H].
          pose proof (wcslen_nonneg val).
          assert (E : wcslen val = 0) by lia. rewrite E. discriminate.
        + exists (wcslen val + 1 >? 0). split; [|exact H].
          intros _. exists val. split; [|now left].
          intros ->. change (wcslen "") with 0 in L. lia.
      - exists (0 >? 0). split; [discriminate | exact H]. }
    clear H. destruct Hk as (verbose & Ht & H). unfold bind at 1 in H.
    destruct (scan_OSLoaderModules w fuel verbose
                (mkLoaderVars 0 nullptr nullptr nullptr) s1)
      as [s2 o2] eqn:Escan.
    apply scan_OSLoaderModules_calls in Escan; [|reflexivity].
    destruct Escan as (es & Hx & Hl).
    apply loop_call_LoadCoreClr_call in Hl.
    assert (Hx1 : extends s s2 (e0 :: es)) by now apply extends_cons.
    assert (Hl1 : Forall (fun e => is_LoadCoreClr_call verbose e = true)
                    (e0 :: es)) by now constructor.
    assert (Ht1 : traced verbose (e0 :: es))
      by exact (traced_app_l verbose [e0] es Ht).
    destruct o2 as [v'| | | |];
      try (injection H as <- <-; now exists (e0 :: es), verbose).
    destruct (is_null (hOSLoaderModule v') || is_null (pFnAddDllDirectory v')
              || is_null (pFnSetDefaultDllDirectories v')).
    + injection H as <- <-. now exists (e0 :: es), verbose.
    + unfold bind, emit in H. injection H as <- <-.
      eexists. exists verbose. split; [do 2 apply extends_snoc; exact Hx1|].
      split; [solve_Forall|]. rewrite <- app_assoc. now apply traced_app_l.
  - unfold bind, emit in H. injection H as <- <-.
    eexists. exists false. split; [extends_by_records|].
    split; [now repeat constructor | discriminate].
Qed.

(** Every call of [LoadCoreClr] is of the kinds of [is_LoadCoreClr_call],
    with tracing on only when [KRE_TRACE] was read with a value. *)
Lemma LoadCoreClr_calls (fuel : nat) (s s' : state) (o : outcome HMODULE) :
  LoadCoreClr w cfg fuel s = (s', o) ->
  exists es verbose, extends s s' es /\
    Forall (fun e => is_LoadCoreClr_call verbose e = true) es /\
    traced verbose es.
Proof.
  intros H.
  assert (Hb : exists o1, LoadCoreClr_body w cfg fuel s = (s', o1)).
  { unfold LoadCoreClr, Finished_returning in H.
    destruct (LoadCoreClr_body w cfg fuel s) as [s1 o1].
    exists o1. destruct o1; now injection H as <-. }
  clear H o. destruct Hb as (o & H).
  unfold LoadCoreClr_body in H. unfold bind at 1 in H.
  unfold GetEnvironmentVariableW in H.
  set (env := os_GetEnvironmentVariableW w (log s) "CORECLR_DIR") in H.
  set (e0 := Ev_GetEnvironmentVariableW "CORECLR_DIR" env) in H.
  assert (He0 : forall verbose, is_LoadCoreClr_call verbose e0 = true)
    by reflexivity.
  clearbody e0. clearbody env.
  assert (Hrest : exists dw buffer,
    bind (if negb (dw =? 0)
          then match buffer with
               | None => undefined
               | Some szCoreClrDirectory =>
                   wszClrPath <- build_wszClrPath szCoreClrDirectory ;;
                   widen_dll_search_path w cfg fuel szCoreClrDirectory ;;
                   LoadLibraryExW w wszClrPath 0
               end
          else ret nullptr) (load_fallbacks w cfg) (record e0 s) = (s', o)).
  { cbv zeta in H.
    destruct env as [val|]; [destruct (wcslen val <? MAX_PATH)|].
    - now exists (wcslen val), (Some val).
    - now exists (wcslen val + 1), None.
    - now exists 0, None. }
  clear H. destruct Hrest as (dw & buffer & H).
  assert (Hcons : forall es verbose, extends (record e0 s) s' es ->
            Forall (fun e => is_LoadCoreClr_call verbose e = true) es ->
            traced verbose es ->
            exists es' verbose', extends s s' es' /\
              Forall (fun e => is_LoadCoreClr_call verbose' e = true) es' /\
              traced verbose' es').
  { intros es verbose Hx Hl Ht. exists (e0 :: es), verbose.
    split; [now apply extends_cons|].
    split; [constructor; [apply He0 | assumption]|].
    now apply traced_cons. }
  assert (Hfall : forall h0 s1 es verbose, extends (record e0 s) s1 es ->
            Forall (fun e => is_LoadCoreClr_call verbose e = true) es ->
            traced verbose es ->
            load_fallbacks w cfg h0 s1 = (s', o) ->
            exists es' verbose', extends s s' es' /\
              Forall (fun e => is_LoadCoreClr_call verbose' e = true) es' /\
              traced verbose' es').
  { intros h0 s1 es verbose Hx Hl Ht E.
    destruct (load_fallbacks_spec w cfg h0 s1) as (s2 & h & l & E2 & Hx2 & _).
    rewrite E2 in E. injection E as <- <-.
    apply (Hcons (es ++ load_events l)%list verbose).
    - exact (extends_trans _ _ _ _ _ Hx Hx2).
    - apply Forall_app. split; [assumption|apply load_events_LoadCoreClr_call].
    - now apply traced_app_l. }
  assert (Hnil : traced false []) by discriminate.
  destruct (negb (dw =? 0)).
  - destruct buffer as [dir|].
    + rewrite !bind_assoc in H. unfold bind at 1 in H.
      destruct (build_wszClrPath dir (record e0 s)) as [s1 o1] eqn:E1.
      apply build_wszClrPath_silent in E1. subst s1.
      destruct o1 as [path| | | |];
        try (injection H as <- <-;
             exact (Hcons [] false (extends_refl _) (Forall_nil _) Hnil)).
      rewrite bind_assoc in H. unfold bind at 1 in H.
      destruct (widen_dll_search_path w cfg fuel dir (record e0 s))
        as [s2 o2] eqn:E2.
      apply widen_dll_search_path_calls in E2.
      destruct E2 as (es & verbose & Hx & Hl & Ht).
      destruct o2 as [[]| | | |];
        try (injection H as <- <-; exact (Hcons es verbose Hx Hl Ht)).
      unfold bind at 1 in H. unfold LoadLibraryExW at 1 in H.
      eapply Hfall; [| | |exact H].
      * apply extends_snoc. exact Hx.
      * apply Forall_app. split; [exact Hl|]. now repeat constructor.
      * now apply traced_app_l.
    + unfold bind, undefined in H. injection H as <- <-.
      exact (Hcons [] false (extends_refl _) (Forall_nil _) Hnil).
  - unfold bind at 1 in H. unfold ret at 1 in H.
    exact (Hfall _ _ [] false (extends_refl _) (Forall_nil _) Hnil H).
Qed.

End LoadCoreClr_calls.

Lemma extends_state (s s' : state) (es : history) :
  extends s s' es ->
  s' = mkState (log s ++ es) (hr s) (pwszTrustedPlatformAssemblies s)
         (data_exitcode s).
Proof. destruct s'. unfold extends. cbn. intros (-> & -> & -> & ->). reflexivity. Qed.

Lemma Forall_In_true (p : event -> bool) (es : history) (e : event) :
  Forall (fun e => p e = true) es -> In e es -> p e = true.
Proof. intros F Hin. rewrite Forall_forall in F. now apply F. Qed.

Lemma last_wchar_snoc (d : string) (c : ascii) :
  last_wchar (d ++ String c "") = Some c.
Proof.
  induction d as [|x d IH]; [reflexivity|].
  cbn [append last_wchar]. rewrite IH.
  now destruct (d ++ String c "") eqn:E; [destruct d; discriminate E|].
Qed.

(** ** The run of [CallApplicationMain] up to the host interface, in detail *)

Lemma tried_last (cands : list string) (l : list (string * HMODULE))
  (h : HMODULE) :
  tried cands l h -> h <> 0 -> exists l' f, l = (l' ++ [(f, h)])%list.
Proof.
  induction 1 as [|f fs h Hh|f fs l h Ht IH]; intros Hn.
  - now elim Hn.
  - now exists [], f.
  - destruct (IH Hn) as (l' & f' & ->). now exists ((f, 0) :: l'), f'.
Qed.

Lemma located_last (cands : list string) (h : HMODULE) (es : history) :
  located cands (Next h) es -> h <> 0 ->
  exists pre f, es = (pre ++ [Ev_LoadLibraryExW f 0 h])%list.
Proof.
  intros (l & h' & -> & E & Ht) Hn. injection E as <-.
  destruct (tried_last _ _ _ Ht Hn) as (l' & f & ->).
  exists (load_events l'), f. unfold load_events. now rewrite map_app.
Qed.

(** The handle [LoadCoreClr] returns is the answer to its last call. *)
Lemma LoadCoreClr_returns_the_last_load (w : World) (cfg : build)
  (fuel : nat) (env : option string) (h : HMODULE) (es : history) :
  LoadCoreClr_cases w cfg fuel env (Next h) es -> h <> 0 ->
  exists pre f, es = (pre ++ [Ev_LoadLibraryExW f 0 h])%list.
Proof.
  unfold LoadCoreClr_cases, LoadCoreClr_cases_with. intros Hc Hn.
  destruct env as [v|]; [|exact (located_last _ _ _ Hc Hn)].
  destruct (wcslen v =? 0); [exact (located_last _ _ _ Hc Hn)|].
  destruct (MAX_PATH <=? wcslen v); [destruct Hc as [Hc _]; discriminate Hc|].
  destruct (MAX_PATH <=? wcslen (environment_path v)).
  { destruct Hc as [Hc _]. injection Hc as ->. now elim Hn. }
  destruct Hc as (wes & _ & [(Hc & _)|(_ & loads & -> & Hl)]);
    [discriminate Hc|].
  destruct (located_last _ _ _ Hl Hn) as (pre & f & ->).
  exists (wes ++ pre)%list, f. now rewrite app_assoc.
Qed.

Lemma LoadCoreClr_undefined (w : World) (cfg : build) (fuel : nat)
  (env : option string) (es : history) :
  LoadCoreClr_cases w cfg fuel env Undefined es ->
  es = [] /\ exists v, env = Some v /\ MAX_PATH <= wcslen v.
Proof.
  unfold LoadCoreClr_cases, LoadCoreClr_cases_with. intros Hc.
  assert (Hloc : forall cands es', ~ located cands Undefined es').
  { intros cands es' Hl. apply located_Next in Hl. destruct Hl as (h & Hl).
    discriminate Hl. }
  destruct env as [v|]; [|now apply Hloc in Hc].
  destruct (wcslen v =? 0); [now apply Hloc in Hc|].
  destruct (Z.leb_spec MAX_PATH (wcslen v)).
  { destruct Hc as [_ ->]. split; [reflexivity|]. now exists v. }
  destruct (MAX_PATH <=? wcslen (environment_path v)).
  { destruct Hc as [Hc _]. discriminate Hc. }
  destruct Hc as (wes & _ & [(Hc & _)|(_ & loads & _ & Hl)]);
    [discriminate Hc | now apply Hloc in Hl].
Qed.

Lemma LoadCoreClr_out_of_fuel (w : World) (cfg : build) (fuel : nat)
  (env : option string) (es : history) :
  LoadCoreClr_cases w cfg fuel env Out_of_fuel es ->
  Win7PlusCoreSystem cfg = true /\ (loader_ready w -> fuel = 0%nat) /\
  exists v, env = Some v /\ v <> "".
Proof.
  unfold LoadCoreClr_cases, LoadCoreClr_cases_with. intros Hc.
  assert (Hloc : forall cands es', ~ located cands Out_of_fuel es').
  { intros cands es' Hl. apply located_Next in Hl. destruct Hl as (h & Hl).
    discriminate Hl. }
  destruct env as [v|]; [|now apply Hloc in Hc].
  destruct (Z.eqb_spec (wcslen v) 0) as [Ez|Ez]; [now apply Hloc in Hc|].
  destruct (MAX_PATH <=? wcslen v); [destruct Hc as [Hc _]; discriminate Hc|].
  destruct (MAX_PATH <=? wcslen (environment_path v));
    [destruct Hc as [Hc _]; discriminate Hc|].
  destruct Hc as (wes & _ & [(_ & Hw & _ & Hf)|(_ & loads & _ & Hl)]);
    [|now apply Hloc in Hl].
  split; [assumption|]. split; [assumption|]. exists v.
  split; [reflexivity|]. intros ->. now apply Ez.
Qed.

Section Setup_in_detail.

Variable w : World.
Variable cfg : build.

Lemma current_directory_detail (data : CALL_APPLICATION_MAIN_DATA)
  (s s' : state) (o : outcome string) :
  current_directory w data s = (s', o) ->
  exists es, extends s s' es /\
    Forall (fun e => is_setup_event e = true) es /\
    (o = Goto_Finished /\ es = [] /\
       (exists d, klrDirectory data = Some d /\ MAX_PATH <= wcslen d) \/
     o = Undefined /\
       (exists path, es = [Ev_GetModuleFileName nullptr path] /\
          no_backslash (module_path_read path) = true) \/
     exists cur, o = Next cur /\ current data cur es).
Proof.
  unfold current_directory, current. intros H.
  destruct (klrDirectory data) as [d|].
  - exists []. unfold wcscpy_s in H.
    destruct (Z.ltb_spec (wcslen d) MAX_PATH); injection H as <- <-;
      (split; [apply extends_refl|]); (split; [constructor|]).
    + right. right. now exists d.
    + left. repeat split. now exists d.
  - rewrite GetModuleDirectory_reads in H. cbv zeta in H.
    injection H as <- <-.
    eexists. split; [apply extends_record|].
    split; [now repeat constructor|].
    destruct (through_last_backslash
                (module_path_read (os_GetModuleFileName w (log s) nullptr)))
      as [cur|] eqn:E.
    + right. right. exists cur. split; [reflexivity|]. eexists. now split.
    + right. left. split; [reflexivity|]. eexists. split; [reflexivity|].
      now apply through_last_backslash_none.
Qed.

(** The first part of the run, with what it has established when it goes
    on, and what it has printed when it returns. *)
Lemma acquire_runtime_detail (fuel : nat) (data : CALL_APPLICATION_MAIN_DATA)
  (s s' : state) (o : outcome (string * string)) :
  acquire_runtime w cfg fuel data s = (s', o) ->
  exists es, extends s s' es /\
    Forall (fun e => is_setup_event e = true) es /\
    (o = Return false /\
       (exists pre fmt, es = (pre ++ [Ev_printf fmt []])%list /\
                        In fmt failure_reports) \/
     o = Goto_Finished /\ es = [] /\
       (exists d, klrDirectory data = Some d /\ MAX_PATH <= wcslen d) \/
     o = Undefined /\
       (exists pre e, es = (pre ++ [e])%list /\ undefined_after e) \/
     o = Out_of_fuel /\ Win7PlusCoreSystem cfg = true /\
       (loader_ready w -> fuel = 0%nat) /\
       (exists v, v <> "" /\
          In (Ev_GetEnvironmentVariableW "CORECLR_DIR" (Some v)) es) \/
     exists cur dir, o = Next (cur, dir) /\ acquired data cur dir es).
Proof.
  unfold acquire_runtime. intros H. unfold bind at 1 in H.
  destruct (current_directory w data s) as [s1 o1] eqn:E1.
  apply current_directory_detail in E1.
  destruct E1 as (es1 & X1 & F1 &
                  [(-> & -> & Hd)|[(-> & Hu)|(cur & -> & Hcur)]]).
  { injection H as <- <-; eexists; split; [eassumption|]; split; auto. }
  { injection H as <- <-; eexists; split; [eassumption|].
    split; [assumption|]. right. right. left. split; [reflexivity|].
    destruct Hu as (path & -> & Hn). exists [], (Ev_GetModuleFileName nullptr path).
    split; [reflexivity|]. now right. }
  unfold bind at 1 in H.
  destruct (LoadCoreClr w cfg fuel s1) as [s2 o2] eqn:E2.
  apply LoadCoreClr_spec in E2. destruct E2 as (es2 & X2 & F2 & C2).
  apply loader_events_setup in F2.
  set (e0 := Ev_GetEnvironmentVariableW "CORECLR_DIR"
               (os_GetEnvironmentVariableW w (log s1) "CORECLR_DIR")) in *.
  pose proof (extends_trans _ _ _ _ _ X1 X2) as X12.
  assert (F12 : Forall (fun e => is_setup_event e = true)
                  (es1 ++ e0 :: es2)).
  { apply Forall_app. split; [assumption|]. now constructor. }
  clear X1 X2 F1 F2.
  pose proof (LoadCoreClr_outcome _ _ _ _ _ _ C2) as Ho.
  destruct Ho as [->|[->|(h & ->)]].
  { injection H as <- <-.
    destruct (LoadCoreClr_undefined _ _ _ _ _ C2) as (-> & v & Hv & Hlong).
    eexists; split; [eassumption|]. split; [assumption|].
    right. right. left. split; [reflexivity|]. exists es1, e0.
    split; [reflexivity|]. subst e0. rewrite Hv. now split. }
  { injection H as <- <-.
    destruct (LoadCoreClr_out_of_fuel _ _ _ _ _ C2)
      as (Hwin & Hfuel & v & Hv & Hne).
    eexists; split; [eassumption|]. split; [assumption|].
    right. right. right. left. split; [reflexivity|].
    split; [assumption|]. split; [assumption|]. exists v.
    split; [assumption|]. apply in_or_app. right. left.
    subst e0. now rewrite Hv. }
  destruct (is_null h) eqn:Eh.
  { unfold bind, printf_s, emit, return_ in H. injection H as <- <-.
    eexists. split; [apply extends_snoc; eassumption|].
    split; [solve_Forall|]. left. split; [reflexivity|].
    do 2 eexists. split; [reflexivity|]. now left. }
  apply is_null_false in Eh.
  destruct (LoadCoreClr_returns_the_last_load _ _ _ _ _ _ C2 Eh)
    as (pre & f & ->).
  clear C2.
  rewrite (bind_next _ _ _ _ _ (GetModuleFileName_reads w h s2)) in H.
  set (path := os_GetModuleFileName w (log s2) h) in *.
  unfold bind at 1 in H.
  destruct (Z.ltb_spec (wcslen path) MAX_PATH) as [Lp|Lp].
  2: { change (MAX_PATH <=? MAX_PATH) with true in H.
       unfold undefined in H. injection H as <- <-.
       eexists. split; [apply extends_snoc; eassumption|].
       split; [solve_Forall|]. right. right. left. split; [reflexivity|].
       do 2 eexists. split; [reflexivity|]. now left. }
  destruct (Z.leb_spec MAX_PATH (wcslen path)); [lia|].
  unfold ret at 1 in H. cbv beta iota in H.
  unfold bind at 1 in H.
  match type of H with
  | context [GetModuleDirectory w h ?st] =>
      rewrite (GetModuleDirectory_reads w h st) in H; cbv zeta in H;
      set (path' := os_GetModuleFileName w (log st) h) in *
  end.
  destruct (through_last_backslash (module_path_read path')) as [dir|] eqn:Ed.
  2: { injection H as <- <-.
       eexists. split; [do 2 apply extends_snoc; eassumption|].
       split; [solve_Forall|]. right. right. left. split; [reflexivity|].
       do 2 eexists. split; [reflexivity|]. right.
       now apply through_last_backslash_none. }
  assert (Hmp : module_path_read path = path).
  { unfold module_path_read.
    now destruct (Z.ltb_spec (wcslen path) MAX_PATH); [|lia]. }
  rewrite Hmp in H. clear Hmp.
  unfold bind at 1 in H. unfold GetModuleHandleExW_pin at 1 in H.
  match type of H with
  | context [os_GetModuleHandleExW w ?l path] =>
      destruct (os_GetModuleHandleExW w l path)
  end; cbn [negb] in H.
  2: { unfold bind, printf_s, emit, return_ in H. injection H as <- <-.
       eexists. split; [do 4 apply extends_snoc; eassumption|].
       split; [solve_Forall|]. left. split; [reflexivity|].
       do 2 eexists. split; [reflexivity|]. right. now left. }
  unfold bind at 1 in H. unfold GetProcAddress at 1 in H.
  match type of H with
  | context [is_null ?x] => set (p := x) in *; destruct (is_null p) eqn:Ep
  end.
  { unfold bind, printf_s, emit, return_ in H. injection H as <- <-.
    eexists. split; [do 5 apply extends_snoc; eassumption|].
    split; [solve_Forall|]. left. split; [reflexivity|].
    do 2 eexists. split; [reflexivity|]. right. right. now left. }
  apply is_null_false in Ep. unfold ret in H. injection H as <- <-.
  eexists. split; [do 4 apply extends_snoc; eassumption|].
  split; [solve_Forall|]. right. right. right. right.
  exists cur, dir. split; [reflexivity|].
  exists es1, (e0 :: pre), f, h, path, path', p.
  split; [assumption|]. split; [|now repeat split].
  repeat (rewrite <- app_assoc; cbn [app]). reflexivity.
Qed.

End Setup_in_detail.

(** Every way [H : CallApplicationMain w cfg fuel data = (s, o)] can have
    come about, with what the first part of the run has established. *)
Ltac run_CallApplicationMain_in_detail H :=
  unfold CallApplicationMain, CallApplicationMain_body in H;
  unfold bind at 1 in H;
  lazymatch type of H with
  | context [acquire_runtime ?w ?cfg ?fuel ?data ?s0] =>
      let s1 := fresh "s1" in
      let o1 := fresh "o1" in
      let EA := fresh "EA" in
      let es := fresh "es" in
      let X := fresh "X" in
      let F := fresh "Hsetup" in
      let Hacq := fresh "Hacq" in
      let cur := fresh "cur" in
      let dir := fresh "dir" in
      destruct (acquire_runtime w cfg fuel data s0) as [s1 o1] eqn:EA;
      apply acquire_runtime_detail in EA;
      destruct EA as (es & X & F &
                      [(-> & Hacq)
                      |[(-> & -> & Hacq)
                       |[(-> & Hacq)
                        |[(-> & Hacq)|(cur & dir & -> & Hacq)]]]]);
      destruct s1;
      unfold extends, entry in X;
      cbn [log hr pwszTrustedPlatformAssemblies data_exitcode app] in X;
      destruct X as (-> & -> & -> & ->);
      [ | | | |
        let s2 := fresh "s2" in
        let o2 := fresh "o2" in
        let EH := fresh "EH" in
        destruct (host_lifecycle w data cur dir
                    (mkState es S_OK None (exitcode data)))
          as [s2 o2] eqn:EH;
        unfold host_lifecycle in EH;
        repeat step EH;
        first [ injection EH as <- <-
              | unfold return_, goto_Finished, ret in EH;
                injection EH as <- <- ] ];
      unfold Finished in H; repeat step H; try congruence;
      try (match goal with E : FAILED S_OK = true |- _ => discriminate E end);
      first [ injection H as <- <-
            | unfold return_, goto_Finished, ret in H; injection H as <- <- ];
      decide_tests; decide_scans;
      cbn [record log hr pwszTrustedPlatformAssemblies data_exitcode] in *
  end.

Lemma wcscat_s_succeeded_in_bounds (dest src : string) (n : Z) :
  (fst (wcscat_s dest n src) =? 0) = true ->
  snd (wcscat_s dest n src) = dest ++ src /\ wcslen (dest ++ src) < n.
Proof.
  unfold wcscat_s. rewrite wcslen_append.
  destruct (Z.ltb_spec (wcslen dest + wcslen src) n); [now split|].
  discriminate.
Qed.

Lemma setup_not_free (e : event) :
  is_setup_event e = true -> is_free e = false.
Proof. now destruct e. Qed.

Lemma setup_not_interface_obtained (e : event) :
  is_setup_event e = true -> interface_obtained e = false.
Proof. now destruct e. Qed.


Lemma existsb_setup (p : event -> bool) (es : history) :
  Forall (fun e => is_setup_event e = true) es ->
  (forall e, is_setup_event e = true -> p e = false) ->
  existsb p es = false.
Proof.
  intros F Hp. induction F as [|x es Hx F IH]; [reflexivity|].
  cbn [existsb]. now rewrite (Hp _ Hx), IH.
Qed.

Lemma acquired_current (data : CALL_APPLICATION_MAIN_DATA)
  (cur dir : string) (es : history) :
  acquired data cur dir es ->
  (forall d, klrDirectory data = Some d -> cur = d) /\
  (klrDirectory data = None ->
   exists path, In (Ev_GetModuleFileName nullptr path) es /\
     through_last_backslash (module_path_read path) = Some cur).
Proof.
  intros (es1 & pre & f & h & path & path' & p & Hc & -> & _).
  unfold current in Hc. split.
  - intros d Hd. rewrite Hd in Hc. exact (proj1 Hc).
  - intros Hd. rewrite Hd in Hc. destruct Hc as (path0 & -> & Hp).
    exists path0. split; [now left | assumption].
Qed.

Lemma acquired_directory (data : CALL_APPLICATION_MAIN_DATA)
  (cur dir : string) (es : history) :
  acquired data cur dir es ->
  exists f h path,
    In (Ev_LoadLibraryExW f 0 h) es /\ h <> 0 /\
    In (Ev_GetModuleFileName h path) es /\
    through_last_backslash (module_path_read path) = Some dir.
Proof.
  intros (es1 & pre & f & h & path & path' & p & _ & -> & Hh & _ & _ & Hd).
  exists f, h, path'. split; [solve_In|]. split; [assumption|].
  split; [solve_In | assumption].
Qed.

Lemma acquired_interface (data : CALL_APPLICATION_MAIN_DATA)
  (cur dir : string) (es : history) :
  acquired data cur dir es ->
  exists pre f h path path' p,
    es = (pre ++ [ Ev_LoadLibraryExW f 0 h;
                   Ev_GetModuleFileName h path;
                   Ev_GetModuleFileName h path';
                   Ev_GetModuleHandleExW path true;
                   Ev_GetProcAddress h "GetCLRRuntimeHost" p ])%list /\
    h <> 0 /\ p <> 0.
Proof.
  intros (es1 & pre & f & h & path & path' & p & _ & -> & Hh & Hp & _).
  exists (es1 ++ pre)%list, f, h, path, path', p.
  now rewrite <- app_assoc.
Qed.

(** Finds a call in a log spelled out, or among the calls of the first
    part of the run. *)
Ltac find_In :=
  lazymatch goal with
  | |- In _ (_ ++ _) =>
      apply in_or_app; first [ left; find_In | right; find_In ]
  | |- In _ (_ :: _) => first [ left; reflexivity | right; find_In ]
  | |- In _ _ => assumption
  end.

Lemma setup_no_report (e : event) :
  is_setup_event e = true -> report_of_failure e = None.
Proof. now destruct e. Qed.

(** Cuts a log spelled out, [es ++ l], at the call that failed. *)
Ltac cut_log acc l :=
  lazymatch l with
  | ?x :: ?rest =>
      first [ exists acc, (removelast rest);
              split; [ rewrite <- ?app_assoc; cbn [app removelast];
                       reflexivity
                     | reflexivity ]
            | cut_log (acc ++ [x])%list rest ]
  end.

(** Takes the last [n] calls off a log spelled out, [es ++ l]. *)
Ltac all_but_last n :=
  lazymatch goal with
  | |- context [(?es ++ ?l)%list = _] =>
      exists (es ++ firstn (List.length l - n) l)%list
  end.

(** ** The loop over the loader modules while it goes on *)

Lemma still_in_the_loop_nil : still_in_the_loop 0 [].
Proof. repeat split; intros; contradiction. Qed.

(** A call that is no attempt, no successful look-up of
    [SetDefaultDllDirectories], no widening and no load of the runtime
    library leaves the loop where it was. *)
Lemma still_in_the_loop_cons (n : nat) (e : event) (es : history) :
  is_attempt e = false -> is_widening e = false ->
  runtime_loads [e] = [] ->
  (forall m p, e = Ev_GetProcAddress m "SetDefaultDllDirectories" p -> p = 0) ->
  still_in_the_loop n es -> still_in_the_loop n (e :: es).
Proof.
  intros Ha Hw Hr Hs (Hlen & Hset & Hwid & Hrl). repeat split.
  - cbn [filter]. now rewrite Ha.
  - intros m p [E|Hin]; [now apply (Hs m p) | now apply (Hset m p)].
  - intros e' [<-|Hin]; [assumption | now apply Hwid].
  - change (e :: es) with ([e] ++ es)%list.
    now rewrite runtime_loads_app, Hr, Hrl.
Qed.

(** An attempt that has failed is one more iteration. *)
Lemma still_in_the_loop_attempt (n : nat) (h : HMODULE) (es : history) :
  still_in_the_loop n es ->
  still_in_the_loop (S n)
    (Ev_LoadLibraryExW "api-ms-win-core-libraryloader-l1-1-1.dll"
       LOAD_LIBRARY_SEARCH_DEFAULT_DIRS h :: es).
Proof.
  intros (Hlen & Hset & Hwid & Hrl). repeat split.
  - cbn [filter]. change (is_attempt _) with true. cbn [List.length].
    now rewrite Hlen.
  - intros m p [E|Hin]; [discriminate E | now apply (Hset m p)].
  - intros e' [<-|Hin]; [reflexivity | now apply Hwid].
  - exact Hrl.
Qed.

Lemma scan_OSLoaderModules_stuck (w : World) (fuel : nat) (verbose : bool) :
  forall (v : loader_vars) (s s' : state),
    dwModuleFileName v = 0%nat ->
    scan_OSLoaderModules w fuel verbose v s = (s', Out_of_fuel) ->
    exists es, extends s s' es /\ still_in_the_loop fuel es.
Proof.
  induction fuel as [|fuel IH]; intros v s s' Hv H;
    cbn [scan_OSLoaderModules] in H; rewrite Hv in H;
    cbn [nth rgwzOSLoaderModuleNames] in H.
  - injection H as <-. exists []. split; [apply extends_refl|].
    apply still_in_the_loop_nil.
  - unfold bind, LoadLibraryExW, GetProcAddress, when, printf_s, emit, ret in H.
    destruct verbose;
    repeat match type of H with
    | context [is_null ?x] =>
        let E := fresh "E" in
        destruct (is_null x) eqn:E; cbn [negb andb] in H
    end;
    try discriminate H.
    all: apply IH in H; [|reflexivity].
    all: destruct H as (es & Hx & Hstill).
    all: repeat apply extends_cons in Hx.
    all: eexists; split; [exact Hx|].
    all: apply still_in_the_loop_attempt.
    all: repeat (apply still_in_the_loop_cons;
                 [ reflexivity | reflexivity | reflexivity
                 | intros m p Ep; first [ discriminate Ep
                                        | injection Ep as _ <-;
                                          now apply is_null_true ]
                 | ]).
    all: exact Hstill.
Qed.

Lemma widen_dll_search_path_stuck (w : World) (cfg : build) (fuel : nat)
  (dir : string) (s s' : state) :
  widen_dll_search_path w cfg fuel dir s = (s', Out_of_fuel) ->
  exists es, extends s s' es /\ still_in_the_loop fuel es.
Proof.
  unfold widen_dll_search_path. intros H.
  destruct (Win7PlusCoreSystem cfg).
  - unfold bind at 1 in H. unfold GetEnvironmentVariableW in H.
    set (kre := os_GetEnvironmentVariableW w (log s) "KRE_TRACE") in *.
    set (e0 := Ev_GetEnvironmentVariableW "KRE_TRACE" kre) in *.
    assert (Hk : exists verbose,
               bind (scan_OSLoaderModules w fuel verbose
                       (mkLoaderVars 0 nullptr nullptr nullptr))
                 (fun v =>
                    if is_null (hOSLoaderModule v)
                       || is_null (pFnAddDllDirectory v)
                       || is_null (pFnSetDefaultDllDirectories v)
                    then goto_Finished
                    else emit (Ev_AddDllDirectory dir) ;;
                         emit (Ev_SetDefaultDllDirectories widening_flags))
                 (record e0 s) = (s', Out_of_fuel)).
    { destruct kre as [val|]; [destruct (wcslen val <? 1)|]; eauto. }
    clear H. destruct Hk as (verbose & H). unfold bind at 1 in H.
    destruct (scan_OSLoaderModules w fuel verbose
                (mkLoaderVars 0 nullptr nullptr nullptr) (record e0 s))
      as [s2 o2] eqn:Escan.
    destruct o2 as [v'| | | |]; try discriminate H.
    + destruct (is_null (hOSLoaderModule v') || is_null (pFnAddDllDirectory v')
                || is_null (pFnSetDefaultDllDirectories v'));
        [discriminate H|].
      unfold bind, emit in H. discriminate H.
    + injection H as <-.
      apply scan_OSLoaderModules_stuck in Escan; [|reflexivity].
      destruct Escan as (es & Hx & Hstill).
      exists (e0 :: es). split; [now apply extends_cons|].
      apply still_in_the_loop_cons; try reflexivity; [|assumption].
      intros m p Ep. discriminate Ep.
  - unfold bind, emit in H. discriminate H.
Qed.

(** Building the path of the library neither calls the system nor loops. *)
Lemma build_wszClrPath_ends (v : string) (s s' : state) :
  build_wszClrPath v s <> (s', Out_of_fuel).
Proof.
  unfold build_wszClrPath. intros H.
  unfold bind at 1 in H. rewrite checked_cases in H.
  destruct (fst (wcscpy_s MAX_PATH v) =? 0); [|discriminate H].
  unfold bind at 1 in H.
  destruct (last_wchar (snd (wcscpy_s MAX_PATH v))) as [c|];
    [|discriminate H].
  destruct (negb (Ascii.eqb c backslash)).
  - rewrite checked_cases in H.
    destruct (fst (wcscat_s (snd (wcscpy_s MAX_PATH v)) MAX_PATH "\") =? 0);
      [|discriminate H].
    rewrite checked_cases in H.
    destruct (fst (wcscat_s _ MAX_PATH "coreclr.dll") =? 0); discriminate H.
  - unfold ret at 1 in H. rewrite checked_cases in H.
    destruct (fst (wcscat_s _ MAX_PATH "coreclr.dll") =? 0); discriminate H.
Qed.

Lemma extends_unique (s s' : state) (a b : history) :
  extends s s' a -> extends s s' b -> a = b.
Proof.
  intros (La & _) (Lb & _). rewrite La in Lb.
  now apply app_inv_head in Lb.
Qed.

(** A run of [LoadCoreClr] that has not come to an end is in the loop
    over the loader modules. *)
Lemma LoadCoreClr_still_in_the_loop (w : World) (cfg : build) (fuel : nat)
  (s s' : state) :
  LoadCoreClr w cfg fuel s = (s', Out_of_fuel) ->
  exists es,
    extends s s'
      (Ev_GetEnvironmentVariableW "CORECLR_DIR"
         (os_GetEnvironmentVariableW w (log s) "CORECLR_DIR") :: es) /\
    still_in_the_loop fuel es.
Proof.
  intros H.
  assert (Hb : LoadCoreClr_body w cfg fuel s = (s', Out_of_fuel)).
  { unfold LoadCoreClr, Finished_returning in H.
    destruct (LoadCoreClr_body w cfg fuel s) as [s1 o1].
    destruct o1; try discriminate H. exact H. }
  clear H. rename Hb into H.
  unfold LoadCoreClr_body in H. unfold bind at 1 in H.
  unfold GetEnvironmentVariableW in H.
  set (env := os_GetEnvironmentVariableW w (log s) "CORECLR_DIR") in *.
  set (e0 := Ev_GetEnvironmentVariableW "CORECLR_DIR" env) in *.
  assert (Hrest : exists dw buffer,
    bind (if negb (dw =? 0)
          then match buffer with
               | None => undefined
               | Some szCoreClrDirectory =>
                   wszClrPath <- build_wszClrPath szCoreClrDirectory ;;
                   widen_dll_search_path w cfg fuel szCoreClrDirectory ;;
                   LoadLibraryExW w wszClrPath 0
               end
          else ret nullptr) (load_fallbacks w cfg) (record e0 s)
    = (s', Out_of_fuel)).
  { cbv zeta in H.
    destruct env as [val|]; [destruct (wcslen val <? MAX_PATH)|].
    - now exists (wcslen val), (Some val).
    - now exists (wcslen val + 1), None.
    - now exists 0, None. }
  clear H. destruct Hrest as (dw & buffer & H).
  assert (Hfall : forall h0 s1, load_fallbacks w cfg h0 s1 <> (s', Out_of_fuel)).
  { intros h0 s1 E.
    destruct (load_fallbacks_spec w cfg h0 s1) as (s2 & h & l & E2 & _).
    rewrite E2 in E. discriminate E. }
  destruct (negb (dw =? 0)).
  - destruct buffer as [dir|]; [|discriminate H].
    rewrite !bind_assoc in H. unfold bind at 1 in H.
    destruct (build_wszClrPath dir (record e0 s)) as [s1 o1] eqn:E1.
    destruct o1 as [path| | | |]; try discriminate H;
      [|now apply build_wszClrPath_ends in E1].
    apply build_wszClrPath_silent in E1. subst s1.
    rewrite bind_assoc in H. unfold bind at 1 in H.
    destruct (widen_dll_search_path w cfg fuel dir (record e0 s))
      as [s2 o2] eqn:E2.
    destruct o2 as [[]| | | |]; try discriminate H.
    + unfold bind at 1 in H. unfold LoadLibraryExW at 1 in H.
      now apply Hfall in H.
    + injection H as <-. apply widen_dll_search_path_stuck in E2.
      destruct E2 as (es & Hx & Hstill). exists es.
      split; [now apply extends_cons | assumption].
  - unfold bind at 1 in H. unfold ret at 1 in H. now apply Hfall in H.
Qed.
(** ** The scans of the run, in detail *)

Section ScanDirectory_in_detail.

Variable w : World.

(** What a scan does, by cases, with the calls it makes. *)
Lemma ScanDirectory_body_detail (dir pat buf : string) (cch : Z) (s : state) :
  let found := os_FindFiles w (log s) (dir ++ pat) in
  exists fes r buf',
    ScanDirectory_body w dir pat buf cch s
    = (mkState (log s ++ fes) (hr s) (pwszTrustedPlatformAssemblies s)
         (data_exitcode s), Next (r, buf')) /\
    scan_outcome dir pat buf cch found fes r buf'.
Proof.
  intros found. unfold scan_outcome.
  destruct (pattern_fits_dec dir pat) as [Hfit|Hfit].
  - rewrite (ScanDirectory_body_fits _ _ _ _ _ _ Hfit). cbv zeta.
    fold found. unfold record.
    destruct found as [|ffd rest] eqn:Ef.
    + eexists [_], false, buf. split; [reflexivity|].
      right. right. left. now repeat split.
    + rewrite ScanDirectory_loop_spec.
      destruct (usable_names (ffd :: rest)) as [|n names] eqn:En.
      * eexists [_], true, _. split; [reflexivity|]. left.
        cbn [TPA_entries]. rewrite append_empty_r.
        repeat split; try congruence. now left.
      * destruct (Z.ltb_spec
                    (wcslen (buf ++ TPA_entries dir (n :: names))) cch).
        -- eexists [_], true, _. split; [reflexivity|]. left.
           repeat split; try congruence. now right.
        -- eexists [_], false, "". split; [reflexivity|].
           right. right. right. repeat split; congruence.
  - rewrite (ScanDirectory_body_too_long _ _ _ _ _ _ Hfit).
    exists [], false, buf. rewrite app_nil_r. split; [now destruct s|].
    right. left. now repeat split.
Qed.

(** A scan of the caller, with the case it falls in. *)
Lemma ScanDirectory_into_buffer_detail (dir pat buf : string) (cch : Z)
  (s : state) :
  pwszTrustedPlatformAssemblies s = Some buf ->
  let found := os_FindFiles w (log s) (dir ++ pat) in
  exists fes r buf',
    ScanDirectory_into_buffer w dir pat cch s =
    (mkState (log s ++ fes ++ [Ev_ScanDirectory_returns pat r buf'])
             (hr s) (Some buf') (data_exitcode s), Next r) /\
    (r = true /\ fes = [Ev_FindFirstFile (dir ++ pat) found] /\
       buf' = buf ++ TPA_entries dir (usable_names found)
     \/ r = false /\ (buf' = buf \/ buf' = "") /\
        (fes = [] \/ fes = [Ev_FindFirstFile (dir ++ pat) found])) /\
    scan_outcome dir pat buf cch found fes r buf'.
Proof.
  intros Hb found. unfold ScanDirectory_into_buffer, TrustedPlatformAssemblies.
  unfold bind at 1. rewrite Hb. unfold bind at 1.
  destruct (ScanDirectory_body_detail dir pat buf cch s)
    as (fes & r & buf' & E & Hd).
  rewrite (ScanDirectory_unfold w _ _ _ _ _ _ _ E).
  cbn [fst snd]. unfold bind, set_pwszTrustedPlatformAssemblies, ret.
  cbn [log hr data_exitcode record]. fold found in Hd.
  exists fes, r, buf'. rewrite <- app_assoc. split; [reflexivity|].
  split; [|exact Hd].
  destruct Hd as [(-> & -> & _ & _ & -> & _)
                 |[(-> & -> & _ & ->)
                  |[(-> & -> & _ & _ & ->)|(-> & -> & _ & _ & _ & ->)]]].
  - now left.
  - right. intuition.
  - right. intuition.
  - right. intuition.
Qed.

End ScanDirectory_in_detail.

(** A scan returns [false] in three cases and no other. *)
Lemma scan_outcome_false_iff (dir pat buf : string) (cch : Z)
  (found : list WIN32_FIND_DATA) (fes : history) (r : bool) (buf' : string) :
  scan_outcome dir pat buf cch found fes r buf' ->
  (r = false <->
   ~ pattern_fits dir pat \/ found = [] \/
   usable_names found <> [] /\
   cch <= wcslen (buf ++ TPA_entries dir (usable_names found))).
Proof.
  intros [(-> & _ & Hfit & Hne & -> & Hu)
         |[(-> & _ & Hfit & _)
          |[(-> & _ & _ & -> & _)|(-> & _ & _ & Hu & Hlen & _)]]].
  - split; [discriminate|]. intros [Hn|[Hn|(Hn & Hlen)]]; try contradiction.
    destruct Hu as [Hu|Hu]; [contradiction | lia].
  - split; [now left | reflexivity].
  - split; [right; now left | reflexivity].
  - split; [right; right; now split | reflexivity].
Qed.

Lemma directory_of_the_runtime_app (l l' : history) (dir : string) :
  directory_of_the_runtime l dir -> directory_of_the_runtime (l ++ l') dir.
Proof.
  intros (f & h & path & H1 & Hh & H2 & Hd). exists f, h, path.
  repeat split; try assumption; apply in_or_app; now left.
Qed.

(** One statement of a run, a scan being taken with the case it falls
    in and the enumeration it has made. *)
Ltac step_with_scans H :=
  lazymatch type of H with
  | bind (ScanDirectory_into_buffer ?w ?d ?p ?c) ?k ?s = _ =>
      let fes := fresh "fes" in let r := fresh "r" in let b := fresh "buf" in
      let E := fresh "E" in let Hc := fresh "Hscan" in
      let Hd := fresh "Hcase" in
      destruct (ScanDirectory_into_buffer_detail w d p _ c s eq_refl)
        as (fes & r & b & E & Hc & Hd);
      rewrite (bind_next _ _ _ _ _ E) in H; clear E;
      simpl_state H; simpl_state Hc; simpl_state Hd;
      lazymatch type of Hc with
      | context [os_FindFiles ?w ?h ?f] =>
          let found := fresh "found" in
          let Hfound := fresh "Hfound" in
          set (found := os_FindFiles w h f) in Hc, Hd;
          assert (Hfound : found = os_FindFiles w h f) by reflexivity;
          clearbody found
      end
  | _ => step H
  end.

(** Every way [H : CallApplicationMain w cfg fuel data = (s, o)] can have
    come about, with what the first part of the run has established and
    the case each scan falls in. *)
Ltac run_CallApplicationMain_with_scans H :=
  unfold CallApplicationMain, CallApplicationMain_body in H;
  unfold bind at 1 in H;
  lazymatch type of H with
  | context [acquire_runtime ?w ?cfg ?fuel ?data ?s0] =>
      let s1 := fresh "s1" in
      let o1 := fresh "o1" in
      let EA := fresh "EA" in
      let es := fresh "es" in
      let X := fresh "X" in
      let F := fresh "Hsetup" in
      let Hacq := fresh "Hacq" in
      let cur := fresh "cur" in
      let dir := fresh "dir" in
      destruct (acquire_runtime w cfg fuel data s0) as [s1 o1] eqn:EA;
      apply acquire_runtime_detail in EA;
      destruct EA as (es & X & F &
                      [(-> & Hacq)
                      |[(-> & -> & Hacq)
                       |[(-> & Hacq)
                        |[(-> & Hacq)|(cur & dir & -> & Hacq)]]]]);
      destruct s1;
      unfold extends, entry in X;
      cbn [log hr pwszTrustedPlatformAssemblies data_exitcode app] in X;
      destruct X as (-> & -> & -> & ->);
      [ | | | |
        let s2 := fresh "s2" in
        let o2 := fresh "o2" in
        let EH := fresh "EH" in
        destruct (host_lifecycle w data cur dir
                    (mkState es S_OK None (exitcode data)))
          as [s2 o2] eqn:EH;
        unfold host_lifecycle in EH;
        repeat step_with_scans EH;
        first [ injection EH as <- <-
              | unfold return_, goto_Finished, ret in EH;
                injection EH as <- <- ] ];
      unfold Finished in H; repeat step H; try congruence;
      try (match goal with E : FAILED S_OK = true |- _ => discriminate E end);
      first [ injection H as <- <-
            | unfold return_, goto_Finished, ret in H; injection H as <- <- ];
      decide_tests; decide_scans;
      cbn [record log hr pwszTrustedPlatformAssemblies data_exitcode] in *
  end.

(** Settles a goal on the scan of [H : scan_outcome ...], the log being
    cut at the return of that scan. *)
Ltac cut_at_scan Hacq :=
  lazymatch goal with
  | |- (?p = _ \/ _) /\ _ =>
      match goal with
      | Hc : scan_outcome ?d p _ _ (os_FindFiles _ ?pre _) ?fes _ _ |- _ =>
          split; [first [left; reflexivity | right; reflexivity]|];
          exists pre; eexists; exists d, fes;
          split; [rewrite <- ?app_assoc; cbn [app]; reflexivity|];
          split; [repeat apply directory_of_the_runtime_app;
                  exact (acquired_directory _ _ _ _ Hacq)
                 | exact Hc]
      end
  end.

(** Every scan of the run is made on the directory of the runtime, with
    an empty buffer, for one of the two patterns; the calls it makes come
    right before its return, and it falls in one of the four cases. *)
Lemma scans_of_the_run (w : World) (cfg : build) (fuel : nat)
  (data : CALL_APPLICATION_MAIN_DATA) (s : state) (o : outcome bool) :
  CallApplicationMain w cfg fuel data = (s, o) ->
  forall pat r b, In (Ev_ScanDirectory_returns pat r b) (log s) ->
  (pat = "*.ni.dll" \/ pat = "*.dll") /\
  exists pre post dir fes,
    log s = (pre ++ fes ++ Ev_ScanDirectory_returns pat r b :: post)%list /\
    directory_of_the_runtime pre dir /\
    scan_outcome dir pat ""
      TRUSTED_PLATFORM_ASSEMBLIES_STRING_BUFFER_SIZE_CCH
      (os_FindFiles w pre (dir ++ pat)) fes r b.
Proof.
  intros H pat r b Hin. run_CallApplicationMain_with_scans H.
  all: in_cases Hin; settle_case Hin.
  all: match goal with Hacq : acquired _ _ _ _ |- _ => cut_at_scan Hacq end.
Qed.

(** Cuts a log spelled out, [es ++ l], at the call [e]. *)
Ltac cut_at e acc l :=
  lazymatch l with
  | ?x :: ?rest =>
      tryif constr_eq x e then exists acc, rest
      else cut_at e (acc ++ [x])%list rest
  end.

(** Decides a membership in a log that has been computed. *)
Ltac computed_In := vm_compute; repeat first [left; reflexivity | right].

(** * The claims *)

(** ** The directory scan *)

Lemma ScanDirectory_cases (w : World) (szDirectory szPattern buf : string)
  (cch : Z) (s : state) :
  let found := os_FindFiles w (log s) (szDirectory ++ szPattern) in
  exists s' r buf',
    ScanDirectory w szDirectory szPattern buf cch s = (s', Next (r, buf')) /\
    (r = true /\ found <> [] /\ pattern_fits szDirectory szPattern /\
       buf' = buf ++ TPA_entries szDirectory (usable_names found)
     \/ r = false /\ buf' = buf /\ ~ pattern_fits szDirectory szPattern
     \/ r = false /\ buf' = buf /\ found = []
     \/ r = false /\ buf' = "" /\ usable_names found <> [] /\
          cch <= wcslen (buf ++ TPA_entries szDirectory (usable_names found))).
Proof.
  intros found.
  destruct (ScanDirectory_body_cases w szDirectory szPattern buf cch s)
    as (s1 & r & buf' & E & Hc).
  exists (record (Ev_ScanDirectory_returns szPattern r buf') s1), r, buf'.
  split; [exact (ScanDirectory_unfold w _ _ _ _ _ _ _ E)|].
  fold found in Hc. intuition.
Qed.

(** C1. A scan that succeeds leaves in the buffer what it held followed by
    one entry [directory + filename + ";"] for each file of the
    enumeration that is neither a directory nor on the exclusion list, in
    the order of the enumeration; their number is that of the files that
    are not directories less that of the excluded ones among them. *)
Theorem ScanDirectory_lists_the_usable_files (w : World)
  (szDirectory szPattern buf : string) (cch : Z) (s s' : state)
  (buf' : string) :
  ScanDirectory w szDirectory szPattern buf cch s = (s', Next (true, buf')) ->
  let found := os_FindFiles w (log s) (szDirectory ++ szPattern) in
  buf' = buf ++ TPA_entries szDirectory (usable_names found) /\
  List.length (usable_names found)
  = (List.length (plain_files found)
     - List.length (excluded_files found))%nat.
Proof.
  intros H found.
  destruct (ScanDirectory_cases w szDirectory szPattern buf cch s)
    as (s1 & r & b & E & Hc).
  rewrite E in H. injection H as _ -> ->. fold found in Hc. split.
  - destruct Hc as [(_ & _ & _ & Hb)|[(Hr & _)|[(Hr & _)|(Hr & _)]]];
      [assumption | discriminate Hr ..].
  - pose proof (usable_names_count found). lia.
Qed.

(** In the directory of the examples three files match, one of them
    excluded: two entries are listed. *)
Lemma ScanDirectory_lists_the_usable_files_witness :
  ScanDirectory world_installed "C:\klr\" "*.ni.dll" "" 64512 nothing_called
  = (record (Ev_ScanDirectory_returns "*.ni.dll" true
               "C:\klr\mscorlib.ni.dll;C:\klr\System.ni.dll;")
       (record (Ev_FindFirstFile "C:\klr\*.ni.dll"
                  (runtime_directory "C:\klr\*.ni.dll")) nothing_called),
     Next (true, "C:\klr\mscorlib.ni.dll;C:\klr\System.ni.dll;")) /\
  "C:\klr\mscorlib.ni.dll;C:\klr\System.ni.dll;"
  = "" ++ TPA_entries "C:\klr\"
            (usable_names (runtime_directory "C:\klr\*.ni.dll")) /\
  List.length (usable_names (runtime_directory "C:\klr\*.ni.dll"))
  = (3 - 1)%nat.
Proof.
  split; [vm_compute; reflexivity|].
  exact (ScanDirectory_lists_the_usable_files world_installed
           "C:\klr\" "*.ni.dll" "" 64512 nothing_called _ _ eq_refl).
Defined.

(** C2. Whatever the directory holds, the names a scan lists are names of
    the enumeration that are not on the exclusion list: the buffer ends
    up holding what it held followed by the entries of such names, or
    empty. *)
Theorem ScanDirectory_never_lists_an_excluded_name (w : World)
  (szDirectory szPattern buf : string) (cch : Z) (s : state) :
  let found := os_FindFiles w (log s) (szDirectory ++ szPattern) in
  exists s' r buf' names,
    ScanDirectory w szDirectory szPattern buf cch s = (s', Next (r, buf')) /\
    (buf' = buf ++ TPA_entries szDirectory names \/ buf' = "") /\
    (r = true -> names = usable_names found) /\
    (forall n, In n names ->
       In n (map cFileName found) /\ ~ In n ExclusionSet /\
       is_excluded n = false).
Proof.
  intros found.
  destruct (ScanDirectory_cases w szDirectory szPattern buf cch s)
    as (s1 & r & b & E & Hc).
  fold found in Hc.
  assert (Hnames : forall n, In n (usable_names found) ->
            In n (map cFileName found) /\ ~ In n ExclusionSet /\
            is_excluded n = false).
  { intros n Hn. split; [now apply usable_names_found|].
    pose proof (usable_names_not_excluded found) as F.
    rewrite Forall_forall in F. specialize (F n Hn).
    split; [assumption|]. rewrite <- is_excluded_iff in F.
    now destruct (is_excluded n). }
  destruct Hc as [(-> & _ & _ & ->)
                 |[(-> & -> & _)|[(-> & -> & _)|(-> & -> & _)]]].
  - exists s1, true, (buf ++ TPA_entries szDirectory (usable_names found)),
      (usable_names found).
    split; [exact E|]. split; [now left|]. split; [reflexivity|].
    exact Hnames.
  - exists s1, false, buf, []. split; [exact E|].
    split; [left; cbn [TPA_entries]; now rewrite append_empty_r|].
    split; [discriminate|]. intros n [].
  - exists s1, false, buf, []. split; [exact E|].
    split; [left; cbn [TPA_entries]; now rewrite append_empty_r|].
    split; [discriminate|]. intros n [].
  - exists s1, false, "", []. split; [exact E|]. split; [now right|].
    split; [discriminate|]. intros n [].
Qed.

(** The generic pattern is scanned exactly when the scan with the
    optimized pattern has returned [false]. *)
Lemma generic_scan_iff_optimized_scan_fails (w : World) (cfg : build)
  (fuel : nat) (data : CALL_APPLICATION_MAIN_DATA) (s : state)
  (o : outcome bool) :
  CallApplicationMain w cfg fuel data = (s, o) ->
  (exists r b, In (Ev_ScanDirectory_returns "*.dll" r b) (log s)) <->
  (exists b, In (Ev_ScanDirectory_returns "*.ni.dll" false b) (log s)).
Proof.
  intros H. run_CallApplicationMain H.
  all: split; [intros (r & b & Hin)|intros (b & Hin)].
  all: in_cases Hin; settle_case Hin.
  all: try (now (eexists; solve_In)).
  all: try (now (do 2 eexists; solve_In)).
Qed.

(** C7, as amended.  When the search string fits: if the entries of the
    usable names do not fit in the buffer after what it holds, the scan
    returns [false] and leaves the buffer empty, with no entry and no
    part of one; if nothing matches, the scan returns the same [false]
    and leaves the buffer as it was.  In a run of [CallApplicationMain]
    each scan is made with an empty buffer and falls in one of the cases
    of a scan.  After an optimized scan that has returned [false] the
    generic pattern is scanned.  The run fails at this stage only when
    the generic scan returns [false] too: it then reports that no files
    were found and returns [false], these being its last calls.  A scan
    that returns [true] is followed at once by the creation of the
    execution context, or, when a later path does not fit, by the
    release of the buffer, [true] being returned. *)
Theorem ScanDirectory_overflow_and_no_match (w : World)
  (szDirectory szPattern buf : string) (cch : Z) (s : state) :
  pattern_fits szDirectory szPattern ->
  let found := os_FindFiles w (log s) (szDirectory ++ szPattern) in
  (usable_names found <> [] ->
   cch <= wcslen (buf ++ TPA_entries szDirectory (usable_names found)) ->
   exists s',
     ScanDirectory w szDirectory szPattern buf cch s
     = (s', Next (false, ""))) /\
  (found = [] ->
   exists s',
     ScanDirectory w szDirectory szPattern buf cch s
     = (s', Next (false, buf))) /\
  (forall cfg fuel data sf o,
     CallApplicationMain w cfg fuel data = (sf, o) ->
     (forall pat r b,
        In (Ev_ScanDirectory_returns pat r b) (log sf) ->
        (pat = "*.ni.dll" \/ pat = "*.dll") /\
        exists pre post dir fes,
          log sf
          = (pre ++ fes ++ Ev_ScanDirectory_returns pat r b :: post)%list /\
          directory_of_the_runtime pre dir /\
          scan_outcome dir pat ""
            TRUSTED_PLATFORM_ASSEMBLIES_STRING_BUFFER_SIZE_CCH
            (os_FindFiles w pre (dir ++ pat)) fes r b) /\
     (forall b, In (Ev_ScanDirectory_returns "*.ni.dll" false b) (log sf) ->
        exists r b', In (Ev_ScanDirectory_returns "*.dll" r b') (log sf)) /\
     (forall b, In (Ev_ScanDirectory_returns "*.dll" false b) (log sf) ->
        o = Return false /\
        (exists b', In (Ev_ScanDirectory_returns "*.ni.dll" false b')
                      (log sf)) /\
        exists pre,
          log sf
          = (pre ++
             [ Ev_ScanDirectory_returns "*.dll" false b;
               Ev_printf "Failed to find files in the coreclr directory\n"
                 [] ])%list) /\
     (forall pat b, In (Ev_ScanDirectory_returns pat true b) (log sf) ->
        exists pre post,
          log sf = (pre ++ Ev_ScanDirectory_returns pat true b :: post)%list /\
          (post = [Ev_free] /\ o = Return true \/
           exists appbase tpa paths h d rest,
             post
             = Ev_CreateAppDomainWithManager appbase tpa paths h d :: rest))).
Proof.
  intros Hfit found.
  destruct (ScanDirectory_cases w szDirectory szPattern buf cch s)
    as (s1 & r & b & E & Hc).
  fold found in Hc. split; [|split].
  - intros Hu Hover. exists s1. rewrite E.
    destruct Hc as [(-> & _ & _ & ->)
                   |[(-> & -> & Hn)|[(-> & -> & Hf)|(-> & -> & _)]]].
    + exfalso.
      (* a scan that succeeded has appended in bounds *)
      unfold ScanDirectory, bind in E.
      rewrite (ScanDirectory_body_fits w _ _ _ _ _ Hfit) in E.
      cbv zeta in E. fold found in E.
      destruct found as [|ffd rest] eqn:Ef; [now cbn in Hu|].
      rewrite ScanDirectory_loop_spec in E.
      destruct (usable_names (ffd :: rest)) as [|n names]; [now elim Hu|].
      destruct (Z.ltb_spec
                  (wcslen (buf ++ TPA_entries szDirectory (n :: names))) cch);
        [lia|]. cbn in E. discriminate E.
    + now elim Hn.
    + rewrite Hf in Hu. now elim Hu.
    + reflexivity.
  - intros Hf. exists s1. rewrite E.
    destruct Hc as [(_ & Hn & _)|[(-> & -> & Hn)
                   |[(-> & -> & _)|(_ & _ & Hu & _)]]].
    + now elim Hn.
    + now elim Hn.
    + reflexivity.
    + rewrite Hf in Hu. now elim Hu.
  - clear. intros cfg fuel data sf o Hrun. split; [|split; [|split]].
    + exact (scans_of_the_run _ _ _ _ _ _ Hrun).
    + intros b0 Hin.
      apply (generic_scan_iff_optimized_scan_fails _ _ _ _ _ _ Hrun).
      now exists b0.
    + intros b0 Hin. run_CallApplicationMain Hrun.
      all: in_cases Hin; settle_case Hin.
      all: split; [reflexivity|].
      all: split; [eexists; solve_In|].
      all: spell_out_log.
      all: all_but_last 2%nat.
      all: rewrite <- app_assoc; cbn [firstn List.length Nat.sub app].
      all: reflexivity.
    + intros pat b0 Hin. run_CallApplicationMain Hrun.
      all: in_cases Hin; settle_case Hin.
      all: spell_out_log.
      all: lazymatch goal with
           | |- exists pre post, (?es ++ ?l)%list = (_ ++ ?e :: _)%list /\ _ =>
               cut_at e es l
           end.
      all: split; [rewrite <- ?app_assoc; cbn [app]; reflexivity|].
      all: first [ left; split; reflexivity
                 | right; do 6 eexists; reflexivity ].
Qed.

(** The crowded directory overflows the buffer of 64512 characters and
    the empty one matches nothing.  Where the directory of the runtime
    holds nothing that matches, both scans return [false] and the run
    ends with [false]. *)
Lemma ScanDirectory_overflow_and_no_match_witness :
  pattern_fits "C:\big\" "*.dll" /\
  snd (ScanDirectory world_crowded "C:\big\" "*.dll" ""
         TRUSTED_PLATFORM_ASSEMBLIES_STRING_BUFFER_SIZE_CCH nothing_called)
  = Next (false, "") /\
  snd (ScanDirectory world_crowded "C:\empty\" "*.dll" ""
         TRUSTED_PLATFORM_ASSEMBLIES_STRING_BUFFER_SIZE_CCH nothing_called)
  = Next (false, "") /\
  In (Ev_ScanDirectory_returns "*.dll" false "")
    (log (fst (CallApplicationMain world_empty_directory x86_Win7Plus 1
                 launch))) /\
  snd (CallApplicationMain world_empty_directory x86_Win7Plus 1 launch)
  = Return false.
Proof.
  split; [vm_compute; reflexivity|].
  destruct (ScanDirectory_overflow_and_no_match world_crowded
              "C:\big\" "*.dll" ""
              TRUSTED_PLATFORM_ASSEMBLIES_STRING_BUFFER_SIZE_CCH
              nothing_called) as (Hover & _ & _); [vm_compute; reflexivity|].
  destruct (ScanDirectory_overflow_and_no_match world_crowded
              "C:\empty\" "*.dll" ""
              TRUSTED_PLATFORM_ASSEMBLIES_STRING_BUFFER_SIZE_CCH
              nothing_called) as (_ & Hnone & _); [vm_compute; reflexivity|].
  destruct (ScanDirectory_overflow_and_no_match world_empty_directory
              "C:\klr\" "*.dll" ""
              TRUSTED_PLATFORM_ASSEMBLIES_STRING_BUFFER_SIZE_CCH
              nothing_called) as (_ & _ & Hrun); [vm_compute; reflexivity|].
  destruct (Hrun x86_Win7Plus 1%nat launch _ _ (surjective_pairing _))
    as (_ & _ & Hfail & _).
  assert (Hin : In (Ev_ScanDirectory_returns "*.dll" false "")
                  (log (fst (CallApplicationMain world_empty_directory
                               x86_Win7Plus 1 launch))))
    by computed_In.
  split; [|split; [|split]].
  - destruct Hover as (s' & ->); [vm_compute; discriminate | | reflexivity].
    vm_compute. discriminate.
  - destruct Hnone as (s' & ->); [vm_compute; reflexivity | reflexivity].
  - exact Hin.
  - exact (proj1 (Hfail "" Hin)).
Defined.

(** C7, as stated, fails: a scan whose entries overflow the buffer and a
    scan that matches nothing hand the caller the same answer, [false]
    with an empty buffer. *)
Lemma ScanDirectory_overflow_not_told_apart :
  TRUSTED_PLATFORM_ASSEMBLIES_STRING_BUFFER_SIZE_CCH
  <= wcslen (TPA_entries "C:\big\"
               (usable_names (os_FindFiles world_crowded [] "C:\big\*.dll")))
  /\ os_FindFiles world_crowded [] "C:\empty\*.dll" = [] /\
  snd (ScanDirectory world_crowded "C:\big\" "*.dll" ""
         TRUSTED_PLATFORM_ASSEMBLIES_STRING_BUFFER_SIZE_CCH nothing_called)
  = snd (ScanDirectory world_crowded "C:\empty\" "*.dll" ""
           TRUSTED_PLATFORM_ASSEMBLIES_STRING_BUFFER_SIZE_CCH nothing_called).
Proof.
  split; [vm_compute; discriminate|]. split; vm_compute; reflexivity.
Qed.

(** ** The search for the runtime library *)

Lemma environment_path_longer (dir : string) :
  wcslen dir < wcslen (environment_path dir).
Proof.
  unfold environment_path, normalized_directory.
  assert (Hc : wcslen "coreclr.dll" = 11) by reflexivity.
  destruct (last_wchar dir) as [c|]; [destruct (Ascii.eqb c backslash)|];
    rewrite !wcslen_append, Hc;
    try (assert (Hb : wcslen "\" = 1) by reflexivity; rewrite Hb); lia.
Qed.

Lemma wcslen_zero (dir : string) : wcslen dir = 0 -> dir = "".
Proof. destruct dir; [reflexivity|]. unfold wcslen. cbn. lia. Qed.

Lemma located_runtime_loads (cands : list string) (o : outcome HMODULE)
  (wes loads : history) :
  runtime_loads wes = [] -> located cands o loads ->
  exists h, o = Next h /\ tried cands (runtime_loads (wes ++ loads)) h.
Proof.
  intros Hw (l & h & -> & -> & Ht). exists h. split; [reflexivity|].
  now rewrite runtime_loads_app, Hw, runtime_loads_load_events.
Qed.

(** A run that ends with no runtime library prints so and returns
    [false]. *)
Lemma CallApplicationMain_not_located (w : World) (cfg : build) (fuel : nat)
  (data : CALL_APPLICATION_MAIN_DATA) (s s' : state) (cur : string) :
  current_directory w data (entry data) = (s, Next cur) ->
  LoadCoreClr w cfg fuel s = (s', Next nullptr) ->
  CallApplicationMain w cfg fuel data
  = (record (Ev_printf "Failed to locate coreclr.dll.\n" []) s',
     Return false).
Proof.
  intros Hcur Hload.
  unfold CallApplicationMain, CallApplicationMain_body, acquire_runtime.
  rewrite bind_assoc, (bind_next _ _ _ _ _ Hcur).
  rewrite bind_assoc, (bind_next _ _ _ _ _ Hload).
  reflexivity.
Qed.

(** C3, as amended.  [LoadCoreClr] first reads [CORECLR_DIR].  If it is
    unset or empty, the development path and then the bare file name are
    tried.  If it names a directory and the path of the library below it
    (the directory made to end with a separator, then [coreclr.dll]) fits
    in [MAX_PATH] characters, the run goes one of two ways.  Either it is
    still in the loop over the loader modules when the iterations allowed
    have been made: this happens on [Win7PlusCoreSystem] only, the first
    loader module has then been asked for once in each iteration, the
    search path has not been widened and no candidate has been tried;
    with a first loader module that always loads and has both functions
    it does not happen, one iteration being enough.  Or the search path
    is widened, after which that path, the development path and the bare
    file name are tried, and nothing else is loaded without a flag.  In
    both cases the candidates are tried in this order, each only when
    every earlier one gave no handle, and the first handle obtained is
    returned, or none when all have failed.  If the value fits in the
    array of [MAX_PATH] characters and the path of the library does not,
    no candidate is tried and no handle is returned.  If the value does
    not fit in the array either, the array is read though nothing was
    written to it.  When no handle is returned, [CallApplicationMain]
    reports that [coreclr.dll] was not located and returns [false]. *)
Theorem LoadCoreClr_fallback_chain (w : World) (cfg : build) (fuel : nat)
  (s s' : state) (o : outcome HMODULE) :
  LoadCoreClr w cfg fuel s = (s', o) ->
  let env := os_GetEnvironmentVariableW w (log s) "CORECLR_DIR" in
  let fallbacks := [development_path cfg; "coreclr.dll"] in
  exists es,
    extends s s' (Ev_GetEnvironmentVariableW "CORECLR_DIR" env :: es) /\
    (env = None \/ env = Some "" ->
     exists h, o = Next h /\ es = load_events (runtime_loads es) /\
       tried fallbacks (runtime_loads es) h) /\
    (forall dir, env = Some dir -> dir <> "" ->
       wcslen (environment_path dir) < MAX_PATH ->
       (o = Out_of_fuel /\ Win7PlusCoreSystem cfg = true /\
        (loader_ready w -> fuel = 0%nat) /\ still_in_the_loop fuel es) \/
       exists wes h,
         es = (wes ++ load_events (runtime_loads es))%list /\
         widened cfg dir wes /\ runtime_loads wes = [] /\ o = Next h /\
         tried (environment_path dir :: fallbacks) (runtime_loads es) h) /\
    (forall dir, env = Some dir -> wcslen dir < MAX_PATH ->
       MAX_PATH <= wcslen (environment_path dir) ->
       o = Next nullptr /\ es = []) /\
    (forall dir, env = Some dir -> MAX_PATH <= wcslen dir ->
       o = Undefined /\ es = []) /\
    (forall data cur,
       current_directory w data (entry data) = (s, Next cur) ->
       o = Next nullptr ->
       CallApplicationMain w cfg fuel data
       = (record (Ev_printf "Failed to locate coreclr.dll.\n" []) s',
          Return false)).
Proof.
  intros H env fallbacks.
  destruct (LoadCoreClr_spec w cfg fuel s s' o H) as (es & Hx & _ & Hc).
  fold env in Hx, Hc. exists es. split; [assumption|].
  unfold LoadCoreClr_cases, LoadCoreClr_cases_with in Hc. fold fallbacks in Hc.
  assert (Hunset : located fallbacks o es ->
            exists h, o = Next h /\ es = load_events (runtime_loads es) /\
              tried fallbacks (runtime_loads es) h).
  { intros (l & h & -> & -> & Ht). exists h.
    rewrite runtime_loads_load_events. now repeat split. }
  split; [|split; [|split; [|split]]].
  - intros [E|E]; rewrite E in Hc; [now apply Hunset|].
    change (wcslen "" =? 0) with true in Hc. now apply Hunset.
  - intros dir E Hne Hfit. rewrite E in Hc.
    pose proof (environment_path_longer dir) as Hlen.
    pose proof (wcslen_nonneg dir) as Hpos.
    destruct (Z.eqb_spec (wcslen dir) 0) as [Ez|_];
      [now apply wcslen_zero in Ez|].
    destruct (Z.leb_spec MAX_PATH (wcslen dir)); [lia|].
    destruct (Z.leb_spec MAX_PATH (wcslen (environment_path dir))); [lia|].
    destruct Hc as (wes & Hr & [(-> & Hw & -> & Hf)|(Hw & loads & -> & Hl)]).
    + left. split; [reflexivity|]. do 2 (split; [assumption|]).
      destruct (LoadCoreClr_still_in_the_loop _ _ _ _ _ H)
        as (es2 & Hx' & Hstill).
      fold env in Hx'. pose proof (extends_unique _ _ _ _ Hx Hx') as E'.
      injection E' as ->. exact Hstill.
    + right. destruct Hl as (l & h & -> & -> & Ht). exists wes, h.
      rewrite runtime_loads_app, Hr, runtime_loads_load_events.
      now repeat split.
  - intros dir E Hshort Hlong. rewrite E in Hc.
    pose proof (wcslen_nonneg dir) as Hpos.
    destruct (Z.eqb_spec (wcslen dir) 0) as [Ez|_].
    { apply wcslen_zero in Ez. subst dir. vm_compute in Hlong.
      now elim Hlong. }
    destruct (Z.leb_spec MAX_PATH (wcslen dir)); [lia|].
    destruct (Z.leb_spec MAX_PATH (wcslen (environment_path dir))); [|lia].
    exact Hc.
  - intros dir E Hlong. rewrite E in Hc.
    destruct (Z.eqb_spec (wcslen dir) 0) as [Ez|_];
      [unfold MAX_PATH in Hlong; lia|].
    destruct (Z.leb_spec MAX_PATH (wcslen dir)); [|lia].
    exact Hc.
  - intros data cur Hcur ->.
    exact (CallApplicationMain_not_located _ _ _ _ _ _ _ Hcur H).
Qed.

(** Where only the first loader module has the two functions and
    [CORECLR_DIR] names the directory of the runtime, one iteration
    finds them, the search path is widened and the first candidate gives
    the handle. *)
Lemma LoadCoreClr_fallback_chain_witness :
  LoadCoreClr world_by_module x86_Win7Plus 1 nothing_called
  = (mkState
       [ Ev_GetEnvironmentVariableW "CORECLR_DIR" (Some "C:\klr");
         Ev_GetEnvironmentVariableW "KRE_TRACE" None;
         Ev_LoadLibraryExW "api-ms-win-core-libraryloader-l1-1-1.dll"
           LOAD_LIBRARY_SEARCH_DEFAULT_DIRS 3;
         Ev_GetProcAddress 3 "AddDllDirectory" 5;
         Ev_GetProcAddress 3 "SetDefaultDllDirectories" 6;
         Ev_AddDllDirectory "C:\klr";
         Ev_SetDefaultDllDirectories widening_flags;
         Ev_LoadLibraryExW "C:\klr\coreclr.dll" 0 7 ]
       S_OK None 0, Next 7) /\
  exists es,
    extends nothing_called
      (fst (LoadCoreClr world_by_module x86_Win7Plus 1 nothing_called))
      (Ev_GetEnvironmentVariableW "CORECLR_DIR" (Some "C:\klr") :: es) /\
    exists wes h,
      es = (wes ++ load_events (runtime_loads es))%list /\
      widened x86_Win7Plus "C:\klr" wes /\ runtime_loads wes = [] /\
      Next 7 = Next h /\
      tried [ "C:\klr\coreclr.dll";
              "..\..\..\artifacts\build\ProjectK\Runtime\x86\coreclr.dll";
              "coreclr.dll" ] (runtime_loads es) h.
Proof.
  split; [vm_compute; reflexivity|].
  destruct (LoadCoreClr_fallback_chain world_by_module x86_Win7Plus 1
              nothing_called _ _ (surjective_pairing _))
    as (es & Hx & _ & Hset & _).
  exists es. split; [exact Hx|].
  destruct (Hset "C:\klr" eq_refl) as [(Hout & _)|Hh].
  - discriminate.
  - vm_compute. reflexivity.
  - vm_compute in Hout. discriminate Hout.
  - exact Hh.
Defined.

(** C3, as stated, fails: with [CORECLR_DIR] naming a directory of 250
    characters, whose library path cannot exist within [MAX_PATH],
    [LoadCoreClr] returns no handle without trying the development path
    or the bare file name, though the latter would load; the run ends
    with [false]. *)
Lemma LoadCoreClr_long_directory_no_fallback :
  os_LoadLibraryExW world_long_directory []
    (environment_path long_directory) 0 = nullptr /\
  os_LoadLibraryExW world_long_directory [] "coreclr.dll" 0 <> nullptr /\
  wcslen long_directory < MAX_PATH /\
  LoadCoreClr world_long_directory x86_Win7Plus 1 nothing_called
  = (record (Ev_GetEnvironmentVariableW "CORECLR_DIR" (Some long_directory))
       nothing_called, Next nullptr) /\
  snd (CallApplicationMain world_long_directory x86_Win7Plus 1 launch)
  = Return false.
Proof.
  split; [vm_compute; reflexivity|].
  split; [vm_compute; discriminate|]. split; [vm_compute; reflexivity|].
  split; vm_compute; reflexivity.
Qed.

(** C8, as amended.  On [Win7PlusCoreSystem], with [CORECLR_DIR] naming a
    directory, [LoadCoreClr] tries to load the runtime library, from the
    path of the environment or from a fall-back, only after one loader
    module has given both [AddDllDirectory] and [SetDefaultDllDirectories]
    and the search path has been widened with them; as long as they are
    not obtained no load of the runtime library is tried. *)
Theorem runtime_load_only_after_widening (w : World) (cfg : build)
  (fuel : nat) (s s' : state) (o : outcome HMODULE) (dir : string) :
  Win7PlusCoreSystem cfg = true ->
  LoadCoreClr w cfg fuel s = (s', o) ->
  os_GetEnvironmentVariableW w (log s) "CORECLR_DIR" = Some dir ->
  dir <> "" ->
  exists es, log s' = (log s ++ es)%list /\
    (runtime_loads es = [] \/
     exists pre m pA pS post,
       es = (pre ++ [ Ev_GetProcAddress m "AddDllDirectory" pA;
                      Ev_GetProcAddress m "SetDefaultDllDirectories" pS;
                      Ev_AddDllDirectory dir;
                      Ev_SetDefaultDllDirectories widening_flags ] ++ post)%list
       /\ m <> 0 /\ pA <> 0 /\ pS <> 0 /\ runtime_loads pre = []).
Proof.
  intros Hwin H Henv Hne.
  destruct (LoadCoreClr_spec w cfg fuel s s' o H) as (es & Hx & _ & Hc).
  rewrite Henv in Hx, Hc.
  exists (Ev_GetEnvironmentVariableW "CORECLR_DIR" (Some dir) :: es).
  split; [exact (proj1 Hx)|].
  unfold LoadCoreClr_cases, LoadCoreClr_cases_with in Hc.
  destruct (Z.eqb_spec (wcslen dir) 0) as [Ez|_];
    [now apply wcslen_zero in Ez|].
  destruct (MAX_PATH <=? wcslen dir); [destruct Hc as [_ ->]; now left|].
  destruct (MAX_PATH <=? wcslen (environment_path dir));
    [destruct Hc as [_ ->]; now left|].
  destruct Hc as (wes & Hr & [(_ & _ & -> & _)|(Hw & loads & -> & _)]).
  - now left.
  - right. unfold widened in Hw. rewrite Hwin in Hw.
    destruct Hw as (pre & m & pA & pS & Hm & HA & HS & ->).
    exists (Ev_GetEnvironmentVariableW "CORECLR_DIR" (Some dir) :: pre),
      m, pA, pS, loads.
    split; [cbn [app]; now rewrite <- !app_assoc|].
    repeat split; try assumption.
    rewrite runtime_loads_app in Hr. apply app_eq_nil in Hr. exact (proj1 Hr).
Qed.

(** With a loader that has both functions the library is asked for right
    after the search path has been widened. *)
Lemma runtime_load_only_after_widening_witness :
  Win7PlusCoreSystem x86_Win7Plus = true /\
  os_GetEnvironmentVariableW world_wrong_directory [] "CORECLR_DIR"
  = Some "C:\rt" /\
  exists es,
    log (fst (LoadCoreClr world_wrong_directory x86_Win7Plus 1
                nothing_called)) = ([] ++ es)%list /\
    (runtime_loads es = [] \/
     exists pre m pA pS post,
       es = (pre ++ [ Ev_GetProcAddress m "AddDllDirectory" pA;
                      Ev_GetProcAddress m "SetDefaultDllDirectories" pS;
                      Ev_AddDllDirectory "C:\rt";
                      Ev_SetDefaultDllDirectories widening_flags ] ++ post)%list
       /\ m <> 0 /\ pA <> 0 /\ pS <> 0 /\ runtime_loads pre = []).
Proof.
  split; [reflexivity|]. split; [reflexivity|].
  apply (runtime_load_only_after_widening world_wrong_directory x86_Win7Plus
           1 nothing_called _ _ "C:\rt" eq_refl (surjective_pairing _)
           eq_refl).
  discriminate.
Defined.

(** In the world where no module has the two functions, the loop over
    the loader modules asks the first module again and again. *)
Lemma scan_without_widening (fuel : nat) :
  forall (v : loader_vars) (s : state),
    dwModuleFileName v = 0%nat ->
    exists s',
      scan_OSLoaderModules world_without_widening fuel false v s
      = (s', Out_of_fuel) /\
      runtime_loads (log s') = runtime_loads (log s).
Proof.
  induction fuel as [|fuel IH]; intros v s Hv;
    cbn [scan_OSLoaderModules]; rewrite Hv;
    cbn [nth rgwzOSLoaderModuleNames].
  - now exists s.
  - unfold bind, LoadLibraryExW, GetProcAddress, when, ret.
    cbn [world_without_widening steady_world os_LoadLibraryExW
         os_GetProcAddress String.eqb Ascii.eqb Bool.eqb is_null Z.eqb
         nullptr].
    match goal with
    | |- context [scan_OSLoaderModules _ fuel false ?v' ?s1] =>
        destruct (IH v' s1 eq_refl) as (s' & E & Hr)
    end.
    exists s'. split; [exact E|]. rewrite Hr.
    cbn [record log]. rewrite !runtime_loads_app. cbn. now rewrite !app_nil_r.
Qed.

(** C8, as stated, fails: where neither loader module has the two
    functions, [LoadCoreClr] never comes to load the runtime library,
    whatever the number of iterations it is given, although the library
    is there to be loaded. *)
Lemma LoadCoreClr_without_widening_never_loads :
  (forall hist m,
     os_GetProcAddress world_without_widening hist m "AddDllDirectory"
     = nullptr /\
     os_GetProcAddress world_without_widening hist m
       "SetDefaultDllDirectories" = nullptr) /\
  os_LoadLibraryExW world_without_widening [] "C:\klr\coreclr.dll" 0
  <> nullptr /\
  ~ exists fuel,
      runtime_loads
        (log (fst (LoadCoreClr world_without_widening x86_Win7Plus fuel
                     nothing_called))) <> [].
Proof.
  split; [intros hist m; split; reflexivity|].
  split; [vm_compute; discriminate|].
  intros (fuel & Hloads). apply Hloads. clear Hloads.
  unfold LoadCoreClr, Finished_returning, LoadCoreClr_body.
  unfold bind at 1. unfold GetEnvironmentVariableW at 1.
  cbn [world_without_widening steady_world os_GetEnvironmentVariableW
       String.eqb Ascii.eqb Bool.eqb].
  change (wcslen "C:\klr" <? MAX_PATH) with true. cbv iota beta.
  change (negb (wcslen "C:\klr" =? 0)) with true. cbv iota.
  unfold bind at 1. unfold bind at 1.
  rewrite build_wszClrPath_spec by (vm_compute; split; reflexivity).
  change (wcslen (environment_path "C:\klr") <? MAX_PATH) with true.
  cbv iota. unfold bind at 1.
  unfold widen_dll_search_path. cbn [x86_Win7Plus Win7PlusCoreSystem].
  unfold bind at 1. unfold GetEnvironmentVariableW at 1.
  cbn [world_without_widening steady_world os_GetEnvironmentVariableW
       String.eqb Ascii.eqb Bool.eqb].
  unfold bind at 1.
  match goal with
  | |- context [scan_OSLoaderModules _ fuel _ ?v ?s1] =>
      destruct (scan_without_widening fuel v s1 eq_refl) as (s' & E & Hr)
  end.
  change (0 >? 0) with false. rewrite E. cbn [fst]. rewrite Hr. reflexivity.
Qed.

(** ** The host life cycle *)

(** C4.  The life cycle is sequential.  If authentication fails,
    [CallApplicationMain] reports it and returns [false] at once: the
    report is the last entry of the log, and neither [Start] nor any call
    that builds the properties, creates the execution context or runs the
    entry point is made.  The execution context is created only after
    [Start] has succeeded, and the entry delegate is asked for only after
    the execution context has been created. *)
Theorem host_lifecycle_is_sequential (w : World) (cfg : build) (fuel : nat)
  (data : CALL_APPLICATION_MAIN_DATA) (s : state) (o : outcome bool) :
  CallApplicationMain w cfg fuel data = (s, o) ->
  (forall h, In (Ev_Authenticate h) (log s) -> FAILED h = true ->
     o = Return false /\
     (exists pre,
        log s = (pre ++ [Ev_Authenticate h;
                         Ev_printf "Failed to Authenticate().\n" []])%list) /\
     forall e, In e (log s) -> follows_authentication e = false) /\
  every_preceded is_CreateAppDomainWithManager started (log s) /\
  every_preceded is_CreateDelegate context_created (log s).
Proof.
  intros H. split; [|split].
  - intros h Hin Hfail. run_CallApplicationMain H.
    all: in_cases Hin; settle_case Hin; try congruence.
    split; [reflexivity|]. split.
    + eexists. rewrite <- app_assoc. reflexivity.
    + intros e He. in_cases He; settle_case He; try reflexivity.
      now apply setup_before_authentication.
  - apply guarded_sound. run_CallApplicationMain H.
    all: spell_out_log.
    all: first
      [ now apply (guarded_setup_only _ _ _ Hsetup
                     setup_not_CreateAppDomainWithManager setup_not_started)
      | rewrite (guarded_setup _ _ _ _ Hsetup
                   setup_not_CreateAppDomainWithManager setup_not_started) ].
    all: cbn [guarded is_CreateAppDomainWithManager started negb orb andb].
    all: repeat match goal with E : FAILED _ = _ |- _ => rewrite E end.
    all: reflexivity.
  - apply guarded_sound. run_CallApplicationMain H.
    all: spell_out_log.
    all: first
      [ now apply (guarded_setup_only _ _ _ Hsetup
                     setup_not_CreateDelegate setup_not_context_created)
      | rewrite (guarded_setup _ _ _ _ Hsetup
                   setup_not_CreateDelegate setup_not_context_created) ].
    all: cbn [guarded is_CreateDelegate context_created negb orb andb].
    all: repeat match goal with E : FAILED _ = _ |- _ => rewrite E end.
    all: reflexivity.
Qed.

(** In the run of the examples the execution context is created after
    [Start] and the delegate after the execution context. *)
Lemma host_lifecycle_is_sequential_witness :
  snd (CallApplicationMain world_installed x86_Win7Plus 1 launch)
  = Return true /\
  every_preceded is_CreateAppDomainWithManager started
    (log (fst (CallApplicationMain world_installed x86_Win7Plus 1 launch))) /\
  every_preceded is_CreateDelegate context_created
    (log (fst (CallApplicationMain world_installed x86_Win7Plus 1 launch))).
Proof.
  split; [vm_compute; reflexivity|].
  exact (proj2 (host_lifecycle_is_sequential world_installed x86_Win7Plus 1
                  launch _ _ (surjective_pairing _))).
Defined.

(** C5.  Where the host refuses to create the execution context, the
    buffer has been allocated, [CallApplicationMain] returns [false], and
    the buffer is never freed: [free] is not called and the pointer still
    holds the list. *)
Theorem buffer_not_freed_when_context_is_refused :
  snd (CallApplicationMain world_context_refused x86_Win7Plus 1 launch)
  = Return false /\
  In (Ev_calloc true)
    (log (fst (CallApplicationMain world_context_refused x86_Win7Plus 1
                 launch))) /\
  existsb is_free
    (log (fst (CallApplicationMain world_context_refused x86_Win7Plus 1
                 launch))) = false /\
  pwszTrustedPlatformAssemblies
    (fst (CallApplicationMain world_context_refused x86_Win7Plus 1 launch))
  = Some ("C:\klr\mscorlib.ni.dll;C:\klr\System.ni.dll;" ++
          "C:\app\klr.core45.managed.dll").
Proof.
  split; [vm_compute; reflexivity|]. split; [computed_In|].
  split; vm_compute; reflexivity.
Qed.

(** C6, as amended.  The generic pattern is scanned exactly when the scan
    with the optimized pattern has returned [false], and it then starts
    from an empty buffer.  The optimized scan is made on the directory
    of the runtime with an empty buffer, the calls it makes coming right
    before its return.  It returns [false] exactly when the search
    string does not fit, when nothing matches it, or when there are
    usable names and their entries do not fit in the buffer.  It returns
    [true] in the other cases, also when every match is a directory or
    an excluded name and nothing is listed.  A scan that has returned
    [true] is not followed by the generic scan, whatever it has listed.
    When the generic scan returns [true], the list handed to the host is
    made of the entries of its usable names, followed by the entry
    assembly of the application. *)
Theorem generic_scan_follows_failed_optimized_scan (w : World) (cfg : build)
  (fuel : nat) (data : CALL_APPLICATION_MAIN_DATA) (s : state)
  (o : outcome bool) :
  CallApplicationMain w cfg fuel data = (s, o) ->
  ((exists r b, In (Ev_ScanDirectory_returns "*.dll" r b) (log s)) <->
   (exists b, In (Ev_ScanDirectory_returns "*.ni.dll" false b) (log s))) /\
  (forall b, In (Ev_ScanDirectory_returns "*.ni.dll" false b) (log s) ->
     b = "") /\
  (forall b appbase tpa paths h d,
     In (Ev_ScanDirectory_returns "*.dll" true b) (log s) ->
     In (Ev_CreateAppDomainWithManager appbase tpa paths h d) (log s) ->
     exists dir found cur,
       In (Ev_FindFirstFile (dir ++ "*.dll") found) (log s) /\
       b = TPA_entries dir (usable_names found) /\
       tpa = b ++ cur ++ "klr.core45.managed.dll") /\
  (forall r b, In (Ev_ScanDirectory_returns "*.ni.dll" r b) (log s) ->
     exists pre post dir fes,
       let cch := TRUSTED_PLATFORM_ASSEMBLIES_STRING_BUFFER_SIZE_CCH in
       let found := os_FindFiles w pre (dir ++ "*.ni.dll") in
       log s
       = (pre ++ fes ++ Ev_ScanDirectory_returns "*.ni.dll" r b :: post)%list
       /\ directory_of_the_runtime pre dir /\
       scan_outcome dir "*.ni.dll" "" cch found fes r b /\
       (r = false <->
        ~ pattern_fits dir "*.ni.dll" \/ found = [] \/
        usable_names found <> [] /\
        cch <= wcslen (TPA_entries dir (usable_names found))) /\
       (pattern_fits dir "*.ni.dll" -> found <> [] ->
        usable_names found = [] -> r = true /\ b = "")) /\
  (forall b, In (Ev_ScanDirectory_returns "*.ni.dll" true b) (log s) ->
     forall r' b', ~ In (Ev_ScanDirectory_returns "*.dll" r' b') (log s)).
Proof.
  intros H. split; [|split; [|split; [|split]]].
  - exact (generic_scan_iff_optimized_scan_fails _ _ _ _ _ _ H).
  - intros b Hin. run_CallApplicationMain H.
    all: in_cases Hin; settle_case Hin; reflexivity.
  - intros b appbase tpa paths h d Hin1 Hin2. run_CallApplicationMain H.
    all: in_cases Hin1; settle_case Hin1.
    all: in_cases Hin2; settle_case Hin2.
    all: exists dir, found0, cur.
    all: (split; [solve_In|]); (split; [reflexivity|]).
    all: repeat match goal with
         | E : (fst (wcscat_s _ _ _) =? 0) = true |- _ =>
             rewrite (wcscat_s_succeeded _ _ _ E); clear E
         end.
    all: now rewrite append_assoc.
  - intros r b Hin.
    destruct (scans_of_the_run _ _ _ _ _ _ H _ _ _ Hin)
      as (_ & pre & post & dir & fes & Hlog & Hdir & Hc).
    exists pre, post, dir, fes. cbv zeta.
    split; [exact Hlog|]. split; [exact Hdir|]. split; [exact Hc|].
    split; [exact (scan_outcome_false_iff _ _ _ _ _ _ _ _ Hc)|].
    intros Hfit Hne Hu.
    destruct Hc as [(-> & _ & _ & _ & -> & _)
                   |[(_ & _ & Hn & _)
                    |[(_ & _ & _ & Hn & _)|(_ & _ & _ & Hn & _)]]];
      try contradiction.
    rewrite Hu. now split.
  - intros b Hin r' b' Hin'. run_CallApplicationMain H.
    all: in_cases Hin; settle_case Hin.
    all: in_cases Hin'; settle_case Hin'.
Qed.

(** Where the directory of the runtime holds no native image, the
    optimized scan matches nothing and returns [false]; the generic
    pattern is then scanned, and its entries are handed to the host. *)
Lemma generic_scan_follows_failed_optimized_scan_witness :
  os_FindFiles world_no_native_images [] "C:\klr\*.ni.dll" = [] /\
  In (Ev_ScanDirectory_returns "*.ni.dll" false "")
    (log (fst (CallApplicationMain world_no_native_images x86_Win7Plus 1
                 launch))) /\
  In (Ev_ScanDirectory_returns "*.dll" true
        "C:\klr\coreclr.dll;C:\klr\mscorlib.dll;")
    (log (fst (CallApplicationMain world_no_native_images x86_Win7Plus 1
                 launch))) /\
  ((exists r b,
      In (Ev_ScanDirectory_returns "*.dll" r b)
        (log (fst (CallApplicationMain world_no_native_images x86_Win7Plus 1
                     launch)))) <->
   (exists b,
      In (Ev_ScanDirectory_returns "*.ni.dll" false b)
        (log (fst (CallApplicationMain world_no_native_images x86_Win7Plus 1
                     launch))))) /\
  In (Ev_CreateAppDomainWithManager (Some "C:\app\")
        ("C:\klr\coreclr.dll;C:\klr\mscorlib.dll;" ++
         "C:\app\klr.core45.managed.dll") "C:\app\;C:\klr\;" S_OK 1)
    (log (fst (CallApplicationMain world_no_native_images x86_Win7Plus 1
                 launch))).
Proof.
  split; [vm_compute; reflexivity|]. split; [computed_In|].
  split; [computed_In|].
  split; [|computed_In].
  exact (proj1 (generic_scan_follows_failed_optimized_scan
                  world_no_native_images x86_Win7Plus 1 launch _ _
                  (surjective_pairing _))).
Defined.

(** C6, as stated, fails: in a directory whose only native image is on
    the exclusion list the optimized scan lists nothing and yet returns
    [true]; the generic pattern is not scanned, and the list handed to
    the host holds the entry assembly of the application alone. *)
Lemma no_fallback_after_an_empty_optimized_scan :
  usable_names (os_FindFiles world_shim_only [] "C:\klr\*.ni.dll") = [] /\
  usable_names (os_FindFiles world_shim_only [] "C:\klr\*.dll")
  = ["coreclr.dll"; "mscorlib.dll"] /\
  In (Ev_ScanDirectory_returns "*.ni.dll" true "")
    (log (fst (CallApplicationMain world_shim_only x86_Win7Plus 1 launch))) /\
  existsb is_generic_scan
    (log (fst (CallApplicationMain world_shim_only x86_Win7Plus 1 launch)))
  = false /\
  In (Ev_CreateAppDomainWithManager (Some "C:\app\")
        "C:\app\klr.core45.managed.dll" "C:\app\;C:\klr\;" S_OK 1)
    (log (fst (CallApplicationMain world_shim_only x86_Win7Plus 1 launch))).
Proof.
  split; [vm_compute; reflexivity|]. split; [vm_compute; reflexivity|].
  split; [computed_In|]. split; [vm_compute; reflexivity|]. computed_In.
Qed.

(** C9, as amended.  If the allocation of the buffer fails,
    [CallApplicationMain] makes no call after it, on the host interface
    or elsewhere; the host interface has by then been called three times,
    for [SetStartupFlags], [Authenticate] and [Start], the last two with
    success. *)
Theorem calloc_failure_ends_the_host_calls (w : World) (cfg : build)
  (fuel : nat) (data : CALL_APPLICATION_MAIN_DATA) (s : state)
  (o : outcome bool) :
  CallApplicationMain w cfg fuel data = (s, o) ->
  In (Ev_calloc false) (log s) ->
  (exists pre, log s = (pre ++ [Ev_calloc false])%list) /\
  exists h1 h2,
    filter is_host_call (log s)
    = [Ev_SetStartupFlags; Ev_Authenticate h1; Ev_Start h2] /\
    FAILED h1 = false /\ FAILED h2 = false.
Proof.
  intros H Hin. run_CallApplicationMain H.
  all: in_cases Hin; settle_case Hin.
  split; [now eexists|]. exists answer0, answer1.
  spell_out_log. rewrite (filter_setup _ _ _ Hsetup setup_not_host_call).
  now repeat split.
Qed.

Lemma calloc_failure_ends_the_host_calls_witness :
  In (Ev_calloc false)
    (log (fst (CallApplicationMain world_no_memory x86_Win7Plus 1 launch))) /\
  (exists pre,
     log (fst (CallApplicationMain world_no_memory x86_Win7Plus 1 launch))
     = (pre ++ [Ev_calloc false])%list) /\
  exists h1 h2,
    filter is_host_call
      (log (fst (CallApplicationMain world_no_memory x86_Win7Plus 1 launch)))
    = [Ev_SetStartupFlags; Ev_Authenticate h1; Ev_Start h2] /\
    FAILED h1 = false /\ FAILED h2 = false.
Proof.
  assert (Hin : In (Ev_calloc false)
                  (log (fst (CallApplicationMain world_no_memory
                               x86_Win7Plus 1 launch)))) by computed_In.
  split; [exact Hin|].
  exact (calloc_failure_ends_the_host_calls world_no_memory x86_Win7Plus 1
           launch _ _ (surjective_pairing _) Hin).
Defined.

(** C9, as stated, fails: when the allocation fails the host interface
    has already been called three times. *)
Lemma host_called_before_the_allocation_fails :
  In (Ev_calloc false)
    (log (fst (CallApplicationMain world_no_memory x86_Win7Plus 1 launch))) /\
  filter is_host_call
    (log (fst (CallApplicationMain world_no_memory x86_Win7Plus 1 launch)))
  = [Ev_SetStartupFlags; Ev_Authenticate S_OK; Ev_Start S_OK].
Proof. split; [computed_In | vm_compute; reflexivity]. Qed.

(** C10.  If the allocation of the buffer fails, [CallApplicationMain]
    returns [true]: it goes to [Finished] with the success of [Start] in
    [hr], having scanned no directory, created no execution context and
    run no entry point, and it leaves [data->exitcode] as it was. *)
Theorem calloc_failure_returns_true (w : World) (cfg : build) (fuel : nat)
  (data : CALL_APPLICATION_MAIN_DATA) (s : state) (o : outcome bool) :
  CallApplicationMain w cfg fuel data = (s, o) ->
  In (Ev_calloc false) (log s) ->
  o = Return true /\ data_exitcode s = exitcode data /\
  (exists pre h, log s = (pre ++ [Ev_Start h; Ev_calloc false])%list /\
                 FAILED h = false /\ hr s = h) /\
  (forall e, In e (log s) -> builds_or_runs e = false).
Proof.
  intros H Hin. run_CallApplicationMain H.
  all: in_cases Hin; settle_case Hin.
  split; [reflexivity|]. split; [reflexivity|]. split.
  - eexists. exists answer1. rewrite <- app_assoc. now repeat split.
  - intros e He. in_cases He; settle_case He; try reflexivity.
    now apply setup_builds_nothing.
Qed.

Lemma calloc_failure_returns_true_witness :
  In (Ev_calloc false)
    (log (fst (CallApplicationMain world_no_memory x86_Win7Plus 1 launch))) /\
  snd (CallApplicationMain world_no_memory x86_Win7Plus 1 launch)
  = Return true /\
  data_exitcode
    (fst (CallApplicationMain world_no_memory x86_Win7Plus 1 launch))
  = exitcode launch.
Proof.
  assert (Hin : In (Ev_calloc false)
                  (log (fst (CallApplicationMain world_no_memory
                               x86_Win7Plus 1 launch)))) by computed_In.
  split; [exact Hin|].
  destruct (calloc_failure_returns_true world_no_memory x86_Win7Plus 1
              launch _ _ (surjective_pairing _) Hin) as (Ho & Hx & _).
  now split.
Defined.

(** * Further properties *)

(** ** The directory of a module *)

(** X1.  [GetModuleDirectory] gives the path of the module, as it was
    read into the array, up to and including its last separator: it
    gives [dir] exactly when the path read is [dir] followed by a name
    that holds no separator, and [dir] ends with a separator. *)
Theorem GetModuleDirectory_cuts_after_the_last_separator (w : World)
  (module : HMODULE) (s : state) (dir : string) :
  let path := module_path_read (os_GetModuleFileName w (log s) module) in
  snd (GetModuleDirectory w module s) = Next dir <->
  exists d name,
    dir = d ++ "\" /\ path = d ++ "\" ++ name /\ no_backslash name = true.
Proof.
  intros path. rewrite GetModuleDirectory_reads. cbv zeta. fold path.
  cbn [snd]. split.
  - destruct (through_last_backslash path) as [r|] eqn:E; [|discriminate].
    intros [= ->]. now apply through_last_backslash_some.
  - intros (d & name & -> & -> & Hn).
    now rewrite through_last_backslash_split.
Qed.

(** X2.  When the path read holds no separator, and so when
    [GetModuleFileName] has failed and left the empty string, the loop of
    line 21 is not stopped by [dirLength >= 0], [dirLength] being
    unsigned, and reads below the start of the array; this is the only
    case in which it does. *)
Theorem GetModuleDirectory_without_separator (w : World) (module : HMODULE)
  (s : state) :
  let path := module_path_read (os_GetModuleFileName w (log s) module) in
  snd (GetModuleDirectory w module s) = Undefined <->
  no_backslash path = true.
Proof.
  intros path. rewrite GetModuleDirectory_reads. cbv zeta. fold path.
  cbn [snd]. rewrite <- through_last_backslash_none.
  destruct (through_last_backslash path); split; congruence.
Qed.

(** ** The bounds of a scan *)

(** X3.  When the directory followed by the pattern does not fit in the
    [MAX_PATH] characters of [wszPattern], [ScanDirectory] returns
    [false] without starting an enumeration, and leaves the buffer as it
    was. *)
Theorem ScanDirectory_search_string_too_long (w : World)
  (szDirectory szPattern buf : string) (cch : Z) (s : state) :
  MAX_PATH <= wcslen szDirectory + wcslen szPattern ->
  ScanDirectory w szDirectory szPattern buf cch s
  = (record (Ev_ScanDirectory_returns szPattern false buf) s,
     Next (false, buf)).
Proof.
  intros Hlong.
  apply (ScanDirectory_unfold w _ _ _ _ s s (false, buf)).
  apply ScanDirectory_body_too_long. unfold pattern_fits. lia.
Qed.

(** In a directory of 254 characters the optimized pattern, of 8, makes
    a search string that is too long. *)
Lemma ScanDirectory_search_string_too_long_witness :
  wcslen deep_directory = 254 /\
  ScanDirectory world_installed deep_directory "*.ni.dll" "" 64512
    nothing_called
  = (record (Ev_ScanDirectory_returns "*.ni.dll" false "") nothing_called,
     Next (false, "")).
Proof.
  split; [vm_compute; reflexivity|].
  apply ScanDirectory_search_string_too_long. vm_compute. discriminate.
Defined.

(** X4.  A scan keeps the list within the capacity it is given: if the
    string in the buffer is shorter than the capacity before the scan,
    it is after it, whatever the scan returns. *)
Theorem ScanDirectory_stays_within_capacity (w : World)
  (szDirectory szPattern buf : string) (cch : Z) (s s' : state)
  (r : bool) (buf' : string) :
  wcslen buf < cch ->
  ScanDirectory w szDirectory szPattern buf cch s = (s', Next (r, buf')) ->
  wcslen buf' < cch.
Proof.
  intros Hbuf H.
  assert (Hempty : wcslen "" < cch)
    by (pose proof (wcslen_nonneg buf); change (wcslen "") with 0; lia).
  destruct (pattern_fits_dec szDirectory szPattern) as [Hfit|Hfit].
  - unfold ScanDirectory in H. unfold bind at 1 in H.
    rewrite (ScanDirectory_body_fits w _ _ _ _ _ Hfit) in H. cbv zeta in H.
    destruct (os_FindFiles w (log s) (szDirectory ++ szPattern))
      as [|ffd rest].
    + unfold bind, emit, ret in H. now injection H as _ _ <-.
    + rewrite ScanDirectory_loop_spec in H.
      destruct (usable_names (ffd :: rest)) as [|n names].
      * unfold bind, emit, ret in H. now injection H as _ _ <-.
      * destruct (Z.ltb_spec
                    (wcslen (buf ++ TPA_entries szDirectory (n :: names))) cch);
          unfold bind, emit, ret in H; now injection H as _ _ <-.
  - unfold ScanDirectory in H. unfold bind at 1 in H.
    rewrite (ScanDirectory_body_too_long w _ _ _ _ _ Hfit) in H.
    unfold bind, emit, ret in H. now injection H as _ _ <-.
Qed.

(** With room for 39 characters the two entries of the examples, of 23
    and 21 characters, do not fit, and the buffer is left empty. *)
Lemma ScanDirectory_stays_within_capacity_witness :
  ScanDirectory world_installed "C:\klr\" "*.ni.dll" "" 40 nothing_called
  = (record (Ev_ScanDirectory_returns "*.ni.dll" false "")
       (record (Ev_FindFirstFile "C:\klr\*.ni.dll"
                  (runtime_directory "C:\klr\*.ni.dll")) nothing_called),
     Next (false, "")) /\
  wcslen "" < 40.
Proof.
  split; [vm_compute; reflexivity|].
  exact (ScanDirectory_stays_within_capacity world_installed
           "C:\klr\" "*.ni.dll" "" 40 nothing_called _ false ""
           eq_refl eq_refl).
Defined.

(** ** The search for the runtime library, further *)

(** X5.  Of the two loader modules of the table only the first is ever
    asked for: every load with [LOAD_LIBRARY_SEARCH_DEFAULT_DIRS] names
    it, whatever the answers, so [kernel32.dll] is never tried.  The
    only functions looked up are the two that widen the search path, and
    no library is ever freed. *)
Theorem LoadCoreClr_asks_for_the_first_loader_module_only (w : World)
  (cfg : build) (fuel : nat) (s s' : state) (o : outcome HMODULE) :
  LoadCoreClr w cfg fuel s = (s', o) ->
  exists es, log s' = (log s ++ es)%list /\
    (forall f h,
       In (Ev_LoadLibraryExW f LOAD_LIBRARY_SEARCH_DEFAULT_DIRS h) es ->
       f = "api-ms-win-core-libraryloader-l1-1-1.dll") /\
    (forall h name p, In (Ev_GetProcAddress h name p) es ->
       name = "AddDllDirectory" \/ name = "SetDefaultDllDirectories") /\
    (forall h, ~ In (Ev_FreeLibrary h) es).
Proof.
  intros H. apply LoadCoreClr_calls in H.
  destruct H as (es & verbose & Hx & Hl & _).
  exists es. split; [exact (proj1 Hx)|]. split; [|split].
  - intros f h Hin. apply (Forall_In_true _ _ _ Hl) in Hin.
    cbn in Hin. apply andb_true_iff in Hin. destruct Hin as [Hin _].
    now apply String.eqb_eq in Hin.
  - intros h name p Hin. apply (Forall_In_true _ _ _ Hl) in Hin.
    cbn [is_LoadCoreClr_call is_loader_loop_call] in Hin.
    apply orb_true_iff in Hin. now rewrite !String.eqb_eq in Hin.
  - intros h Hin. apply (Forall_In_true _ _ _ Hl) in Hin. discriminate Hin.
Qed.

(** On a system without the first loader module, where [kernel32.dll]
    has both functions, two iterations ask twice for the first. *)
Lemma LoadCoreClr_asks_for_the_first_loader_module_only_witness :
  os_LoadLibraryExW world_older_system [] "kernel32.dll"
    LOAD_LIBRARY_SEARCH_DEFAULT_DIRS = 4 /\
  log (fst (LoadCoreClr world_older_system x86_Win7Plus 2 nothing_called))
  = [ Ev_GetEnvironmentVariableW "CORECLR_DIR" (Some "C:\klr");
      Ev_GetEnvironmentVariableW "KRE_TRACE" None;
      Ev_LoadLibraryExW "api-ms-win-core-libraryloader-l1-1-1.dll"
        LOAD_LIBRARY_SEARCH_DEFAULT_DIRS 0;
      Ev_LoadLibraryExW "api-ms-win-core-libraryloader-l1-1-1.dll"
        LOAD_LIBRARY_SEARCH_DEFAULT_DIRS 0 ] /\
  exists es,
    log (fst (LoadCoreClr world_older_system x86_Win7Plus 2 nothing_called))
    = ([] ++ es)%list /\
    (forall f h,
       In (Ev_LoadLibraryExW f LOAD_LIBRARY_SEARCH_DEFAULT_DIRS h) es ->
       f = "api-ms-win-core-libraryloader-l1-1-1.dll") /\
    (forall h name p, In (Ev_GetProcAddress h name p) es ->
       name = "AddDllDirectory" \/ name = "SetDefaultDllDirectories") /\
    (forall h, ~ In (Ev_FreeLibrary h) es).
Proof.
  split; [reflexivity|]. split; [vm_compute; reflexivity|].
  exact (LoadCoreClr_asks_for_the_first_loader_module_only
           world_older_system x86_Win7Plus 2 nothing_called _ _
           (surjective_pairing _)).
Defined.

(** X6.  [LoadCoreClr] prints only when it has read [KRE_TRACE] with a
    value that is not empty. *)
Theorem LoadCoreClr_traces_only_when_KRE_TRACE_is_set (w : World)
  (cfg : build) (fuel : nat) (s s' : state) (o : outcome HMODULE) :
  LoadCoreClr w cfg fuel s = (s', o) ->
  exists es, log s' = (log s ++ es)%list /\
    forall fmt args, In (Ev_printf fmt args) es ->
      exists v, v <> "" /\
        In (Ev_GetEnvironmentVariableW "KRE_TRACE" (Some v)) es.
Proof.
  intros H. apply LoadCoreClr_calls in H.
  destruct H as (es & verbose & Hx & Hl & Ht).
  exists es. split; [exact (proj1 Hx)|].
  intros fmt args Hin. apply (Forall_In_true _ _ _ Hl) in Hin.
  exact (Ht Hin).
Qed.

(** With [KRE_TRACE] set to [1] the module that is loaded is traced. *)
Lemma LoadCoreClr_traces_only_when_KRE_TRACE_is_set_witness :
  In (Ev_printf "Loaded Module: %s\r\n"
        [arg_s "api-ms-win-core-libraryloader-l1-1-1.dll"])
    (log (fst (LoadCoreClr world_traced x86_Win7Plus 1 nothing_called))) /\
  exists es,
    log (fst (LoadCoreClr world_traced x86_Win7Plus 1 nothing_called))
    = ([] ++ es)%list /\
    forall fmt args, In (Ev_printf fmt args) es ->
      exists v, v <> "" /\
        In (Ev_GetEnvironmentVariableW "KRE_TRACE" (Some v)) es.
Proof.
  split; [computed_In|].
  exact (LoadCoreClr_traces_only_when_KRE_TRACE_is_set world_traced
           x86_Win7Plus 1 nothing_called _ _ (surjective_pairing _)).
Defined.

(** X7.  The loop over the loader modules does not end when the first
    loader module is not ready, that is when at each attempt it cannot
    be loaded, or the module obtained lacks [AddDllDirectory], or lacks
    [SetDefaultDllDirectories], whatever the other modules have: each
    [continue] goes back to the test without moving to the next name, so
    whatever the number of iterations allowed [LoadCoreClr] is still in
    the loop. *)
Theorem LoadCoreClr_retries_the_first_loader_module_for_ever (w : World)
  (cfg : build) (s : state) (dir : string) :
  Win7PlusCoreSystem cfg = true ->
  os_GetEnvironmentVariableW w (log s) "CORECLR_DIR" = Some dir ->
  dir <> "" ->
  wcslen (environment_path dir) < MAX_PATH ->
  loader_never_ready w ->
  forall fuel, snd (LoadCoreClr w cfg fuel s) = Out_of_fuel.
Proof.
  intros Hwin Henv Hne Hfit Hnever fuel.
  pose proof (environment_path_longer dir) as Hlen.
  pose proof (wcslen_nonneg dir) as Hpos.
  assert (Hnz : wcslen dir <> 0) by (intros E; now apply wcslen_zero in E).
  unfold LoadCoreClr, Finished_returning, LoadCoreClr_body.
  unfold bind at 1. unfold GetEnvironmentVariableW at 1. rewrite Henv.
  destruct (Z.ltb_spec (wcslen dir) MAX_PATH); [|lia].
  destruct (Z.eqb_spec (wcslen dir) 0); [lia|]. cbn [negb].
  unfold bind at 1. unfold bind at 1.
  rewrite build_wszClrPath_spec by lia.
  destruct (Z.ltb_spec (wcslen (environment_path dir)) MAX_PATH); [|lia].
  unfold bind at 1. unfold widen_dll_search_path. rewrite Hwin.
  unfold bind at 1.
  destruct (GetEnvironmentVariableW w "KRE_TRACE" 1
              (record (Ev_GetEnvironmentVariableW "CORECLR_DIR" (Some dir)) s))
    as [s1 o1] eqn:E1.
  assert (Ho1 : exists a b, o1 = Next (a, b)).
  { unfold GetEnvironmentVariableW in E1. cbv zeta in E1.
    destruct (os_GetEnvironmentVariableW w _ "KRE_TRACE") as [val|];
      [destruct (wcslen val <? 1)|]; injection E1 as <- <-; eauto. }
  destruct Ho1 as (a & b & ->). unfold bind at 1.
  destruct (scan_OSLoaderModules_never_ready w (a >? 0) Hnever fuel
              (mkLoaderVars 0 nullptr nullptr nullptr) s1 eq_refl)
    as (s2 & ->).
  reflexivity.
Qed.

(** Where the first loader module can be loaded and lacks
    [AddDllDirectory], the search goes on, however long, though
    [kernel32.dll] has both functions and the runtime is there. *)
Lemma LoadCoreClr_retries_the_first_loader_module_for_ever_witness :
  os_LoadLibraryExW world_first_module_lacking []
    "api-ms-win-core-libraryloader-l1-1-1.dll"
    LOAD_LIBRARY_SEARCH_DEFAULT_DIRS = 3 /\
  os_GetProcAddress world_first_module_lacking [] 3 "AddDllDirectory"
  = nullptr /\
  os_LoadLibraryExW world_first_module_lacking [] "kernel32.dll"
    LOAD_LIBRARY_SEARCH_DEFAULT_DIRS = 4 /\
  os_GetProcAddress world_first_module_lacking [] 4 "AddDllDirectory"
  <> nullptr /\
  os_GetProcAddress world_first_module_lacking [] 4
    "SetDefaultDllDirectories" <> nullptr /\
  os_LoadLibraryExW world_first_module_lacking [] "C:\klr\coreclr.dll" 0
  <> nullptr /\
  snd (LoadCoreClr world_first_module_lacking x86_Win7Plus 1000
         nothing_called)
  = Out_of_fuel.
Proof.
  split; [reflexivity|]. split; [reflexivity|]. split; [reflexivity|].
  split; [discriminate|]. split; [discriminate|]. split; [discriminate|].
  apply (LoadCoreClr_retries_the_first_loader_module_for_ever
           world_first_module_lacking x86_Win7Plus nothing_called "C:\klr"
           eq_refl eq_refl).
  - discriminate.
  - vm_compute. reflexivity.
  - intros hist. cbv zeta. right. left. intros hist'. reflexivity.
Defined.

(** X8.  With [CORECLR_DIR] unset or empty [LoadCoreClr] always returns,
    having read the variable and tried the development path and, that
    failing, the bare file name, and nothing else: no loader module is
    asked for and the search path is left as it was. *)
Theorem LoadCoreClr_unset_leaves_the_search_path_alone (w : World)
  (cfg : build) (fuel : nat) (s : state) :
  let env := os_GetEnvironmentVariableW w (log s) "CORECLR_DIR" in
  env = None \/ env = Some "" ->
  exists l h,
    LoadCoreClr w cfg fuel s
    = (mkState (log s ++ Ev_GetEnvironmentVariableW "CORECLR_DIR" env
                         :: load_events l)
         (hr s) (pwszTrustedPlatformAssemblies s) (data_exitcode s),
       Next h) /\
    tried [development_path cfg; "coreclr.dll"] l h.
Proof.
  intros env Henv.
  destruct (LoadCoreClr w cfg fuel s) as [s' o] eqn:H.
  destruct (LoadCoreClr_spec w cfg fuel s s' o H) as (es & Hx & _ & Hc).
  fold env in Hx, Hc. unfold LoadCoreClr_cases, LoadCoreClr_cases_with in Hc.
  assert (Hl : located [development_path cfg; "coreclr.dll"] o es).
  { destruct Henv as [E|E]; rewrite E in Hc; exact Hc. }
  destruct Hl as (l & h & -> & -> & Ht). exists l, h.
  split; [|exact Ht]. now rewrite (extends_state _ _ _ Hx).
Qed.

Lemma LoadCoreClr_unset_leaves_the_search_path_alone_witness :
  os_GetEnvironmentVariableW world_installed [] "CORECLR_DIR" = None /\
  LoadCoreClr world_installed x86_Win7Plus 0 nothing_called
  = (mkState
       [ Ev_GetEnvironmentVariableW "CORECLR_DIR" None;
         Ev_LoadLibraryExW
           "..\..\..\artifacts\build\ProjectK\Runtime\x86\coreclr.dll" 0 0;
         Ev_LoadLibraryExW "coreclr.dll" 0 7 ] S_OK None 0, Next 7) /\
  exists l h,
    LoadCoreClr world_installed x86_Win7Plus 0 nothing_called
    = (mkState ([] ++ Ev_GetEnvironmentVariableW "CORECLR_DIR" None
                      :: load_events l) S_OK None 0, Next h) /\
    tried [development_path x86_Win7Plus; "coreclr.dll"] l h.
Proof.
  split; [reflexivity|]. split; [vm_compute; reflexivity|].
  apply (LoadCoreClr_unset_leaves_the_search_path_alone world_installed
           x86_Win7Plus 0 nothing_called).
  now left.
Defined.

(** X9.  On a build for another system than [Win7PlusCoreSystem], with
    [CORECLR_DIR] naming a directory whose library path fits,
    [LoadCoreClr] always returns: it calls [AddDllDirectory] and
    [SetDefaultDllDirectories] directly, with the directory as the
    variable gives it, and then tries the library below the directory,
    the development path and the bare file name. *)
Theorem LoadCoreClr_widens_directly_on_other_systems (w : World)
  (cfg : build) (fuel : nat) (s : state) (dir : string) :
  Win7PlusCoreSystem cfg = false ->
  os_GetEnvironmentVariableW w (log s) "CORECLR_DIR" = Some dir ->
  dir <> "" ->
  wcslen (environment_path dir) < MAX_PATH ->
  exists l h,
    LoadCoreClr w cfg fuel s
    = (mkState (log s ++ [ Ev_GetEnvironmentVariableW "CORECLR_DIR" (Some dir);
                           Ev_AddDllDirectory dir;
                           Ev_SetDefaultDllDirectories
                             (Z.lor LOAD_LIBRARY_SEARCH_DEFAULT_DIRS
                                    LOAD_LIBRARY_SEARCH_USER_DIRS) ]
                      ++ load_events l)
         (hr s) (pwszTrustedPlatformAssemblies s) (data_exitcode s),
       Next h) /\
    tried [environment_path dir; development_path cfg; "coreclr.dll"] l h.
Proof.
  intros Hwin Henv Hne Hfit.
  pose proof (environment_path_longer dir) as Hlen.
  pose proof (wcslen_nonneg dir) as Hpos.
  destruct (LoadCoreClr w cfg fuel s) as [s' o] eqn:H.
  destruct (LoadCoreClr_spec w cfg fuel s s' o H) as (es & Hx & _ & Hc).
  rewrite Henv in Hx, Hc.
  unfold LoadCoreClr_cases, LoadCoreClr_cases_with in Hc.
  destruct (Z.eqb_spec (wcslen dir) 0) as [Ez|_];
    [now apply wcslen_zero in Ez|].
  destruct (Z.leb_spec MAX_PATH (wcslen dir)); [lia|].
  destruct (Z.leb_spec MAX_PATH (wcslen (environment_path dir))); [lia|].
  destruct Hc as (wes & _ & [(_ & Hw & _)|(Hw & loads & -> & Hl)]);
    [congruence|].
  unfold widened in Hw. rewrite Hwin in Hw. subst wes.
  destruct Hl as (l & h & -> & -> & Ht). exists l, h.
  split; [|exact Ht]. now rewrite (extends_state _ _ _ Hx).
Qed.

Lemma LoadCoreClr_widens_directly_on_other_systems_witness :
  LoadCoreClr world_wrong_directory x86_desktop 0 nothing_called
  = (mkState
       [ Ev_GetEnvironmentVariableW "CORECLR_DIR" (Some "C:\rt");
         Ev_AddDllDirectory "C:\rt";
         Ev_SetDefaultDllDirectories 5120;
         Ev_LoadLibraryExW "C:\rt\coreclr.dll" 0 0;
         Ev_LoadLibraryExW
           "..\..\..\artifacts\build\ProjectK\Runtime\x86\coreclr.dll" 0 0;
         Ev_LoadLibraryExW "coreclr.dll" 0 7 ] S_OK None 0, Next 7) /\
  exists l h,
    LoadCoreClr world_wrong_directory x86_desktop 0 nothing_called
    = (mkState ([] ++ [ Ev_GetEnvironmentVariableW "CORECLR_DIR"
                          (Some "C:\rt");
                        Ev_AddDllDirectory "C:\rt";
                        Ev_SetDefaultDllDirectories
                          (Z.lor LOAD_LIBRARY_SEARCH_DEFAULT_DIRS
                                 LOAD_LIBRARY_SEARCH_USER_DIRS) ]
                   ++ load_events l) S_OK None 0, Next h) /\
    tried [ environment_path "C:\rt"; development_path x86_desktop;
            "coreclr.dll" ] l h.
Proof.
  split; [vm_compute; reflexivity|].
  apply (LoadCoreClr_widens_directly_on_other_systems world_wrong_directory
           x86_desktop 0 nothing_called "C:\rt" eq_refl eq_refl).
  - discriminate.
  - vm_compute. reflexivity.
Defined.

(** X10.  [LoadCoreClr] reads an array that was not written in one case
    and no other, and never leaves the bounds of one: the value of
    [CORECLR_DIR] does not fit in the array of [MAX_PATH] characters.
    [GetEnvironmentVariableW] then copies nothing and returns the size it
    needs; the count not being [0], line 104 reads the array.  Up to
    that read the variable has been read and nothing else called.  With
    any other value the path copied at line 104 is not empty, so that
    the character before its end, read at line 107, is within the
    array. *)
Theorem LoadCoreClr_reads_unwritten_only_an_overlong_value (w : World)
  (cfg : build) (fuel : nat) (s s' : state) (o : outcome HMODULE) :
  LoadCoreClr w cfg fuel s = (s', o) ->
  let env := os_GetEnvironmentVariableW w (log s) "CORECLR_DIR" in
  (o = Undefined <-> exists v, env = Some v /\ MAX_PATH <= wcslen v) /\
  (o = Undefined ->
   s' = record (Ev_GetEnvironmentVariableW "CORECLR_DIR" env) s).
Proof.
  intros H env.
  destruct (LoadCoreClr_spec w cfg fuel s s' o H) as (es & Hx & _ & Hc).
  fold env in Hx, Hc.
  assert (Hu : o = Undefined ->
            es = [] /\ exists v, env = Some v /\ MAX_PATH <= wcslen v).
  { intros ->. exact (LoadCoreClr_undefined _ _ _ _ _ Hc). }
  split; [split|].
  - intros Ho. exact (proj2 (Hu Ho)).
  - intros (v & Ev & Hlong). rewrite Ev in Hc.
    unfold LoadCoreClr_cases, LoadCoreClr_cases_with in Hc.
    destruct (Z.eqb_spec (wcslen v) 0); [unfold MAX_PATH in Hlong; lia|].
    destruct (Z.leb_spec MAX_PATH (wcslen v)); [|lia].
    exact (proj1 Hc).
  - intros Ho. destruct (Hu Ho) as (-> & _).
    now rewrite (extends_state _ _ _ Hx).
Qed.

(** With a value of 300 characters the array is read unwritten; with the
    directory of the runtime it is not. *)
Lemma LoadCoreClr_reads_unwritten_only_an_overlong_value_witness :
  snd (LoadCoreClr world_overlong_variable x86_Win7Plus 1 nothing_called)
  = Undefined /\
  (exists v,
     os_GetEnvironmentVariableW world_overlong_variable (log nothing_called)
       "CORECLR_DIR" = Some v /\ MAX_PATH <= wcslen v) /\
  snd (LoadCoreClr world_by_module x86_Win7Plus 1 nothing_called) = Next 7.
Proof.
  assert (Ho : snd (LoadCoreClr world_overlong_variable x86_Win7Plus 1
                      nothing_called) = Undefined)
    by (vm_compute; reflexivity).
  split; [exact Ho|]. split; [|vm_compute; reflexivity].
  exact (proj1 (proj1 (LoadCoreClr_reads_unwritten_only_an_overlong_value
                         world_overlong_variable x86_Win7Plus 1
                         nothing_called _ _ (surjective_pairing _))) Ho).
Defined.

(** X11.  The directory of [CORECLR_DIR] may be given with or without a
    separator at its end: lines 107-111 add one only when the last
    character is not one, so that both forms give the same path for the
    library. *)
Theorem build_wszClrPath_adds_a_missing_separator (d : string) (s : state) :
  d <> "" ->
  last_wchar d <> Some backslash ->
  wcslen d + 12 < MAX_PATH ->
  build_wszClrPath d s = (s, Next (d ++ "\coreclr.dll")) /\
  build_wszClrPath (d ++ "\") s = (s, Next (d ++ "\coreclr.dll")).
Proof.
  intros Hne Hlast Hlen.
  pose proof (wcslen_nonneg d) as Hpos.
  assert (Hnz : wcslen d <> 0) by (intros E; now apply wcslen_zero in E).
  assert (Hb : wcslen "\" = 1) by reflexivity.
  assert (Hc : wcslen "coreclr.dll" = 11) by reflexivity.
  assert (E1 : environment_path d = d ++ "\coreclr.dll").
  { unfold environment_path, normalized_directory.
    destruct (last_wchar d) as [c|] eqn:El.
    - destruct (Ascii.eqb c backslash) eqn:Ec.
      + apply Ascii.eqb_eq in Ec. subst c. now elim Hlast.
      + now rewrite append_assoc.
    - now rewrite append_assoc. }
  assert (E2 : environment_path (d ++ "\") = d ++ "\coreclr.dll").
  { unfold environment_path, normalized_directory.
    change (d ++ "\") with (d ++ String backslash "").
    rewrite (last_wchar_snoc d backslash), Ascii.eqb_refl.
    change (d ++ String backslash "") with (d ++ "\"). now rewrite append_assoc. }
  assert (Hfit : wcslen (d ++ "\coreclr.dll") < MAX_PATH).
  { rewrite wcslen_append. change (wcslen "\coreclr.dll") with 12. lia. }
  split.
  - rewrite build_wszClrPath_spec by lia. rewrite E1.
    now destruct (Z.ltb_spec (wcslen (d ++ "\coreclr.dll")) MAX_PATH); [|lia].
  - rewrite build_wszClrPath_spec by (rewrite wcslen_append, Hb; lia).
    rewrite E2.
    now destruct (Z.ltb_spec (wcslen (d ++ "\coreclr.dll")) MAX_PATH); [|lia].
Qed.

Lemma build_wszClrPath_adds_a_missing_separator_witness :
  build_wszClrPath "C:\rt" nothing_called
  = (nothing_called, Next "C:\rt\coreclr.dll") /\
  build_wszClrPath "C:\rt\" nothing_called
  = (nothing_called, Next "C:\rt\coreclr.dll").
Proof.
  apply (build_wszClrPath_adds_a_missing_separator "C:\rt" nothing_called).
  - discriminate.
  - discriminate.
  - vm_compute. reflexivity.
Defined.

(** ** Further properties of the run *)

(** X12.  When the caller hands in a directory that does not fit in the
    [MAX_PATH] characters of [szCurrentDirectory],
    [CallApplicationMain] goes to [Finished] at once: it calls nothing,
    leaves [data->exitcode] as it was, and returns [true]. *)
Theorem CallApplicationMain_directory_too_long (w : World) (cfg : build)
  (fuel : nat) (data : CALL_APPLICATION_MAIN_DATA) (d : string) :
  klrDirectory data = Some d ->
  MAX_PATH <= wcslen d ->
  CallApplicationMain w cfg fuel data = (entry data, Return true).
Proof.
  intros Hd Hlong.
  unfold CallApplicationMain, CallApplicationMain_body, acquire_runtime.
  rewrite !bind_assoc.
  rewrite (bind_goto _ _ _ (entry data)); [reflexivity|].
  unfold current_directory. rewrite Hd.
  now apply checked_wcscpy_s_overflow.
Qed.

Lemma CallApplicationMain_directory_too_long_witness :
  CallApplicationMain world_installed x86_Win7Plus 1 launch_from_afar
  = (mkState [] S_OK None 0, Return true).
Proof.
  apply (CallApplicationMain_directory_too_long world_installed x86_Win7Plus
           1 launch_from_afar (repeated "d" 300) eq_refl).
  vm_compute. discriminate.
Defined.

(** X13.  [CallApplicationMain] returns [false] only right after it has
    printed one of its nine reports of failure: the report is the last
    call of the run. *)
Theorem false_is_returned_after_a_report (w : World) (cfg : build)
  (fuel : nat) (data : CALL_APPLICATION_MAIN_DATA) (s : state)
  (o : outcome bool) :
  CallApplicationMain w cfg fuel data = (s, o) ->
  o = Return false ->
  exists pre fmt args,
    log s = (pre ++ [Ev_printf fmt args])%list /\ In fmt failure_reports.
Proof.
  intros H. run_CallApplicationMain_in_detail H.
  all: intros Ho; try discriminate Ho.
  all: spell_out_log.
  1: { destruct Hacq as (pre & fmt & -> & Hin). now exists pre, fmt, []. }
  all: all_but_last 1%nat; do 2 eexists.
  all: split; [rewrite <- app_assoc;
               cbn [firstn List.length Nat.sub app]; reflexivity|].
  all: cbn; tauto.
Qed.

Lemma false_is_returned_after_a_report_witness :
  snd (CallApplicationMain world_context_refused x86_Win7Plus 1 launch)
  = Return false /\
  exists pre fmt args,
    log (fst (CallApplicationMain world_context_refused x86_Win7Plus 1 launch))
    = (pre ++ [Ev_printf fmt args])%list /\ In fmt failure_reports.
Proof.
  assert (Ho : snd (CallApplicationMain world_context_refused x86_Win7Plus 1
                      launch) = Return false) by (vm_compute; reflexivity).
  split; [exact Ho|].
  exact (false_is_returned_after_a_report world_context_refused x86_Win7Plus
           1 launch _ _ (surjective_pairing _) Ho).
Defined.

(** X14.  The buffer is freed at most once, and only at [Finished]:
    when [free] is called it is the last call of the run, no [free] goes
    before it, the allocation that succeeded does, the pointer is set to
    null, and [true] is returned. *)
Theorem buffer_freed_once_at_Finished (w : World) (cfg : build)
  (fuel : nat) (data : CALL_APPLICATION_MAIN_DATA) (s : state)
  (o : outcome bool) :
  CallApplicationMain w cfg fuel data = (s, o) ->
  In Ev_free (log s) ->
  o = Return true /\ pwszTrustedPlatformAssemblies s = None /\
  exists pre, log s = (pre ++ [Ev_free])%list /\
    In (Ev_calloc true) pre /\ ~ In Ev_free pre.
Proof.
  intros H Hin. run_CallApplicationMain_in_detail H.
  all: in_cases Hin; settle_case Hin.
  all: split; [reflexivity|]; split; [reflexivity|].
  all: spell_out_log.
  all: all_but_last 1%nat.
  all: split; [rewrite <- app_assoc;
               cbn [firstn List.length Nat.sub app]; reflexivity|].
  all: cbn [firstn List.length Nat.sub].
  all: split; [solve_In|].
  all: intros Hf; in_cases Hf; settle_case Hf.
Qed.

Lemma buffer_freed_once_at_Finished_witness :
  In Ev_free
    (log (fst (CallApplicationMain world_installed x86_Win7Plus 1 launch))) /\
  snd (CallApplicationMain world_installed x86_Win7Plus 1 launch)
  = Return true /\
  pwszTrustedPlatformAssemblies
    (fst (CallApplicationMain world_installed x86_Win7Plus 1 launch)) = None.
Proof.
  assert (Hin : In Ev_free
                  (log (fst (CallApplicationMain world_installed x86_Win7Plus
                               1 launch)))) by computed_In.
  split; [exact Hin|].
  destruct (buffer_freed_once_at_Finished world_installed x86_Win7Plus 1
              launch _ _ (surjective_pairing _) Hin) as (Ho & Hp & _).
  exact (conj Ho Hp).
Defined.

(** X15.  Once the buffer is allocated, whether it is freed goes with
    the value returned: a run that returns [true] ends with [free], and
    a run that returns [false] after any of the three returns of lines
    358, 421 and 436 never calls [free] and leaves the pointer on the
    buffer. *)
Theorem buffer_kept_when_false_is_returned (w : World) (cfg : build)
  (fuel : nat) (data : CALL_APPLICATION_MAIN_DATA) (s : state)
  (o : outcome bool) :
  CallApplicationMain w cfg fuel data = (s, o) ->
  In (Ev_calloc true) (log s) ->
  (o = Return true -> exists pre, log s = (pre ++ [Ev_free])%list) /\
  (o = Return false ->
   (exists buf, pwszTrustedPlatformAssemblies s = Some buf) /\
   existsb is_free (log s) = false).
Proof.
  intros H Hin. run_CallApplicationMain_in_detail H.
  all: in_cases Hin; settle_case Hin.
  all: (split; intros Ho; try discriminate Ho).
  all: spell_out_log.
  all: try (all_but_last 1%nat; rewrite <- app_assoc;
            cbn [firstn List.length Nat.sub app]; reflexivity).
  all: (split; [now eexists|]).
  all: rewrite existsb_app, (existsb_setup _ _ Hsetup setup_not_free).
  all: reflexivity.
Qed.

Lemma buffer_kept_when_false_is_returned_witness :
  In (Ev_calloc true)
    (log (fst (CallApplicationMain world_context_refused x86_Win7Plus 1
                 launch_from_host))) /\
  snd (CallApplicationMain world_context_refused x86_Win7Plus 1
         launch_from_host) = Return false /\
  (exists buf,
     pwszTrustedPlatformAssemblies
       (fst (CallApplicationMain world_context_refused x86_Win7Plus 1
               launch_from_host)) = Some buf) /\
  existsb is_free
    (log (fst (CallApplicationMain world_context_refused x86_Win7Plus 1
                 launch_from_host))) = false.
Proof.
  assert (Hin : In (Ev_calloc true)
                  (log (fst (CallApplicationMain world_context_refused
                               x86_Win7Plus 1 launch_from_host))))
    by computed_In.
  assert (Ho : snd (CallApplicationMain world_context_refused x86_Win7Plus 1
                      launch_from_host) = Return false)
    by (vm_compute; reflexivity).
  split; [exact Hin|]. split; [exact Ho|].
  exact (proj2 (buffer_kept_when_false_is_returned world_context_refused
                  x86_Win7Plus 1 launch_from_host _ _
                  (surjective_pairing _) Hin) Ho).
Defined.

(** X16.  The entry point is called with [data->argc] and [data->argv],
    right after [KRE_FRAMEWORK] is set to [aspnetcore50]; what it returns
    is stored in [data->exitcode]; the application domain is then
    unloaded, the host stopped and the buffer freed, and [true] is
    returned whatever the entry point returned.  In a run that does not
    call the entry point [data->exitcode] is left as it was. *)
Theorem entry_point_result_is_stored (w : World) (cfg : build)
  (fuel : nat) (data : CALL_APPLICATION_MAIN_DATA) (s : state)
  (o : outcome bool) :
  CallApplicationMain w cfg fuel data = (s, o) ->
  (forall n args code, In (Ev_HostMain n args code) (log s) ->
     n = argc data /\ args = argv data /\ data_exitcode s = code /\
     o = Return true /\
     exists pre d,
       log s = (pre ++ [ Ev_SetEnvironmentVariable "KRE_FRAMEWORK"
                           "aspnetcore50";
                         Ev_HostMain n args code;
                         Ev_UnloadAppDomain d; Ev_Stop; Ev_free ])%list) /\
  ((forall n args code, ~ In (Ev_HostMain n args code) (log s)) ->
   data_exitcode s = exitcode data).
Proof.
  intros H. run_CallApplicationMain_in_detail H.
  all: split; [intros n args code Hin|intros Hnot].
  all: try reflexivity.
  all: try (exfalso; eapply Hnot; solve_In).
  all: in_cases Hin; settle_case Hin.
  all: repeat (split; [reflexivity|]).
  all: spell_out_log.
  all: all_but_last 5%nat; eexists.
  all: rewrite <- app_assoc; cbn [firstn List.length Nat.sub app].
  all: reflexivity.
Qed.

Lemma entry_point_result_is_stored_witness :
  In (Ev_HostMain 2 ["klr.exe"; "run"] 42)
    (log (fst (CallApplicationMain world_installed x86_Win7Plus 1
                 launch_from_host))) /\
  exitcode launch_from_host = 9 /\
  data_exitcode
    (fst (CallApplicationMain world_installed x86_Win7Plus 1
            launch_from_host)) = 42 /\
  snd (CallApplicationMain world_installed x86_Win7Plus 1 launch_from_host)
  = Return true.
Proof.
  assert (Hin : In (Ev_HostMain 2 ["klr.exe"; "run"] 42)
                  (log (fst (CallApplicationMain world_installed x86_Win7Plus
                               1 launch_from_host)))) by computed_In.
  split; [exact Hin|]. split; [reflexivity|].
  destruct (proj1 (entry_point_result_is_stored world_installed x86_Win7Plus
                     1 launch_from_host _ _ (surjective_pairing _))
              _ _ _ Hin) as (_ & _ & Hx & Ho & _).
  exact (conj Hx Ho).
Defined.

(** X17.  The application domain named to [CreateDelegate] and to
    [UnloadAppDomain] is the one [CreateAppDomainWithManager] has
    returned with success; the domain is unloaded only after the
    delegate was created in it. *)
Theorem domain_id_is_passed_on (w : World) (cfg : build)
  (fuel : nat) (data : CALL_APPLICATION_MAIN_DATA) (s : state)
  (o : outcome bool) :
  CallApplicationMain w cfg fuel data = (s, o) ->
  (forall d hd, In (Ev_CreateDelegate d hd) (log s) ->
     exists appbase tpa paths h0,
       In (Ev_CreateAppDomainWithManager appbase tpa paths h0 d) (log s) /\
       FAILED h0 = false) /\
  (forall d, In (Ev_UnloadAppDomain d) (log s) ->
     exists appbase tpa paths h0 hd,
       In (Ev_CreateAppDomainWithManager appbase tpa paths h0 d) (log s) /\
       FAILED h0 = false /\
       In (Ev_CreateDelegate d hd) (log s) /\ FAILED hd = false).
Proof.
  intros H. run_CallApplicationMain_in_detail H.
  all: split; [intros d hd Hin|intros d Hin].
  all: in_cases Hin; settle_case Hin.
  all: do 4 eexists; try eexists.
  all: repeat match goal with
       | |- _ /\ _ => split
       | |- In _ _ => solve_In
       | |- FAILED _ = false => eassumption
       end.
Qed.

Lemma domain_id_is_passed_on_witness :
  In (Ev_UnloadAppDomain 1)
    (log (fst (CallApplicationMain world_installed x86_Win7Plus 1 launch))) /\
  exists appbase tpa paths h0 hd,
    In (Ev_CreateAppDomainWithManager appbase tpa paths h0 1)
      (log (fst (CallApplicationMain world_installed x86_Win7Plus 1
                   launch))) /\
    FAILED h0 = false /\
    In (Ev_CreateDelegate 1 hd)
      (log (fst (CallApplicationMain world_installed x86_Win7Plus 1
                   launch))) /\
    FAILED hd = false.
Proof.
  assert (Hin : In (Ev_UnloadAppDomain 1)
                  (log (fst (CallApplicationMain world_installed x86_Win7Plus
                               1 launch)))) by computed_In.
  split; [exact Hin|].
  exact (proj2 (domain_id_is_passed_on world_installed x86_Win7Plus 1 launch
                  _ _ (surjective_pairing _)) 1 Hin).
Defined.

(** X18.  What [CreateAppDomainWithManager] is handed: [APPBASE] is
    [data->applicationBase]; the list of trusted assemblies is made of
    the entries of the scan that returned [true], for the usable names
    of its enumeration, followed by [klr.core45.managed.dll] in the
    current directory, with no separator after it; [APP_PATHS] is the
    current directory and the directory of the runtime, each followed by
    a semicolon.  Both strings are within the bounds of their arrays.
    The current directory is the one the caller names, or else that of
    the module of the process. *)
Theorem properties_handed_to_the_host (w : World) (cfg : build)
  (fuel : nat) (data : CALL_APPLICATION_MAIN_DATA) (s : state)
  (o : outcome bool) :
  CallApplicationMain w cfg fuel data = (s, o) ->
  forall appbase tpa paths hc d,
    In (Ev_CreateAppDomainWithManager appbase tpa paths hc d) (log s) ->
    appbase = applicationBase data /\
    exists cur dir pat found,
      (forall d0, klrDirectory data = Some d0 -> cur = d0) /\
      (klrDirectory data = None ->
       exists path, In (Ev_GetModuleFileName nullptr path) (log s) /\
         through_last_backslash (module_path_read path) = Some cur) /\
      In (Ev_FindFirstFile (dir ++ pat) found) (log s) /\
      In (Ev_ScanDirectory_returns pat true
            (TPA_entries dir (usable_names found))) (log s) /\
      tpa = TPA_entries dir (usable_names found)
            ++ cur ++ "klr.core45.managed.dll" /\
      wcslen tpa < TRUSTED_PLATFORM_ASSEMBLIES_STRING_BUFFER_SIZE_CCH /\
      paths = cur ++ ";" ++ dir ++ ";" /\
      wcslen paths < MAX_PATH.
Proof.
  intros H appbase tpa paths hc d Hin. run_CallApplicationMain_in_detail H.
  all: in_cases Hin; settle_case Hin.
  all: split; [reflexivity|].
  all: repeat match goal with
       | E : (fst (wcscat_s _ _ _) =? 0) = true |- _ =>
           let Hs := fresh "Hs" in let Hb := fresh "Hb" in
           destruct (wcscat_s_succeeded_in_bounds _ _ _ E) as [Hs Hb];
           clear E; rewrite ?Hs in *
       end.
  all: cbn [append] in Hin.
  all: match goal with
       | |- context [Ev_ScanDirectory_returns ?pat true
                       (TPA_entries _ (usable_names ?f))] =>
           exists cur, dir, pat, f
       end.
  all: destruct (acquired_current _ _ _ _ Hacq) as [Hsome Hnone].
  all: split; [exact Hsome|].
  all: split; [intros Hd; destruct (Hnone Hd) as (path0 & Hp0 & Hc0);
               exists path0; split; [find_In | exact Hc0]|].
  all: split; [solve_In|]. all: split; [solve_In|].
  all: rewrite !append_assoc in *.
  all: now repeat split.
Qed.

Lemma properties_handed_to_the_host_witness :
  In (Ev_CreateAppDomainWithManager (Some "C:\app\")
        ("C:\klr\mscorlib.ni.dll;C:\klr\System.ni.dll;" ++
         "C:\host\klr.core45.managed.dll")
        "C:\host\;C:\klr\;" S_OK 1)
    (log (fst (CallApplicationMain world_installed x86_Win7Plus 1
                 launch_from_host))) /\
  Some "C:\app\" = applicationBase launch_from_host /\
  wcslen "C:\host\;C:\klr\;" < MAX_PATH.
Proof.
  assert (Hin : In (Ev_CreateAppDomainWithManager (Some "C:\app\")
                      ("C:\klr\mscorlib.ni.dll;C:\klr\System.ni.dll;" ++
                       "C:\host\klr.core45.managed.dll")
                      "C:\host\;C:\klr\;" S_OK 1)
                  (log (fst (CallApplicationMain world_installed x86_Win7Plus
                               1 launch_from_host)))) by computed_In.
  split; [exact Hin|].
  destruct (properties_handed_to_the_host world_installed x86_Win7Plus 1
              launch_from_host _ _ (surjective_pairing _) _ _ _ _ _ Hin)
    as (Hbase & cur & dir & pat & found & _ & _ & _ & _ & _ & _ & _ & Hlen).
  exact (conj Hbase Hlen).
Defined.

(** X19.  The directory that is scanned for assemblies is the directory
    of the library that was loaded, as [GetModuleFileName] gives its
    path for the handle, and not the directory named by [CORECLR_DIR]:
    every enumeration asks for that directory followed by one of the two
    patterns. *)
Theorem scans_the_directory_of_the_loaded_library (w : World) (cfg : build)
  (fuel : nat) (data : CALL_APPLICATION_MAIN_DATA) (s : state)
  (o : outcome bool) :
  CallApplicationMain w cfg fuel data = (s, o) ->
  forall search found, In (Ev_FindFirstFile search found) (log s) ->
    exists f h path dir,
      In (Ev_LoadLibraryExW f 0 h) (log s) /\ h <> 0 /\
      In (Ev_GetModuleFileName h path) (log s) /\
      through_last_backslash (module_path_read path) = Some dir /\
      (search = dir ++ "*.ni.dll" \/ search = dir ++ "*.dll").
Proof.
  intros H search found Hin. run_CallApplicationMain_in_detail H.
  all: in_cases Hin; settle_case Hin.
  all: destruct (acquired_directory _ _ _ _ Hacq)
         as (lib & hm & pth & Hl & Hh & Hp & Hd).
  all: exists lib, hm, pth, dir.
  all: split; [find_In|]; split; [assumption|]; split; [find_In|].
  all: split; [assumption|]; auto.
Qed.

Lemma scans_the_directory_of_the_loaded_library_witness :
  In (Ev_FindFirstFile "C:\klr\*.ni.dll" (runtime_directory "C:\klr\*.ni.dll"))
    (log (fst (CallApplicationMain world_installed x86_Win7Plus 1 launch))) /\
  exists f h path dir,
    In (Ev_LoadLibraryExW f 0 h)
      (log (fst (CallApplicationMain world_installed x86_Win7Plus 1
                   launch))) /\
    h <> 0 /\
    In (Ev_GetModuleFileName h path)
      (log (fst (CallApplicationMain world_installed x86_Win7Plus 1
                   launch))) /\
    through_last_backslash (module_path_read path) = Some dir /\
    ("C:\klr\*.ni.dll" = dir ++ "*.ni.dll" \/
     "C:\klr\*.ni.dll" = dir ++ "*.dll").
Proof.
  assert (Hin : In (Ev_FindFirstFile "C:\klr\*.ni.dll"
                      (runtime_directory "C:\klr\*.ni.dll"))
                  (log (fst (CallApplicationMain world_installed x86_Win7Plus
                               1 launch)))) by computed_In.
  split; [exact Hin|].
  exact (scans_the_directory_of_the_loaded_library world_installed
           x86_Win7Plus 1 launch _ _ (surjective_pairing _) _ _ Hin).
Defined.

(** X20.  The host interface is asked for only right after the library
    that was loaded has been pinned, by the path read for its handle, and
    its export [GetCLRRuntimeHost] has been found; and no call is made on
    the host interface before it has been obtained with success. *)
Theorem host_interface_needs_pin_and_export (w : World) (cfg : build)
  (fuel : nat) (data : CALL_APPLICATION_MAIN_DATA) (s : state)
  (o : outcome bool) :
  CallApplicationMain w cfg fuel data = (s, o) ->
  (forall hr0, In (Ev_GetCLRRuntimeHost hr0) (log s) ->
     exists pre f h path path' p post,
       log s = (pre ++ [ Ev_LoadLibraryExW f 0 h;
                         Ev_GetModuleFileName h path;
                         Ev_GetModuleFileName h path';
                         Ev_GetModuleHandleExW path true;
                         Ev_GetProcAddress h "GetCLRRuntimeHost" p;
                         Ev_GetCLRRuntimeHost hr0 ] ++ post)%list /\
       h <> 0 /\ p <> 0) /\
  every_preceded is_host_call interface_obtained (log s).
Proof.
  intros H. split.
  - intros hr0 Hin. run_CallApplicationMain_in_detail H.
    all: in_cases Hin; settle_case Hin.
    all: destruct (acquired_interface _ _ _ _ Hacq)
           as (pre & lib & hm & pth & pth' & pfn & -> & Hh & Hp).
    all: exists pre, lib, hm, pth, pth', pfn.
    all: spell_out_log.
    all: eexists; split; [reflexivity|]; now split.
  - apply guarded_sound. run_CallApplicationMain_in_detail H.
    all: spell_out_log.
    all: first
      [ now apply (guarded_setup_only _ _ _ Hsetup
                     setup_not_host_call setup_not_interface_obtained)
      | rewrite (guarded_setup _ _ _ _ Hsetup
                   setup_not_host_call setup_not_interface_obtained) ].
    all: cbn [guarded is_host_call interface_obtained negb orb andb].
    all: repeat match goal with E : FAILED _ = _ |- _ => rewrite E end.
    all: reflexivity.
Qed.

Lemma host_interface_needs_pin_and_export_witness :
  In (Ev_GetCLRRuntimeHost S_OK)
    (log (fst (CallApplicationMain world_installed x86_Win7Plus 1 launch))) /\
  every_preceded is_host_call interface_obtained
    (log (fst (CallApplicationMain world_installed x86_Win7Plus 1 launch))).
Proof.
  split; [computed_In|].
  exact (proj2 (host_interface_needs_pin_and_export world_installed
                  x86_Win7Plus 1 launch _ _ (surjective_pairing _))).
Defined.

(** X21.  The calls on the host interface are made in one order, none
    twice and none skipped: [SetStartupFlags], [Authenticate], [Start],
    [CreateAppDomainWithManager], [CreateDelegate], [UnloadAppDomain],
    [Stop].  A run makes the first 0, 2, 3, 4, 5 or 7 of them. *)
Theorem host_calls_in_order (w : World) (cfg : build)
  (fuel : nat) (data : CALL_APPLICATION_MAIN_DATA) (s : state)
  (o : outcome bool) :
  CallApplicationMain w cfg fuel data = (s, o) ->
  exists k, map host_step (filter is_host_call (log s)) = seq 1 k /\
            In k [0; 2; 3; 4; 5; 7]%nat.
Proof.
  intros H. run_CallApplicationMain_in_detail H.
  all: spell_out_log.
  all: rewrite ?(filter_setup _ _ _ Hsetup setup_not_host_call).
  all: try (exists 0%nat; split; [|now left];
            rewrite <- (app_nil_r es);
            now rewrite (filter_setup _ _ _ Hsetup setup_not_host_call)).
  all: cbn [filter is_host_call map host_step].
  all: match goal with
       | |- exists k, ?l = _ /\ _ => exists (List.length l)
       end.
  all: cbn [List.length seq]; split; [reflexivity|]; cbn; tauto.
Qed.

Lemma host_calls_in_order_witness :
  map host_step
    (filter is_host_call
       (log (fst (CallApplicationMain world_context_refused x86_Win7Plus 1
                    launch)))) = [1; 2; 3; 4]%nat /\
  exists k,
    map host_step
      (filter is_host_call
         (log (fst (CallApplicationMain world_context_refused x86_Win7Plus 1
                      launch)))) = seq 1 k /\
    In k [0; 2; 3; 4; 5; 7]%nat.
Proof.
  split; [vm_compute; reflexivity|].
  exact (host_calls_in_order world_context_refused x86_Win7Plus 1 launch
           _ _ (surjective_pairing _)).
Defined.

(** X22.  That [true] is returned does not tell that the application has
    run.  A run that returns [true] either has called the entry point,
    unloaded the domain, stopped the host and freed the buffer; or it has
    left through [Finished] before any execution context was created,
    with [data->exitcode] as it was. *)
Theorem true_is_returned_with_or_without_a_run (w : World) (cfg : build)
  (fuel : nat) (data : CALL_APPLICATION_MAIN_DATA) (s : state)
  (o : outcome bool) :
  CallApplicationMain w cfg fuel data = (s, o) ->
  o = Return true ->
  (exists pre code d,
     log s = (pre ++ [ Ev_HostMain (argc data) (argv data) code;
                       Ev_UnloadAppDomain d; Ev_Stop; Ev_free ])%list) \/
  existsb is_CreateAppDomainWithManager (log s) = false /\
  data_exitcode s = exitcode data.
Proof.
  intros H. run_CallApplicationMain_in_detail H.
  all: intros Ho; try discriminate Ho.
  all: spell_out_log.
  all: first
    [ right; split; [|reflexivity];
      first [ exact (existsb_setup _ _ Hsetup
                       setup_not_CreateAppDomainWithManager)
            | reflexivity
            | rewrite existsb_app,
                (existsb_setup _ _ Hsetup setup_not_CreateAppDomainWithManager);
              reflexivity ]
    | left; all_but_last 4%nat; do 2 eexists;
      rewrite <- app_assoc; cbn [firstn List.length Nat.sub app];
      reflexivity ].
Qed.

Lemma true_is_returned_with_or_without_a_run_witness :
  snd (CallApplicationMain world_no_memory x86_Win7Plus 1 launch)
  = Return true /\
  existsb is_CreateAppDomainWithManager
    (log (fst (CallApplicationMain world_no_memory x86_Win7Plus 1 launch)))
  = false /\
  ((exists pre code d,
      log (fst (CallApplicationMain world_no_memory x86_Win7Plus 1 launch))
      = (pre ++ [ Ev_HostMain (argc launch) (argv launch) code;
                  Ev_UnloadAppDomain d; Ev_Stop; Ev_free ])%list) \/
   existsb is_CreateAppDomainWithManager
     (log (fst (CallApplicationMain world_no_memory x86_Win7Plus 1 launch)))
   = false /\
   data_exitcode
     (fst (CallApplicationMain world_no_memory x86_Win7Plus 1 launch))
   = exitcode launch).
Proof.
  assert (Ho : snd (CallApplicationMain world_no_memory x86_Win7Plus 1
                      launch) = Return true) by (vm_compute; reflexivity).
  split; [exact Ho|]. split; [vm_compute; reflexivity|].
  exact (true_is_returned_with_or_without_a_run world_no_memory x86_Win7Plus
           1 launch _ _ (surjective_pairing _) Ho).
Defined.

(** X23.  The first call that fails, among the request for the host
    interface and the calls on it that are checked, ends the run: after
    it nothing is called but [printf_s] and [wprintf_s], the last line
    printed is the report of that failure, and [false] is returned. *)
Theorem a_failed_host_call_ends_the_run (w : World) (cfg : build)
  (fuel : nat) (data : CALL_APPLICATION_MAIN_DATA) (s : state)
  (o : outcome bool) (e r : event) :
  CallApplicationMain w cfg fuel data = (s, o) ->
  In e (log s) -> report_of_failure e = Some r ->
  o = Return false /\
  exists pre mid,
    log s = (pre ++ e :: mid ++ [r])%list /\
    forallb is_printf mid = true.
Proof.
  intros H Hin Hr. run_CallApplicationMain_in_detail H.
  all: in_cases Hin.
  all: try (apply setup_no_report in Hin; congruence).
  all: subst e; cbn [report_of_failure] in Hr.
  all: try discriminate Hr.
  all: repeat match goal with
       | E : FAILED _ = _ |- _ => rewrite E in Hr
       end.
  all: try discriminate Hr.
  all: injection Hr as <-.
  all: split; [reflexivity|].
  all: spell_out_log.
  all: match goal with
       | |- exists pre mid, (?es ++ ?l)%list = _ /\ _ => cut_log es l
       end.
Qed.

Lemma a_failed_host_call_ends_the_run_witness :
  In (Ev_CreateAppDomainWithManager (Some "C:\app\")
        ("C:\klr\mscorlib.ni.dll;C:\klr\System.ni.dll;" ++
         "C:\app\klr.core45.managed.dll") "C:\app\;C:\klr\;" E_FAIL 1)
    (log (fst (CallApplicationMain world_context_refused x86_Win7Plus 1
                 launch))) /\
  snd (CallApplicationMain world_context_refused x86_Win7Plus 1 launch)
  = Return false /\
  exists pre mid,
    log (fst (CallApplicationMain world_context_refused x86_Win7Plus 1
                launch))
    = (pre ++
       Ev_CreateAppDomainWithManager (Some "C:\app\")
         ("C:\klr\mscorlib.ni.dll;C:\klr\System.ni.dll;" ++
          "C:\app\klr.core45.managed.dll") "C:\app\;C:\klr\;" E_FAIL 1
       :: mid ++
       [Ev_printf "Failed to create app domain (%d).\n" [arg_d E_FAIL]])%list
    /\ forallb is_printf mid = true.
Proof.
  assert (Hin : In (Ev_CreateAppDomainWithManager (Some "C:\app\")
                      ("C:\klr\mscorlib.ni.dll;C:\klr\System.ni.dll;" ++
                       "C:\app\klr.core45.managed.dll")
                      "C:\app\;C:\klr\;" E_FAIL 1)
                  (log (fst (CallApplicationMain world_context_refused
                               x86_Win7Plus 1 launch)))) by computed_In.
  split; [exact Hin|].
  exact (a_failed_host_call_ends_the_run world_context_refused x86_Win7Plus
           1 launch _ _ _ _ (surjective_pairing _) Hin eq_refl).
Defined.

(** X24.  When control comes to the [Finished] label, by a [goto] or
    past the call of [Stop], [hr] holds no failure: lines 455-458 never
    return [false], and every run that comes to the label returns
    [true]. *)
Theorem Finished_is_reached_without_a_failure (w : World) (cfg : build)
  (fuel : nat) (data : CALL_APPLICATION_MAIN_DATA) (s : state)
  (o : outcome unit) :
  CallApplicationMain_body w cfg fuel data (entry data) = (s, o) ->
  o = Next tt \/ o = Goto_Finished ->
  FAILED (hr s) = false /\
  exists s', Finished s = (s', Return true).
Proof.
  intros H.
  unfold CallApplicationMain_body in H; unfold bind at 1 in H.
  destruct (acquire_runtime w cfg fuel data (entry data)) as [s1 o1] eqn:EA.
  apply acquire_runtime_spec in EA.
  destruct EA as (es & X & F & [->|[(-> & ->)|[->|[->|(cur & dir & ->)]]]]);
    destruct s1 as [l1 h1 p1 x1]; unfold extends, entry in X;
    cbn [log hr pwszTrustedPlatformAssemblies data_exitcode app] in X;
    destruct X as (-> & -> & -> & ->).
  5: { unfold host_lifecycle in H. repeat step H.
       all: first [ injection H as <- <-
                  | unfold return_, goto_Finished, ret in H;
                    injection H as <- <- ].
       all: intros [Ho|Ho]; try discriminate Ho.
       all: cbn [hr].
       all: (split; [assumption|]).
       all: unfold Finished, bind, emit, set_pwszTrustedPlatformAssemblies.
       all: cbn [pwszTrustedPlatformAssemblies hr record].
       all: repeat match goal with E : FAILED _ = false |- _ => rewrite E end.
       all: eauto. }
  all: injection H as <- <-; intros [Ho|Ho]; try discriminate Ho.
  split; [reflexivity|]. now eexists.
Qed.

Lemma Finished_is_reached_without_a_failure_witness :
  snd (CallApplicationMain_body world_no_memory x86_Win7Plus 1 launch
         (entry launch)) = Goto_Finished /\
  FAILED (hr (fst (CallApplicationMain_body world_no_memory x86_Win7Plus 1
                     launch (entry launch)))) = false /\
  exists s',
    Finished (fst (CallApplicationMain_body world_no_memory x86_Win7Plus 1
                     launch (entry launch))) = (s', Return true).
Proof.
  assert (Ho : snd (CallApplicationMain_body world_no_memory x86_Win7Plus 1
                      launch (entry launch)) = Goto_Finished)
    by (vm_compute; reflexivity).
  split; [exact Ho|].
  exact (Finished_is_reached_without_a_failure world_no_memory x86_Win7Plus
           1 launch _ _ (surjective_pairing _) (or_intror Ho)).
Defined.

(** X25.  A run leaves the bounds of an array, or reads an array that
    was not written, in three situations only, each met right after the
    call that brings it about: the path of a module holds no separator,
    so that [GetModuleDirectory] reads below the array; the path of the
    runtime library fills the [MAX_PATH] characters of the array, so
    that line 271 writes past its end; the value of [CORECLR_DIR] does
    not fit, so that line 104 reads an array that was not written. *)
Theorem undefined_only_after_an_overlong_or_bare_path (w : World)
  (cfg : build) (fuel : nat) (data : CALL_APPLICATION_MAIN_DATA) (s : state)
  (o : outcome bool) :
  CallApplicationMain w cfg fuel data = (s, o) ->
  o = Undefined ->
  exists pre e, log s = (pre ++ [e])%list /\ undefined_after e.
Proof.
  intros H. run_CallApplicationMain_in_detail H.
  all: intros Ho; try discriminate Ho.
  exact Hacq.
Qed.

Lemma undefined_only_after_an_overlong_or_bare_path_witness :
  snd (CallApplicationMain world_overlong_variable x86_Win7Plus 1 launch)
  = Undefined /\
  log (fst (CallApplicationMain world_overlong_variable x86_Win7Plus 1
              launch))
  = [ Ev_GetModuleFileName nullptr "C:\app\klr.exe";
      Ev_GetEnvironmentVariableW "CORECLR_DIR" (Some (repeated "d" 300)) ] /\
  exists pre e,
    log (fst (CallApplicationMain world_overlong_variable x86_Win7Plus 1
                launch)) = (pre ++ [e])%list /\
    undefined_after e.
Proof.
  assert (Ho : snd (CallApplicationMain world_overlong_variable x86_Win7Plus
                      1 launch) = Undefined) by (vm_compute; reflexivity).
  split; [exact Ho|]. split; [vm_compute; reflexivity|].
  exact (undefined_only_after_an_overlong_or_bare_path
           world_overlong_variable x86_Win7Plus 1 launch _ _
           (surjective_pairing _) Ho).
Defined.

(** With a first loader module that is ready, one iteration of the loop
    finds the two functions and the search path is widened. *)
Lemma widen_dll_search_path_ready (w : World) (cfg : build) (fuel : nat)
  (dir : string) (s : state) :
  Win7PlusCoreSystem cfg = true -> loader_ready w ->
  exists trace m pA pS,
    let kre := os_GetEnvironmentVariableW w (log s) "KRE_TRACE" in
    widen_dll_search_path w cfg (S fuel) dir s
    = (mkState
         (log s ++
          [ Ev_GetEnvironmentVariableW "KRE_TRACE" kre;
            Ev_LoadLibraryExW "api-ms-win-core-libraryloader-l1-1-1.dll"
              LOAD_LIBRARY_SEARCH_DEFAULT_DIRS m ] ++
          trace ++
          [ Ev_GetProcAddress m "AddDllDirectory" pA;
            Ev_GetProcAddress m "SetDefaultDllDirectories" pS;
            Ev_AddDllDirectory dir;
            Ev_SetDefaultDllDirectories widening_flags ])
         (hr s) (pwszTrustedPlatformAssemblies s) (data_exitcode s),
       Next tt) /\
    m <> 0 /\ pA <> 0 /\ pS <> 0 /\
    (trace = [] /\ (kre = None \/ kre = Some "") \/
     trace = [ Ev_printf "Loaded Module: %s\r\n"
                 [arg_s "api-ms-win-core-libraryloader-l1-1-1.dll"] ] /\
     exists v, kre = Some v /\ v <> "").
Proof.
  intros Hwin Hready. unfold widen_dll_search_path. rewrite Hwin.
  unfold bind at 1. unfold GetEnvironmentVariableW. cbv zeta.
  set (kre := os_GetEnvironmentVariableW w (log s) "KRE_TRACE").
  set (s1 := record (Ev_GetEnvironmentVariableW "KRE_TRACE" kre) s).
  destruct (Hready (log s1)) as (Hl & Ha & Hs).
  set (m := os_LoadLibraryExW w (log s1)
              "api-ms-win-core-libraryloader-l1-1-1.dll"
              LOAD_LIBRARY_SEARCH_DEFAULT_DIRS) in *.
  assert (Hrun : forall verbose, exists trace pA pS,
    bind (scan_OSLoaderModules w (S fuel) verbose
            (mkLoaderVars 0 nullptr nullptr nullptr))
      (fun v =>
         if is_null (hOSLoaderModule v) || is_null (pFnAddDllDirectory v)
            || is_null (pFnSetDefaultDllDirectories v)
         then goto_Finished
         else emit (Ev_AddDllDirectory dir) ;;
              emit (Ev_SetDefaultDllDirectories
                      (Z.lor LOAD_LIBRARY_SEARCH_DEFAULT_DIRS
                             LOAD_LIBRARY_SEARCH_USER_DIRS))) s1
    = (mkState
         (log s ++
          [ Ev_GetEnvironmentVariableW "KRE_TRACE" kre;
            Ev_LoadLibraryExW "api-ms-win-core-libraryloader-l1-1-1.dll"
              LOAD_LIBRARY_SEARCH_DEFAULT_DIRS m ] ++
          trace ++
          [ Ev_GetProcAddress m "AddDllDirectory" pA;
            Ev_GetProcAddress m "SetDefaultDllDirectories" pS;
            Ev_AddDllDirectory dir;
            Ev_SetDefaultDllDirectories widening_flags ])
         (hr s) (pwszTrustedPlatformAssemblies s) (data_exitcode s),
       Next tt) /\
    pA <> 0 /\ pS <> 0 /\
    trace = (if verbose
             then [ Ev_printf "Loaded Module: %s\r\n"
                      [arg_s "api-ms-win-core-libraryloader-l1-1-1.dll"] ]
             else [])).
  { intros verbose. cbn [scan_OSLoaderModules nth rgwzOSLoaderModuleNames
                         dwModuleFileName].
    unfold bind, LoadLibraryExW, GetProcAddress, when, printf_s, emit, ret.
    fold m.
    destruct verbose;
      rewrite !(is_null_neq _ Hl), !(is_null_neq _ (Ha _)),
              !(is_null_neq _ (Hs _));
      cbn [negb andb orb hOSLoaderModule pFnAddDllDirectory
           pFnSetDefaultDllDirectories];
      rewrite !(is_null_neq _ Hl), !(is_null_neq _ (Ha _)),
              !(is_null_neq _ (Hs _));
      cbn [orb];
      do 3 eexists; (split; [|split; [apply Ha | split; [apply Hs|]]]);
      try reflexivity;
      unfold record, s1, record;
      cbn [log hr pwszTrustedPlatformAssemblies data_exitcode];
      repeat (rewrite <- app_assoc; cbn [app]); reflexivity. }
  destruct kre as [val|] eqn:Ek; [destruct (Z.ltb_spec (wcslen val) 1)|].
  - assert (Ez : wcslen val = 0) by (pose proof (wcslen_nonneg val); lia).
    rewrite Ez. change (0 >? 0) with false.
    destruct (Hrun false) as (trace & pA & pS & E & HA & HS & ->).
    exists [], m, pA, pS. split; [exact E|]. repeat split; try assumption.
    left. split; [reflexivity|]. right. f_equal. now apply wcslen_zero.
  - assert (Ev : (wcslen val + 1 >? 0) = true) by (apply Z.gtb_lt; lia).
    rewrite Ev.
    destruct (Hrun true) as (trace & pA & pS & E & HA & HS & ->).
    eexists _, m, pA, pS. split; [exact E|]. repeat split; try assumption.
    right. split; [reflexivity|]. exists val. split; [reflexivity|].
    intros ->. change (wcslen "") with 0 in *. lia.
  - change (0 >? 0) with false.
    destruct (Hrun false) as (trace & pA & pS & E & HA & HS & ->).
    exists [], m, pA, pS. split; [exact E|]. repeat split; try assumption.
    left. split; [reflexivity|]. now left.
Qed.

(** X26.  On [Win7PlusCoreSystem], with [CORECLR_DIR] naming a directory
    whose library path fits, and a first loader module that always loads
    and has both functions, one iteration of the loop is enough and
    [LoadCoreClr] returns.  Its calls are then, in this order: the read
    of [CORECLR_DIR], the read of [KRE_TRACE], the load of the first
    loader module, a trace when [KRE_TRACE] is set, the look-up of the
    two functions in that module, the two calls that widen the search
    path, and the attempts on the candidates, of which it returns the
    first handle obtained. *)
Theorem LoadCoreClr_widens_through_the_first_loader_module (w : World)
  (cfg : build) (fuel : nat) (s : state) (dir : string) :
  Win7PlusCoreSystem cfg = true ->
  os_GetEnvironmentVariableW w (log s) "CORECLR_DIR" = Some dir ->
  dir <> "" ->
  wcslen (environment_path dir) < MAX_PATH ->
  loader_ready w ->
  exists kre trace m pA pS l h,
    LoadCoreClr w cfg (S fuel) s
    = (mkState
         (log s ++
          [ Ev_GetEnvironmentVariableW "CORECLR_DIR" (Some dir);
            Ev_GetEnvironmentVariableW "KRE_TRACE" kre;
            Ev_LoadLibraryExW "api-ms-win-core-libraryloader-l1-1-1.dll"
              LOAD_LIBRARY_SEARCH_DEFAULT_DIRS m ] ++
          trace ++
          [ Ev_GetProcAddress m "AddDllDirectory" pA;
            Ev_GetProcAddress m "SetDefaultDllDirectories" pS;
            Ev_AddDllDirectory dir;
            Ev_SetDefaultDllDirectories
              (Z.lor LOAD_LIBRARY_SEARCH_DEFAULT_DIRS
                     LOAD_LIBRARY_SEARCH_USER_DIRS) ] ++
          load_events l)
         (hr s) (pwszTrustedPlatformAssemblies s) (data_exitcode s),
       Next h) /\
    m <> 0 /\ pA <> 0 /\ pS <> 0 /\
    (trace = [] /\ (kre = None \/ kre = Some "") \/
     trace = [ Ev_printf "Loaded Module: %s\r\n"
                 [arg_s "api-ms-win-core-libraryloader-l1-1-1.dll"] ] /\
     exists v, kre = Some v /\ v <> "") /\
    tried [environment_path dir; development_path cfg; "coreclr.dll"] l h.
Proof.
  intros Hwin Henv Hne Hfit Hready.
  pose proof (environment_path_longer dir) as Hlen.
  pose proof (wcslen_nonneg dir) as Hpos.
  assert (Hnz : wcslen dir <> 0) by (intros E; now apply wcslen_zero in E).
  unfold LoadCoreClr, Finished_returning, LoadCoreClr_body.
  unfold bind at 1. unfold GetEnvironmentVariableW at 1. rewrite Henv.
  destruct (Z.ltb_spec (wcslen dir) MAX_PATH); [|lia].
  destruct (Z.eqb_spec (wcslen dir) 0); [lia|]. cbn [negb].
  set (s0 := record (Ev_GetEnvironmentVariableW "CORECLR_DIR" (Some dir)) s).
  unfold bind at 1. unfold bind at 1.
  rewrite build_wszClrPath_spec by lia.
  destruct (Z.ltb_spec (wcslen (environment_path dir)) MAX_PATH); [|lia].
  unfold bind at 1.
  destruct (widen_dll_search_path_ready w cfg fuel dir s0 Hwin Hready)
    as (trace & m & pA & pS & E & Hm & HA & HS & Htrace).
  cbv zeta in E, Htrace. rewrite E. unfold LoadLibraryExW at 1.
  cbv zeta.
  match goal with
  | |- context [load_fallbacks w cfg ?h0 ?st] =>
      destruct (load_fallbacks_spec w cfg h0 st) as (s2 & h & l & E2 & Hx & Hl);
      set (h1 := h0) in *
  end.
  clearbody h1. rewrite E2. rewrite (extends_state _ _ _ Hx).
  cbn [record log hr pwszTrustedPlatformAssemblies data_exitcode s0].
  destruct Hl as [(Hn & -> & ->)|(-> & Ht)].
  - exists (os_GetEnvironmentVariableW w (log s0) "KRE_TRACE"), trace, m, pA,
      pS, [(environment_path dir, h1)], h1.
    split; [|do 4 (split; [assumption|]); now apply tried_hit].
    cbn [load_events map fst snd].
    repeat (rewrite <- app_assoc; cbn [app]). reflexivity.
  - exists (os_GetEnvironmentVariableW w (log s0) "KRE_TRACE"), trace, m, pA,
      pS, ((environment_path dir, 0) :: l), h.
    split; [|do 4 (split; [assumption|]); now apply tried_miss].
    cbn [load_events map fst snd].
    repeat (rewrite <- app_assoc; cbn [app]). reflexivity.
Qed.

(** Only the first loader module has the two functions here, and it is
    asked for once. *)
Lemma LoadCoreClr_widens_through_the_first_loader_module_witness :
  loader_ready world_by_module /\
  os_GetProcAddress world_by_module [] 7 "AddDllDirectory" = nullptr /\
  LoadCoreClr world_by_module x86_Win7Plus 1 nothing_called
  = (mkState
       [ Ev_GetEnvironmentVariableW "CORECLR_DIR" (Some "C:\klr");
         Ev_GetEnvironmentVariableW "KRE_TRACE" None;
         Ev_LoadLibraryExW "api-ms-win-core-libraryloader-l1-1-1.dll"
           LOAD_LIBRARY_SEARCH_DEFAULT_DIRS 3;
         Ev_GetProcAddress 3 "AddDllDirectory" 5;
         Ev_GetProcAddress 3 "SetDefaultDllDirectories" 6;
         Ev_AddDllDirectory "C:\klr";
         Ev_SetDefaultDllDirectories 5120;
         Ev_LoadLibraryExW "C:\klr\coreclr.dll" 0 7 ] S_OK None 0, Next 7) /\
  exists l h,
    snd (LoadCoreClr world_by_module x86_Win7Plus 1 nothing_called) = Next h /\
    tried [ environment_path "C:\klr"; development_path x86_Win7Plus;
            "coreclr.dll" ] l h.
Proof.
  assert (Hready : loader_ready world_by_module).
  { intros hist. cbv zeta. split; [|split]; intros; discriminate. }
  split; [exact Hready|]. split; [reflexivity|].
  split; [vm_compute; reflexivity|].
  destruct (LoadCoreClr_widens_through_the_first_loader_module
              world_by_module x86_Win7Plus 0 nothing_called "C:\klr"
              eq_refl eq_refl) as (kre & trace & m & pA & pS & l & h & E & Hrest).
  - discriminate.
  - vm_compute. reflexivity.
  - exact Hready.
  - exists l, h. rewrite E. split; [reflexivity|]. apply Hrest.
Defined.
